(** * AMQP common transport (iothubtransport_amqp_common.c)

    A shallow embedding of the multi-device AMQP transport of the Azure IoT
    C SDK: the device registry, credential acceptance, the per-device state
    machine, the driver tick with connection retry, the event and disposition
    pipelines and the option surface.

    Conventions of the embedding.
    - A C pointer is an address [addr]; objects owned by the caller live at
      [user_ptr] addresses, objects allocated by the transport or its
      collaborators at [heap_ptr] addresses taken from the allocator counter
      of the [world].  A [const char*] is a [cstr]: the address it points to
      together with the characters stored there.  Pointer comparison compares
      addresses, [strcmp] compares characters.
    - [size_t] counters are [Z] with the wrap-around of [x++] written out.
    - Every function returns, next to its C result, the list of calls it made
      to its collaborators (device session, connection, byte-stream, option
      store, clock, upper client), in program order.
    - The outcome of each collaborator call is read from an [ENV] record.
    - Callbacks invoked by the collaborators are functions of their own;
      [step] and [run] interleave them with the public operations. *)

From Stdlib Require Import ZArith List String Bool Lia.
Import ListNotations.
Open Scope Z_scope.

(** ** Pointers and strings *)

Inductive addr : Type :=
| user_ptr (n : nat)
| heap_ptr (n : nat).

Definition addr_eq_dec (a b : addr) : {a = b} + {a <> b}.
Proof. decide equality; apply Nat.eq_dec. Defined.

Definition addr_eqb (a b : addr) : bool :=
  if addr_eq_dec a b then true else false.

Record cstr : Type := mk_cstr { c_addr : addr; c_chars : string }.

(** [STRING_HANDLE]: an owned string; [STRING_c_str] is its buffer. *)
Definition STRING_HANDLE := cstr.
Definition STRING_c_str (s : STRING_HANDLE) : cstr := s.

Definition DEVICE_HANDLE := addr.
Definition IOTHUB_DEVICE_HANDLE := addr.
Definition IOTHUB_CLIENT_LL_HANDLE := addr.
Definition IOTHUB_MESSAGE_HANDLE := addr.
Definition XIO_HANDLE := addr.
Definition AMQP_CONNECTION_HANDLE := addr.
Definition OPTIONHANDLER_HANDLE := addr.
Definition time_t := Z.
Definition delivery_number := Z.

(** ** Constants (lines 37-44) *)

Inductive int_result : Type := RESULT_OK | FAILURE.

Definition INDEFINITE_TIME : time_t := -1.
Definition DEFAULT_CBS_REQUEST_TIMEOUT_SECS : Z := 30.
Definition DEFAULT_DEVICE_STATE_CHANGE_TIMEOUT_SECS : Z := 60.
Definition DEFAULT_EVENT_SEND_TIMEOUT_SECS : Z := 300.
Definition DEFAULT_SAS_TOKEN_LIFETIME_SECS : Z := 3600.
Definition DEFAULT_SAS_TOKEN_REFRESH_TIME_SECS : Z := 1800.
Definition MAX_NUMBER_OF_DEVICE_FAILURES : Z := 5.

(** [size_t] on the LP64 targets of the SDK. *)
Definition SIZE_T_MODULUS : Z := 2 ^ 64.
Definition size_t_incr (x : Z) : Z := (x + 1) mod SIZE_T_MODULUS.
Arguments size_t_incr : simpl never.

(** ** Enumerations *)

Inductive AMQP_TRANSPORT_AUTHENTICATION_MODE : Type :=
| AMQP_TRANSPORT_AUTHENTICATION_MODE_NOT_SET
| AMQP_TRANSPORT_AUTHENTICATION_MODE_CBS
| AMQP_TRANSPORT_AUTHENTICATION_MODE_X509.

(** Modelled from the spec: the enumerations below are declared in headers
    of the device-session, connection and client modules, which are not part
    of the sources at hand; their members are the ones the spec lists and the
    transport names.  A C enumeration can hold a value outside its members:
    the [_OTHER] constructors stand for such values where the transport has
    a fall-through branch for them. *)
Inductive DEVICE_AUTH_MODE : Type :=
| DEVICE_AUTH_MODE_CBS
| DEVICE_AUTH_MODE_X509.

Inductive DEVICE_STATE : Type :=
| DEVICE_STATE_STOPPED
| DEVICE_STATE_STOPPING
| DEVICE_STATE_STARTING
| DEVICE_STATE_STARTED
| DEVICE_STATE_ERROR_AUTH
| DEVICE_STATE_ERROR_AUTH_TIMEOUT
| DEVICE_STATE_ERROR_MSG.

Inductive AMQP_CONNECTION_STATE : Type :=
| AMQP_CONNECTION_STATE_OPENED
| AMQP_CONNECTION_STATE_CLOSED
| AMQP_CONNECTION_STATE_OPENING
| AMQP_CONNECTION_STATE_ERROR.

Inductive D2C_EVENT_SEND_RESULT : Type :=
| D2C_EVENT_SEND_COMPLETE_RESULT_OK
| D2C_EVENT_SEND_COMPLETE_RESULT_ERROR_CANNOT_PARSE
| D2C_EVENT_SEND_COMPLETE_RESULT_ERROR_FAIL_SENDING
| D2C_EVENT_SEND_COMPLETE_RESULT_ERROR_TIMEOUT
| D2C_EVENT_SEND_COMPLETE_RESULT_DEVICE_DESTROYED
| D2C_EVENT_SEND_COMPLETE_RESULT_ERROR_UNKNOWN
| D2C_EVENT_SEND_COMPLETE_RESULT_OTHER (raw : Z).

Inductive IOTHUB_CLIENT_CONFIRMATION_RESULT : Type :=
| IOTHUB_CLIENT_CONFIRMATION_OK
| IOTHUB_CLIENT_CONFIRMATION_BECAUSE_DESTROY
| IOTHUB_CLIENT_CONFIRMATION_MESSAGE_TIMEOUT
| IOTHUB_CLIENT_CONFIRMATION_ERROR.

Inductive IOTHUBMESSAGE_DISPOSITION_RESULT : Type :=
| IOTHUBMESSAGE_ACCEPTED
| IOTHUBMESSAGE_REJECTED
| IOTHUBMESSAGE_ABANDONED
| IOTHUBMESSAGE_OTHER (raw : Z).

Inductive DEVICE_MESSAGE_DISPOSITION_RESULT : Type :=
| DEVICE_MESSAGE_DISPOSITION_RESULT_NONE
| DEVICE_MESSAGE_DISPOSITION_RESULT_ACCEPTED
| DEVICE_MESSAGE_DISPOSITION_RESULT_REJECTED
| DEVICE_MESSAGE_DISPOSITION_RESULT_RELEASED.

Inductive IOTHUB_CLIENT_RESULT : Type :=
| IOTHUB_CLIENT_OK
| IOTHUB_CLIENT_INVALID_ARG
| IOTHUB_CLIENT_ERROR.

Inductive DEVICE_OPTION : Type :=
| DEVICE_OPTION_EVENT_SEND_TIMEOUT_SECS
| DEVICE_OPTION_CBS_REQUEST_TIMEOUT_SECS
| DEVICE_OPTION_SAS_TOKEN_REFRESH_TIME_SECS
| DEVICE_OPTION_SAS_TOKEN_LIFETIME_SECS.

Definition DEVICE_STATE_eq_dec (a b : DEVICE_STATE) : {a = b} + {a <> b}.
Proof. decide equality. Defined.

Definition AMQP_CONNECTION_STATE_eq_dec (a b : AMQP_CONNECTION_STATE) :
  {a = b} + {a <> b}.
Proof. decide equality. Defined.

Definition AUTHENTICATION_MODE_eq_dec
  (a b : AMQP_TRANSPORT_AUTHENTICATION_MODE) : {a = b} + {a <> b}.
Proof. decide equality. Defined.

Definition D2C_EVENT_SEND_RESULT_eq_dec (a b : D2C_EVENT_SEND_RESULT) :
  {a = b} + {a <> b}.
Proof. decide equality; apply Z.eq_dec. Defined.

(** ** Structures *)

(** [IOTHUB_MESSAGE_LIST]: an entry of a device's waiting-to-send list. *)
Record IOTHUB_MESSAGE_LIST : Type := mk_message {
  messageHandle : IOTHUB_MESSAGE_HANDLE;
  callback : option addr;
  context : addr
}.

(** [IOTHUB_DEVICE_CONFIG]: what the upper client hands to Register. *)
Record IOTHUB_DEVICE_CONFIG : Type := mk_device_config {
  deviceId : option cstr;
  deviceKey : option cstr;
  deviceSasToken : option cstr
}.

(** [DEVICE_CONFIG]: what Register hands to [device_create]. *)
Record DEVICE_CONFIG : Type := mk_DEVICE_CONFIG {
  cfg_device_id : cstr;
  cfg_iothub_host_fqdn : cstr;
  cfg_device_primary_key : option cstr;
  cfg_device_sas_token : option cstr;
  cfg_authentication_mode : DEVICE_AUTH_MODE;
  cfg_on_state_changed_context : IOTHUB_DEVICE_HANDLE
}.

(** [AMQP_TRANSPORT_DEVICE_INSTANCE] (lines 75-95).  The back-reference
    [transport_instance] is implicit: a [world] holds one transport.  The
    caller-owned list behind [waiting_to_send] is kept by its contents. *)
Record AMQP_TRANSPORT_DEVICE_INSTANCE : Type := mk_device {
  device_id : STRING_HANDLE;
  device_handle : DEVICE_HANDLE;
  iothub_client_handle : IOTHUB_CLIENT_LL_HANDLE;
  waiting_to_send : list IOTHUB_MESSAGE_LIST;
  device_state : DEVICE_STATE;
  number_of_previous_failures : Z;
  number_of_send_event_complete_failures : Z;
  time_of_last_state_change : time_t;
  max_state_change_timeout_secs : Z
}.

(** An item of [registered_devices]: the pointer stored in the list, next to
    the instance it points to. *)
Definition LIST_ITEM : Type :=
  (IOTHUB_DEVICE_HANDLE * AMQP_TRANSPORT_DEVICE_INSTANCE)%type.

(** [AMQP_TRANSPORT_INSTANCE] (lines 56-73). *)
Record AMQP_TRANSPORT_INSTANCE : Type := mk_transport {
  iothub_host_fqdn : STRING_HANDLE;
  tls_io : option XIO_HANDLE;
  amqp_connection : option AMQP_CONNECTION_HANDLE;
  amqp_connection_state : AMQP_CONNECTION_STATE;
  preferred_authentication_mode : AMQP_TRANSPORT_AUTHENTICATION_MODE;
  registered_devices : list LIST_ITEM;
  is_trace_on : bool;
  saved_tls_options : option OPTIONHANDLER_HANDLE;
  is_connection_retry_required : bool;
  option_sas_token_lifetime_secs : Z;
  option_sas_token_refresh_time_secs : Z;
  option_cbs_request_timeout_secs : Z;
  option_send_event_timeout_secs : Z
}.

(** [MESSAGE_DISPOSITION_CONTEXT] (lines 97-102) and the
    [MESSAGE_CALLBACK_INFO] that carries it to the upper client. *)
Record MESSAGE_DISPOSITION_CONTEXT : Type := mk_disposition_context {
  ctx_device_state : IOTHUB_DEVICE_HANDLE;
  link_name : cstr;
  message_id : delivery_number
}.

Record MESSAGE_CALLBACK_INFO : Type := mk_callback_info {
  cb_messageHandle : option IOTHUB_MESSAGE_HANDLE;
  transportContext : option MESSAGE_DISPOSITION_CONTEXT
}.

Record DEVICE_MESSAGE_DISPOSITION_INFO : Type := mk_disposition_info {
  info_source : cstr;
  info_message_id : delivery_number
}.

(** ** Calls to collaborators *)

Inductive call : Type :=
| call_get_time (now : time_t)
| call_device_create (cfg : DEVICE_CONFIG) (ok : bool)
| call_device_destroy (h : DEVICE_HANDLE)
| call_device_set_option (h : DEVICE_HANDLE) (o : DEVICE_OPTION) (v : Z)
    (ok : bool)
| call_device_start_async (h : DEVICE_HANDLE) (with_cbs : bool) (ok : bool)
| call_device_stop (h : DEVICE_HANDLE) (ok : bool)
| call_device_do_work (h : DEVICE_HANDLE)
| call_device_send_event_async (h : DEVICE_HANDLE)
    (m : IOTHUB_MESSAGE_LIST) (ok : bool)
| call_device_send_message_disposition (h : DEVICE_HANDLE)
    (info : DEVICE_MESSAGE_DISPOSITION_INFO)
    (r : DEVICE_MESSAGE_DISPOSITION_RESULT) (ok : bool)
| call_amqp_connection_get_session_handle (ok : bool)
| call_amqp_connection_get_cbs_handle (ok : bool)
| call_amqp_connection_create (io : XIO_HANDLE) (trace_on : bool)
    (create_sasl_io create_cbs_connection : bool) (ok : bool)
| call_amqp_connection_destroy (c : option AMQP_CONNECTION_HANDLE)
| call_amqp_connection_do_work (c : AMQP_CONNECTION_HANDLE)
| call_amqp_connection_set_logging (c : AMQP_CONNECTION_HANDLE)
    (on : bool) (ok : bool)
| call_underlying_io_transport_provider (fqdn : cstr) (ok : bool)
| call_xio_retrieveoptions (io : XIO_HANDLE) (ok : bool)
| call_xio_setoption (io : XIO_HANDLE) (name : string) (ok : bool)
| call_xio_destroy (io : XIO_HANDLE)
| call_OptionHandler_FeedOptions (o : OPTIONHANDLER_HANDLE)
    (io : XIO_HANDLE) (ok : bool)
| call_OptionHandler_Destroy (o : OPTIONHANDLER_HANDLE)
| call_IoTHubClient_LL_MessageCallback (client : IOTHUB_CLIENT_LL_HANDLE)
    (m : IOTHUB_MESSAGE_HANDLE) (ok : bool)
| call_message_callback (cb : addr) (r : IOTHUB_CLIENT_CONFIRMATION_RESULT)
    (ctx : addr)
| call_IoTHubMessage_Destroy (m : IOTHUB_MESSAGE_HANDLE)
| call_free_message (m : IOTHUB_MESSAGE_LIST)
| call_MESSAGE_CALLBACK_INFO_Destroy (ctx : MESSAGE_DISPOSITION_CONTEXT)
| call_destroy_device_message_disposition_info
    (info : DEVICE_MESSAGE_DISPOSITION_INFO).

(** ** Outcomes of the collaborators

    [env_malloc n] answers the [n]-th [malloc] of the function that asks;
    the per-device answers are indexed by the device-session handle. *)

Record ENV : Type := mk_env {
  env_malloc : nat -> bool;
  env_STRING_construct : bool;
  env_mallocAndStrcpy_s : bool;
  env_singlylinkedlist_create : bool;
  env_singlylinkedlist_add : bool;
  env_get_time : DEVICE_HANDLE -> time_t;
  env_device_create : bool;
  env_device_set_option : DEVICE_HANDLE -> DEVICE_OPTION -> bool;
  env_device_start_async : DEVICE_HANDLE -> bool;
  env_device_stop : DEVICE_HANDLE -> bool;
  env_device_send_event_async : DEVICE_HANDLE -> IOTHUB_MESSAGE_LIST -> bool;
  env_device_send_message_disposition : DEVICE_HANDLE -> bool;
  env_amqp_connection_get_session_handle : bool;
  env_amqp_connection_get_cbs_handle : bool;
  env_amqp_connection_create : bool;
  env_amqp_connection_set_logging : bool;
  env_underlying_io_transport_provider : bool;
  env_xio_retrieveoptions : bool;
  env_xio_setoption : bool;
  env_OptionHandler_FeedOptions : bool;
  env_IoTHubClient_LL_MessageCallback : bool
}.

(** The transport together with the allocator. *)
Record world : Type := mk_world {
  w_next : nat;
  w_transport : AMQP_TRANSPORT_INSTANCE
}.

Definition is_NULL {A : Type} (p : option A) : bool :=
  match p with None => true | Some _ => false end.

Definition not_NULL {A : Type} (p : option A) : bool := negb (is_NULL p).

(** ** General helpers *)

(** Modelled from the spec: [get_difftime] of the agenttime module is not
    part of the sources at hand; it measures the seconds elapsed between two
    clock readings. *)
Definition get_difftime (stop_time start_time : time_t) : Z :=
  stop_time - start_time.

(** [is_timeout_reached] (lines 112-146).  [None] is the [__FAILURE__]
    return; [Some b] is [RESULT_OK] with [*is_timed_out = b].  [now] is what
    [get_time] answers when it is asked. *)
Definition is_timeout_reached (now : time_t) (start_time : time_t)
  (timeout_in_secs : Z) : option bool * list call :=
  if start_time =? INDEFINITE_TIME then (None, [])
  else
    let current_time := now in
    if current_time =? INDEFINITE_TIME then (None, [call_get_time now])
    else if get_difftime current_time start_time >=? timeout_in_secs
         then (Some true, [call_get_time now])
         else (Some false, [call_get_time now]).

(** ** Credential acceptance (lines 691-721) *)

Definition is_device_credential_acceptable
  (device_config : IOTHUB_DEVICE_CONFIG)
  (preferred : AMQP_TRANSPORT_AUTHENTICATION_MODE) : bool :=
  if not_NULL (deviceSasToken device_config)
     && not_NULL (deviceKey device_config) then false
  else if AUTHENTICATION_MODE_eq_dec preferred
            AMQP_TRANSPORT_AUTHENTICATION_MODE_NOT_SET then true
  else if (if AUTHENTICATION_MODE_eq_dec preferred
                AMQP_TRANSPORT_AUTHENTICATION_MODE_X509
           then true else false)
          && (not_NULL (deviceKey device_config)
              || not_NULL (deviceSasToken device_config)) then false
  else if (if AUTHENTICATION_MODE_eq_dec preferred
                AMQP_TRANSPORT_AUTHENTICATION_MODE_X509
           then false else true)
          && (is_NULL (deviceKey device_config)
              && is_NULL (deviceSasToken device_config)) then false
  else true.

(** The authentication mode Register derives for the device (line 1700). *)
Definition device_authentication_mode (device : IOTHUB_DEVICE_CONFIG) :
  DEVICE_AUTH_MODE :=
  if not_NULL (deviceKey device) || not_NULL (deviceSasToken device)
  then DEVICE_AUTH_MODE_CBS else DEVICE_AUTH_MODE_X509.

(** ** Field updates *)

Definition set_waiting_to_send (d : AMQP_TRANSPORT_DEVICE_INSTANCE)
  (q : list IOTHUB_MESSAGE_LIST) : AMQP_TRANSPORT_DEVICE_INSTANCE :=
  mk_device (device_id d) (device_handle d) (iothub_client_handle d) q
    (device_state d) (number_of_previous_failures d)
    (number_of_send_event_complete_failures d) (time_of_last_state_change d)
    (max_state_change_timeout_secs d).

Definition set_device_state (d : AMQP_TRANSPORT_DEVICE_INSTANCE)
  (s : DEVICE_STATE) : AMQP_TRANSPORT_DEVICE_INSTANCE :=
  mk_device (device_id d) (device_handle d) (iothub_client_handle d)
    (waiting_to_send d) s (number_of_previous_failures d)
    (number_of_send_event_complete_failures d) (time_of_last_state_change d)
    (max_state_change_timeout_secs d).

Definition set_number_of_previous_failures
  (d : AMQP_TRANSPORT_DEVICE_INSTANCE) (n : Z) :
  AMQP_TRANSPORT_DEVICE_INSTANCE :=
  mk_device (device_id d) (device_handle d) (iothub_client_handle d)
    (waiting_to_send d) (device_state d) n
    (number_of_send_event_complete_failures d) (time_of_last_state_change d)
    (max_state_change_timeout_secs d).

Definition set_number_of_send_event_complete_failures
  (d : AMQP_TRANSPORT_DEVICE_INSTANCE) (n : Z) :
  AMQP_TRANSPORT_DEVICE_INSTANCE :=
  mk_device (device_id d) (device_handle d) (iothub_client_handle d)
    (waiting_to_send d) (device_state d) (number_of_previous_failures d)
    n (time_of_last_state_change d) (max_state_change_timeout_secs d).

Definition set_time_of_last_state_change
  (d : AMQP_TRANSPORT_DEVICE_INSTANCE) (t : time_t) :
  AMQP_TRANSPORT_DEVICE_INSTANCE :=
  mk_device (device_id d) (device_handle d) (iothub_client_handle d)
    (waiting_to_send d) (device_state d) (number_of_previous_failures d)
    (number_of_send_event_complete_failures d) t
    (max_state_change_timeout_secs d).

Definition set_tls_io (t : AMQP_TRANSPORT_INSTANCE) (io : option XIO_HANDLE) :
  AMQP_TRANSPORT_INSTANCE :=
  mk_transport (iothub_host_fqdn t) io (amqp_connection t)
    (amqp_connection_state t) (preferred_authentication_mode t)
    (registered_devices t) (is_trace_on t) (saved_tls_options t)
    (is_connection_retry_required t) (option_sas_token_lifetime_secs t)
    (option_sas_token_refresh_time_secs t) (option_cbs_request_timeout_secs t)
    (option_send_event_timeout_secs t).

Definition set_amqp_connection (t : AMQP_TRANSPORT_INSTANCE)
  (c : option AMQP_CONNECTION_HANDLE) : AMQP_TRANSPORT_INSTANCE :=
  mk_transport (iothub_host_fqdn t) (tls_io t) c
    (amqp_connection_state t) (preferred_authentication_mode t)
    (registered_devices t) (is_trace_on t) (saved_tls_options t)
    (is_connection_retry_required t) (option_sas_token_lifetime_secs t)
    (option_sas_token_refresh_time_secs t) (option_cbs_request_timeout_secs t)
    (option_send_event_timeout_secs t).

Definition set_amqp_connection_state (t : AMQP_TRANSPORT_INSTANCE)
  (s : AMQP_CONNECTION_STATE) : AMQP_TRANSPORT_INSTANCE :=
  mk_transport (iothub_host_fqdn t) (tls_io t) (amqp_connection t)
    s (preferred_authentication_mode t)
    (registered_devices t) (is_trace_on t) (saved_tls_options t)
    (is_connection_retry_required t) (option_sas_token_lifetime_secs t)
    (option_sas_token_refresh_time_secs t) (option_cbs_request_timeout_secs t)
    (option_send_event_timeout_secs t).

Definition set_preferred_authentication_mode (t : AMQP_TRANSPORT_INSTANCE)
  (m : AMQP_TRANSPORT_AUTHENTICATION_MODE) : AMQP_TRANSPORT_INSTANCE :=
  mk_transport (iothub_host_fqdn t) (tls_io t) (amqp_connection t)
    (amqp_connection_state t) m
    (registered_devices t) (is_trace_on t) (saved_tls_options t)
    (is_connection_retry_required t) (option_sas_token_lifetime_secs t)
    (option_sas_token_refresh_time_secs t) (option_cbs_request_timeout_secs t)
    (option_send_event_timeout_secs t).

Definition set_registered_devices (t : AMQP_TRANSPORT_INSTANCE)
  (l : list LIST_ITEM) : AMQP_TRANSPORT_INSTANCE :=
  mk_transport (iothub_host_fqdn t) (tls_io t) (amqp_connection t)
    (amqp_connection_state t) (preferred_authentication_mode t)
    l (is_trace_on t) (saved_tls_options t)
    (is_connection_retry_required t) (option_sas_token_lifetime_secs t)
    (option_sas_token_refresh_time_secs t) (option_cbs_request_timeout_secs t)
    (option_send_event_timeout_secs t).

Definition set_is_trace_on (t : AMQP_TRANSPORT_INSTANCE) (b : bool) :
  AMQP_TRANSPORT_INSTANCE :=
  mk_transport (iothub_host_fqdn t) (tls_io t) (amqp_connection t)
    (amqp_connection_state t) (preferred_authentication_mode t)
    (registered_devices t) b (saved_tls_options t)
    (is_connection_retry_required t) (option_sas_token_lifetime_secs t)
    (option_sas_token_refresh_time_secs t) (option_cbs_request_timeout_secs t)
    (option_send_event_timeout_secs t).

Definition set_saved_tls_options (t : AMQP_TRANSPORT_INSTANCE)
  (o : option OPTIONHANDLER_HANDLE) : AMQP_TRANSPORT_INSTANCE :=
  mk_transport (iothub_host_fqdn t) (tls_io t) (amqp_connection t)
    (amqp_connection_state t) (preferred_authentication_mode t)
    (registered_devices t) (is_trace_on t) o
    (is_connection_retry_required t) (option_sas_token_lifetime_secs t)
    (option_sas_token_refresh_time_secs t) (option_cbs_request_timeout_secs t)
    (option_send_event_timeout_secs t).

Definition set_is_connection_retry_required (t : AMQP_TRANSPORT_INSTANCE)
  (b : bool) : AMQP_TRANSPORT_INSTANCE :=
  mk_transport (iothub_host_fqdn t) (tls_io t) (amqp_connection t)
    (amqp_connection_state t) (preferred_authentication_mode t)
    (registered_devices t) (is_trace_on t) (saved_tls_options t)
    b (option_sas_token_lifetime_secs t)
    (option_sas_token_refresh_time_secs t) (option_cbs_request_timeout_secs t)
    (option_send_event_timeout_secs t).

(** The transport's stored default of a device-scoped option. *)
Definition transport_option (t : AMQP_TRANSPORT_INSTANCE) (o : DEVICE_OPTION) :
  Z :=
  match o with
  | DEVICE_OPTION_SAS_TOKEN_LIFETIME_SECS => option_sas_token_lifetime_secs t
  | DEVICE_OPTION_SAS_TOKEN_REFRESH_TIME_SECS =>
      option_sas_token_refresh_time_secs t
  | DEVICE_OPTION_CBS_REQUEST_TIMEOUT_SECS => option_cbs_request_timeout_secs t
  | DEVICE_OPTION_EVENT_SEND_TIMEOUT_SECS => option_send_event_timeout_secs t
  end.

Definition set_transport_option (t : AMQP_TRANSPORT_INSTANCE)
  (o : DEVICE_OPTION) (v : Z) : AMQP_TRANSPORT_INSTANCE :=
  mk_transport (iothub_host_fqdn t) (tls_io t) (amqp_connection t)
    (amqp_connection_state t) (preferred_authentication_mode t)
    (registered_devices t) (is_trace_on t) (saved_tls_options t)
    (is_connection_retry_required t)
    (match o with DEVICE_OPTION_SAS_TOKEN_LIFETIME_SECS => v
                | _ => option_sas_token_lifetime_secs t end)
    (match o with DEVICE_OPTION_SAS_TOKEN_REFRESH_TIME_SECS => v
                | _ => option_sas_token_refresh_time_secs t end)
    (match o with DEVICE_OPTION_CBS_REQUEST_TIMEOUT_SECS => v
                | _ => option_cbs_request_timeout_secs t end)
    (match o with DEVICE_OPTION_EVENT_SEND_TIMEOUT_SECS => v
                | _ => option_send_event_timeout_secs t end).

Definition set_transport (w : world) (t : AMQP_TRANSPORT_INSTANCE) : world :=
  mk_world (w_next w) t.

(** [malloc] and the allocating constructors of the collaborators: the next
    unused heap address. *)
Definition alloc (w : world) : addr * world :=
  (heap_ptr (w_next w), mk_world (S (w_next w)) (w_transport w)).

(** ** Registry helpers (lines 191-250) *)

(** The pointee of a device handle, while the device is registered. *)
Fixpoint device_of (l : list LIST_ITEM) (h : IOTHUB_DEVICE_HANDLE) :
  option AMQP_TRANSPORT_DEVICE_INSTANCE :=
  match l with
  | [] => None
  | (h', d) :: rest => if addr_eq_dec h' h then Some d else device_of rest h
  end.

(** A write through a device pointer. *)
Fixpoint update_device (l : list LIST_ITEM) (h : IOTHUB_DEVICE_HANDLE)
  (f : AMQP_TRANSPORT_DEVICE_INSTANCE -> AMQP_TRANSPORT_DEVICE_INSTANCE) :
  list LIST_ITEM :=
  match l with
  | [] => []
  | (h', d) :: rest =>
      if addr_eq_dec h' h then (h', f d) :: update_device rest h f
      else (h', d) :: update_device rest h f
  end.

(** [on_device_state_changed_callback] (lines 193-204); [now] is the reading
    of [get_time] taken when the state is saved. *)
Definition on_device_state_changed_callback (now : time_t)
  (registered_devices : list LIST_ITEM)
  (context : option IOTHUB_DEVICE_HANDLE)
  (previous_state new_state : DEVICE_STATE) : list LIST_ITEM :=
  match context with
  | Some h =>
      if DEVICE_STATE_eq_dec new_state previous_state
      then registered_devices
      else update_device registered_devices h
             (fun d => set_time_of_last_state_change
                         (set_device_state d new_state) now)
  | None => registered_devices
  end.

(** [find_device_by_id_callback] (lines 208-233): the stored identifier and
    the match context are compared as pointers. *)
Definition find_device_by_id_callback (list_item : LIST_ITEM)
  (match_context : option cstr) : bool :=
  match match_context with
  | None => false
  | Some ctx =>
      let device_instance := snd list_item in
      if addr_eq_dec (c_addr (STRING_c_str (device_id device_instance)))
           (c_addr ctx)
      then true else false
  end.

(** [singlylinkedlist_find]: the first item the callback accepts. *)
Definition singlylinkedlist_find (l : list LIST_ITEM)
  (match_context : option cstr) : option LIST_ITEM :=
  find (fun item => find_device_by_id_callback item match_context) l.

(** [singlylinkedlist_remove] of the item returned by a find with the same
    match context: the first accepted item leaves the list. *)
Fixpoint singlylinkedlist_remove (l : list LIST_ITEM)
  (match_context : option cstr) : list LIST_ITEM :=
  match l with
  | [] => []
  | item :: rest =>
      if find_device_by_id_callback item match_context then rest
      else item :: singlylinkedlist_remove rest match_context
  end.

Definition is_device_registered_ex (registered_devices : list LIST_ITEM)
  (device_id : cstr) : option LIST_ITEM :=
  singlylinkedlist_find registered_devices (Some device_id).

Definition is_device_registered (registered_devices : list LIST_ITEM)
  (amqp_device_instance : AMQP_TRANSPORT_DEVICE_INSTANCE) : bool :=
  not_NULL (is_device_registered_ex registered_devices
              (STRING_c_str (device_id amqp_device_instance))).

(** ** Disposition helpers (lines 296-326) *)

Definition get_device_disposition_result_from
  (iothubclient_disposition_result : IOTHUBMESSAGE_DISPOSITION_RESULT) :
  DEVICE_MESSAGE_DISPOSITION_RESULT :=
  match iothubclient_disposition_result with
  | IOTHUBMESSAGE_ACCEPTED => DEVICE_MESSAGE_DISPOSITION_RESULT_ACCEPTED
  | IOTHUBMESSAGE_ABANDONED => DEVICE_MESSAGE_DISPOSITION_RESULT_RELEASED
  | IOTHUBMESSAGE_REJECTED => DEVICE_MESSAGE_DISPOSITION_RESULT_REJECTED
  | IOTHUBMESSAGE_OTHER _ => DEVICE_MESSAGE_DISPOSITION_RESULT_RELEASED
  end.

(** ** Underlying I/O helpers (lines 440-546) *)

Definition save_underlying_io_transport_options (env : ENV) (w : world) :
  int_result * world * list call :=
  match tls_io (w_transport w) with
  | None => (FAILURE, w, [])
  | Some io =>
      if env_xio_retrieveoptions env then
        let '(fresh_options, w1) := alloc w in
        let previous_options := saved_tls_options (w_transport w1) in
        let w2 := set_transport w1
                    (set_saved_tls_options (w_transport w1)
                       (Some fresh_options)) in
        (RESULT_OK, w2,
         call_xio_retrieveoptions io true ::
         match previous_options with
         | Some p => [call_OptionHandler_Destroy p]
         | None => []
         end)
      else (FAILURE, w, [call_xio_retrieveoptions io false])
  end.

Definition destroy_underlying_io_transport_options
  (t : AMQP_TRANSPORT_INSTANCE) : AMQP_TRANSPORT_INSTANCE * list call :=
  match saved_tls_options t with
  | Some o => (set_saved_tls_options t None, [call_OptionHandler_Destroy o])
  | None => (t, [])
  end.

Definition restore_underlying_io_transport_options (env : ENV)
  (t : AMQP_TRANSPORT_INSTANCE) (xio_handle : XIO_HANDLE) :
  int_result * list call :=
  match saved_tls_options t with
  | None => (RESULT_OK, [])
  | Some o =>
      if env_OptionHandler_FeedOptions env
      then (RESULT_OK, [call_OptionHandler_FeedOptions o xio_handle true])
      else (FAILURE, [call_OptionHandler_FeedOptions o xio_handle false])
  end.

Definition destroy_underlying_io_transport (t : AMQP_TRANSPORT_INSTANCE) :
  AMQP_TRANSPORT_INSTANCE * list call :=
  match tls_io t with
  | Some io => (set_tls_io t None, [call_xio_destroy io])
  | None => (t, [])
  end.

(** [get_new_underlying_io_transport]: the handle written through
    [xio_handle] is the first component ([None] is NULL). *)
Definition get_new_underlying_io_transport (env : ENV) (w : world) :
  int_result * option XIO_HANDLE * world * list call :=
  let fqdn := STRING_c_str (iothub_host_fqdn (w_transport w)) in
  if env_underlying_io_transport_provider env then
    let '(io, w1) := alloc w in
    let '(_, tr) :=
      restore_underlying_io_transport_options env (w_transport w1) io in
    (RESULT_OK, Some io, w1,
     call_underlying_io_transport_provider fqdn true :: tr)
  else
    (FAILURE, None, w, [call_underlying_io_transport_provider fqdn false]).

(** ** Connection establishment and retry (lines 551-686) *)

Definition on_amqp_connection_state_changed
  (context : option AMQP_TRANSPORT_INSTANCE)
  (previous_state new_state : AMQP_CONNECTION_STATE) :
  option AMQP_TRANSPORT_INSTANCE :=
  match context with
  | Some transport_instance =>
      if AMQP_CONNECTION_STATE_eq_dec new_state previous_state
      then Some transport_instance
      else
        let t1 := set_amqp_connection_state transport_instance new_state in
        if AMQP_CONNECTION_STATE_eq_dec new_state AMQP_CONNECTION_STATE_ERROR
        then Some (set_is_connection_retry_required t1 true)
        else Some t1
  | None => None
  end.

(** The tail of [establish_amqp_connection], once a byte-stream exists. *)
Definition create_amqp_connection (env : ENV) (w : world) (io : XIO_HANDLE) :
  int_result * world * list call :=
  let t := w_transport w in
  let sasl_cbs :=
    if AUTHENTICATION_MODE_eq_dec (preferred_authentication_mode t)
         AMQP_TRANSPORT_AUTHENTICATION_MODE_CBS
    then true else false in
  let w1 := set_transport w
              (set_amqp_connection_state t AMQP_CONNECTION_STATE_CLOSED) in
  if env_amqp_connection_create env then
    let '(c, w2) := alloc w1 in
    (RESULT_OK,
     set_transport w2 (set_amqp_connection (w_transport w2) (Some c)),
     [call_amqp_connection_create io (is_trace_on t) sasl_cbs sasl_cbs true])
  else
    (FAILURE,
     set_transport w1 (set_amqp_connection (w_transport w1) None),
     [call_amqp_connection_create io (is_trace_on t) sasl_cbs sasl_cbs false]).

Definition establish_amqp_connection (env : ENV) (w : world) :
  int_result * world * list call :=
  let t := w_transport w in
  if AUTHENTICATION_MODE_eq_dec (preferred_authentication_mode t)
       AMQP_TRANSPORT_AUTHENTICATION_MODE_NOT_SET
  then (FAILURE, w, [])
  else
    match tls_io t with
    | None =>
        let '(r, io, w1, tr) := get_new_underlying_io_transport env w in
        let w2 := set_transport w1 (set_tls_io (w_transport w1) io) in
        match r, io with
        | RESULT_OK, Some io' =>
            let '(r2, w3, tr2) := create_amqp_connection env w2 io' in
            (r2, w3, tr ++ tr2)
        | _, _ => (FAILURE, w2, tr)
        end
    | Some io => create_amqp_connection env w io
    end.

Definition prepare_device_for_connection_retry (env : ENV)
  (registered_device : AMQP_TRANSPORT_DEVICE_INSTANCE) :
  AMQP_TRANSPORT_DEVICE_INSTANCE * list call :=
  let h := device_handle registered_device in
  let tr :=
    if DEVICE_STATE_eq_dec (device_state registered_device)
         DEVICE_STATE_STOPPED
    then []
    else [call_device_stop h (env_device_stop env h)] in
  (set_number_of_send_event_complete_failures
     (set_number_of_previous_failures registered_device 0) 0,
   tr).

(** The [while] loop of [prepare_for_connection_retry] over the list. *)
Fixpoint prepare_devices_for_connection_retry (env : ENV)
  (l : list LIST_ITEM) : list LIST_ITEM * list call :=
  match l with
  | [] => ([], [])
  | (h, registered_device) :: rest =>
      let '(d', tr) :=
        prepare_device_for_connection_retry env registered_device in
      let '(rest', tr') := prepare_devices_for_connection_retry env rest in
      ((h, d') :: rest', tr ++ tr')
  end.

Definition prepare_for_connection_retry (env : ENV) (w : world) :
  world * list call :=
  let '(_, w1, tr_save) := save_underlying_io_transport_options env w in
  let t1 := w_transport w1 in
  let '(devices, tr_devices) :=
    prepare_devices_for_connection_retry env (registered_devices t1) in
  let t2 := set_registered_devices t1 devices in
  let tr_conn := [call_amqp_connection_destroy (amqp_connection t2)] in
  let t3 := set_amqp_connection_state (set_amqp_connection t2 None)
              AMQP_CONNECTION_STATE_CLOSED in
  let '(t4, tr_io) := destroy_underlying_io_transport t3 in
  (set_transport w1 t4, tr_save ++ tr_devices ++ tr_conn ++ tr_io).

(** ** Event pipeline (lines 727-836) *)

Definition get_next_event_to_send
  (registered_device : AMQP_TRANSPORT_DEVICE_INSTANCE) :
  option IOTHUB_MESSAGE_LIST * AMQP_TRANSPORT_DEVICE_INSTANCE :=
  match waiting_to_send registered_device with
  | message :: rest =>
      (Some message, set_waiting_to_send registered_device rest)
  | [] => (None, registered_device)
  end.

Definition get_iothub_client_confirmation_result_from
  (result : D2C_EVENT_SEND_RESULT) : IOTHUB_CLIENT_CONFIRMATION_RESULT :=
  match result with
  | D2C_EVENT_SEND_COMPLETE_RESULT_OK => IOTHUB_CLIENT_CONFIRMATION_OK
  | D2C_EVENT_SEND_COMPLETE_RESULT_ERROR_CANNOT_PARSE
  | D2C_EVENT_SEND_COMPLETE_RESULT_ERROR_FAIL_SENDING =>
      IOTHUB_CLIENT_CONFIRMATION_ERROR
  | D2C_EVENT_SEND_COMPLETE_RESULT_ERROR_TIMEOUT =>
      IOTHUB_CLIENT_CONFIRMATION_MESSAGE_TIMEOUT
  | D2C_EVENT_SEND_COMPLETE_RESULT_DEVICE_DESTROYED =>
      IOTHUB_CLIENT_CONFIRMATION_BECAUSE_DESTROY
  | D2C_EVENT_SEND_COMPLETE_RESULT_ERROR_UNKNOWN
  | D2C_EVENT_SEND_COMPLETE_RESULT_OTHER _ =>
      IOTHUB_CLIENT_CONFIRMATION_ERROR
  end.

Definition on_event_send_complete (message : IOTHUB_MESSAGE_LIST)
  (result : D2C_EVENT_SEND_RESULT)
  (registered_device : AMQP_TRANSPORT_DEVICE_INSTANCE) :
  AMQP_TRANSPORT_DEVICE_INSTANCE * list call :=
  let d1 :=
    if (if D2C_EVENT_SEND_RESULT_eq_dec result
             D2C_EVENT_SEND_COMPLETE_RESULT_OK then false else true)
       && (if D2C_EVENT_SEND_RESULT_eq_dec result
                D2C_EVENT_SEND_COMPLETE_RESULT_DEVICE_DESTROYED
           then false else true)
    then set_number_of_send_event_complete_failures registered_device
           (size_t_incr
              (number_of_send_event_complete_failures registered_device))
    else set_number_of_send_event_complete_failures registered_device 0 in
  let tr_callback :=
    match callback message with
    | Some cb =>
        [call_message_callback cb
           (get_iothub_client_confirmation_result_from result)
           (context message)]
    | None => []
    end in
  (d1, tr_callback ++ [call_IoTHubMessage_Destroy (messageHandle message);
                       call_free_message message]).

(** The [while] loop of [send_pending_events]; [q] is what the waiting list
    holds when the loop is entered. *)
Fixpoint send_pending_events_loop (env : ENV)
  (device_state : AMQP_TRANSPORT_DEVICE_INSTANCE)
  (q : list IOTHUB_MESSAGE_LIST) :
  int_result * AMQP_TRANSPORT_DEVICE_INSTANCE * list call :=
  match q with
  | [] => (RESULT_OK, device_state, [])
  | message :: rest =>
      let d1 := set_waiting_to_send device_state rest in
      let h := device_handle d1 in
      if env_device_send_event_async env h message then
        let '(r, d2, tr) := send_pending_events_loop env d1 rest in
        (r, d2, call_device_send_event_async h message true :: tr)
      else
        let '(d2, tr) :=
          on_event_send_complete message
            D2C_EVENT_SEND_COMPLETE_RESULT_ERROR_FAIL_SENDING d1 in
        (FAILURE, d2, call_device_send_event_async h message false :: tr)
  end.

Definition send_pending_events (env : ENV)
  (device_state : AMQP_TRANSPORT_DEVICE_INSTANCE) :
  int_result * AMQP_TRANSPORT_DEVICE_INSTANCE * list call :=
  send_pending_events_loop env device_state (waiting_to_send device_state).

(** ** The per-device tick (lines 844-960) *)

Definition is_CBS (m : AMQP_TRANSPORT_AUTHENTICATION_MODE) : bool :=
  if AUTHENTICATION_MODE_eq_dec m AMQP_TRANSPORT_AUTHENTICATION_MODE_CBS
  then true else false.

(** The branch taken when the device is STOPPED (lines 851-882). *)
Definition start_stopped_device (env : ENV) (t : AMQP_TRANSPORT_INSTANCE)
  (registered_device : AMQP_TRANSPORT_DEVICE_INSTANCE) :
  int_result * list call :=
  let h := device_handle registered_device in
  let cbs := is_CBS (preferred_authentication_mode t) in
  if negb (env_amqp_connection_get_session_handle env) then
    (FAILURE, [call_amqp_connection_get_session_handle false])
  else if cbs && negb (env_amqp_connection_get_cbs_handle env) then
    (FAILURE, [call_amqp_connection_get_session_handle true;
               call_amqp_connection_get_cbs_handle false])
  else
    let tr_handles :=
      call_amqp_connection_get_session_handle true ::
      (if cbs then [call_amqp_connection_get_cbs_handle true] else []) in
    if negb (env_device_start_async env h) then
      (FAILURE, tr_handles ++ [call_device_start_async h cbs false])
    else
      (RESULT_OK, tr_handles ++ [call_device_start_async h cbs true]).

(** The branch taken in STARTING or STOPPING (lines 883-905). *)
Definition check_state_change_timeout (env : ENV)
  (registered_device : AMQP_TRANSPORT_DEVICE_INSTANCE) :
  int_result * AMQP_TRANSPORT_DEVICE_INSTANCE * list call :=
  let '(r, tr) :=
    is_timeout_reached (env_get_time env (device_handle registered_device))
      (time_of_last_state_change registered_device)
      (max_state_change_timeout_secs registered_device) in
  match r with
  | None =>
      (FAILURE, set_device_state registered_device DEVICE_STATE_ERROR_AUTH, tr)
  | Some true =>
      (FAILURE, set_device_state registered_device DEVICE_STATE_ERROR_AUTH, tr)
  | Some false => (RESULT_OK, registered_device, tr)
  end.

(** The branch taken in one of the error states (lines 906-928). *)
Definition handle_device_failure (env : ENV)
  (registered_device : AMQP_TRANSPORT_DEVICE_INSTANCE) :
  int_result * AMQP_TRANSPORT_DEVICE_INSTANCE * list call :=
  let h := device_handle registered_device in
  let d1 := set_number_of_previous_failures registered_device
              (size_t_incr (number_of_previous_failures registered_device)) in
  if number_of_previous_failures d1 >=? MAX_NUMBER_OF_DEVICE_FAILURES then
    (FAILURE, d1, [])
  else if negb (env_device_stop env h) then
    (FAILURE, d1, [call_device_stop h false])
  else
    (RESULT_OK, d1, [call_device_stop h true]).

(** The branch taken when the device is STARTED (lines 941-954). *)
Definition drain_started_device (env : ENV)
  (registered_device : AMQP_TRANSPORT_DEVICE_INSTANCE) :
  int_result * AMQP_TRANSPORT_DEVICE_INSTANCE * list call :=
  let '(r, d1, tr) := send_pending_events env registered_device in
  match r with
  | FAILURE =>
      (FAILURE,
       set_number_of_previous_failures d1
         (size_t_incr (number_of_previous_failures d1)), tr)
  | RESULT_OK => (RESULT_OK, set_number_of_previous_failures d1 0, tr)
  end.

Definition IoTHubTransport_AMQP_Common_Device_DoWork (env : ENV)
  (t : AMQP_TRANSPORT_INSTANCE)
  (registered_device : AMQP_TRANSPORT_DEVICE_INSTANCE) :
  int_result * AMQP_TRANSPORT_DEVICE_INSTANCE * list call :=
  let '(result, d', tr) :=
    match device_state registered_device with
    | DEVICE_STATE_STARTED => drain_started_device env registered_device
    | DEVICE_STATE_STOPPED =>
        let '(r, tr) := start_stopped_device env t registered_device in
        (r, registered_device, tr)
    | DEVICE_STATE_STARTING
    | DEVICE_STATE_STOPPING => check_state_change_timeout env registered_device
    | DEVICE_STATE_ERROR_AUTH
    | DEVICE_STATE_ERROR_AUTH_TIMEOUT
    | DEVICE_STATE_ERROR_MSG => handle_device_failure env registered_device
    end in
  (result, d', tr ++ [call_device_do_work (device_handle registered_device)]).

(** ** The driver tick (lines 1212-1285) *)

(** The [while] loop over the registered devices (lines 1249-1275): the new
    list, whether [is_connection_retry_required] was set, and the calls. *)
Fixpoint DoWork_devices (env : ENV) (t : AMQP_TRANSPORT_INSTANCE)
  (l : list LIST_ITEM) : list LIST_ITEM * bool * list call :=
  match l with
  | [] => ([], false, [])
  | (h, registered_device) :: rest =>
      let '(d', flag, tr) :=
        if number_of_send_event_complete_failures registered_device
           >=? MAX_NUMBER_OF_DEVICE_FAILURES
        then (registered_device, true, [])
        else
          let '(r, d1, tr1) :=
            IoTHubTransport_AMQP_Common_Device_DoWork env t
              registered_device in
          match r with
          | FAILURE =>
              (d1,
               number_of_previous_failures d1
               >=? MAX_NUMBER_OF_DEVICE_FAILURES, tr1)
          | RESULT_OK => (d1, false, tr1)
          end in
      let '(rest', flag', tr') := DoWork_devices env t rest in
      ((h, d') :: rest', flag || flag', tr ++ tr')
  end.

(** Lines 1236-1277: the branch taken when no retry is pending. *)
Definition DoWork_connected (env : ENV) (w : world) : world * list call :=
  match registered_devices (w_transport w) with
  | [] => (w, [])
  | _ :: _ =>
      let '(r, w1, tr_conn) :=
        match amqp_connection (w_transport w) with
        | None => establish_amqp_connection env w
        | Some _ => (RESULT_OK, w, [])
        end in
      match r with
      | FAILURE => (w1, tr_conn)
      | RESULT_OK =>
          let t1 := w_transport w1 in
          if AMQP_CONNECTION_STATE_eq_dec (amqp_connection_state t1)
               AMQP_CONNECTION_STATE_OPENED
          then
            let '(devices, flag, tr) :=
              DoWork_devices env t1 (registered_devices t1) in
            let t2 := set_registered_devices t1 devices in
            let t3 := if flag then set_is_connection_retry_required t2 true
                      else t2 in
            (set_transport w1 t3, tr_conn ++ tr)
          else (w1, tr_conn)
      end
  end.

Definition IoTHubTransport_AMQP_Common_DoWork (env : ENV) (w : world) :
  world * list call :=
  let '(w1, tr) :=
    if is_connection_retry_required (w_transport w) then
      let '(w1, tr) := prepare_for_connection_retry env w in
      (set_transport w1
         (set_is_connection_retry_required (w_transport w1) false), tr)
    else DoWork_connected env w in
  match amqp_connection (w_transport w1) with
  | Some c => (w1, tr ++ [call_amqp_connection_do_work c])
  | None => (w1, tr)
  end.

(** ** The option surface (lines 969-1094, 1496-1618) *)

(** Modelled from the spec: the option names are constants of
    iothub_client_options.h, which is not part of the sources at hand.  The
    four device-scoped names are the ones the spec lists; the other three
    are spelled as the requirement comments of SetOption spell them. *)
Definition OPTION_SAS_TOKEN_LIFETIME : string := "sas_token_lifetime".
Definition OPTION_SAS_TOKEN_REFRESH_TIME : string := "sas_token_refresh_time".
Definition OPTION_CBS_REQUEST_TIMEOUT : string := "cbs_request_timeout".
Definition OPTION_EVENT_SEND_TIMEOUT_SECS : string := "event_send_timeout".
Definition OPTION_LOG_TRACE : string := "logtrace".
Definition OPTION_X509_CERT : string := "x509certificate".
Definition OPTION_X509_PRIVATE_KEY : string := "x509privatekey".

(** The pointee of the [value] argument, read at each of the two types the
    transport casts the pointer to. *)
Record option_value : Type := mk_option_value {
  as_size_t : Z;
  as_bool : bool
}.

Definition replicate_device_options_to (env : ENV)
  (t : AMQP_TRANSPORT_INSTANCE)
  (dev_instance : AMQP_TRANSPORT_DEVICE_INSTANCE)
  (auth_mode : DEVICE_AUTH_MODE) : int_result * list call :=
  let h := device_handle dev_instance in
  let set (o : DEVICE_OPTION) : bool * call :=
    (env_device_set_option env h o,
     call_device_set_option h o (transport_option t o)
       (env_device_set_option env h o)) in
  let '(ok1, c1) := set DEVICE_OPTION_EVENT_SEND_TIMEOUT_SECS in
  if negb ok1 then (FAILURE, [c1])
  else
    match auth_mode with
    | DEVICE_AUTH_MODE_CBS =>
        let '(ok2, c2) := set DEVICE_OPTION_CBS_REQUEST_TIMEOUT_SECS in
        if negb ok2 then (FAILURE, [c1; c2])
        else
          let '(ok3, c3) := set DEVICE_OPTION_SAS_TOKEN_LIFETIME_SECS in
          if negb ok3 then (FAILURE, [c1; c2; c3])
          else
            let '(ok4, c4) := set DEVICE_OPTION_SAS_TOKEN_REFRESH_TIME_SECS in
            if negb ok4 then (FAILURE, [c1; c2; c3; c4])
            else (RESULT_OK, [c1; c2; c3; c4])
    | DEVICE_AUTH_MODE_X509 => (RESULT_OK, [c1])
    end.

Definition get_device_option_name_from (iothubclient_option_name : string) :
  option DEVICE_OPTION :=
  if String.eqb OPTION_SAS_TOKEN_LIFETIME iothubclient_option_name
  then Some DEVICE_OPTION_SAS_TOKEN_LIFETIME_SECS
  else if String.eqb OPTION_SAS_TOKEN_REFRESH_TIME iothubclient_option_name
  then Some DEVICE_OPTION_SAS_TOKEN_REFRESH_TIME_SECS
  else if String.eqb OPTION_CBS_REQUEST_TIMEOUT iothubclient_option_name
  then Some DEVICE_OPTION_CBS_REQUEST_TIMEOUT_SECS
  else if String.eqb OPTION_EVENT_SEND_TIMEOUT_SECS iothubclient_option_name
  then Some DEVICE_OPTION_EVENT_SEND_TIMEOUT_SECS
  else None.

(** The [while] loop of Device_SetOption (lines 1071-1090). *)
Fixpoint Device_SetOption_loop (env : ENV) (device_option : DEVICE_OPTION)
  (value : Z) (l : list LIST_ITEM) : int_result * list call :=
  match l with
  | [] => (RESULT_OK, [])
  | (_, registered_device) :: rest =>
      let h := device_handle registered_device in
      if negb (env_device_set_option env h device_option) then
        (FAILURE, [call_device_set_option h device_option value false])
      else
        let '(r, tr) := Device_SetOption_loop env device_option value rest in
        (r, call_device_set_option h device_option value true :: tr)
  end.

Definition IoTHubTransport_AMQP_Common_Device_SetOption (env : ENV)
  (instance : AMQP_TRANSPORT_INSTANCE) (option_name : string)
  (value : option_value) : int_result * list call :=
  match get_device_option_name_from option_name with
  | None => (FAILURE, [])
  | Some device_option =>
      Device_SetOption_loop env device_option (as_size_t value)
        (registered_devices instance)
  end.

(** Lines 1512-1535: the field the option is saved in, if it is one of the
    device-specific options. *)
Definition save_device_specific_option (t : AMQP_TRANSPORT_INSTANCE)
  (option_name : string) (value : option_value) :
  bool * AMQP_TRANSPORT_INSTANCE :=
  if String.eqb OPTION_SAS_TOKEN_LIFETIME option_name then
    (true, set_transport_option t DEVICE_OPTION_SAS_TOKEN_LIFETIME_SECS
             (as_size_t value))
  else if String.eqb OPTION_SAS_TOKEN_REFRESH_TIME option_name then
    (true, set_transport_option t DEVICE_OPTION_SAS_TOKEN_REFRESH_TIME_SECS
             (as_size_t value))
  else if String.eqb OPTION_CBS_REQUEST_TIMEOUT option_name then
    (true, set_transport_option t DEVICE_OPTION_CBS_REQUEST_TIMEOUT_SECS
             (as_size_t value))
  else if String.eqb OPTION_EVENT_SEND_TIMEOUT_SECS option_name then
    (true, set_transport_option t DEVICE_OPTION_EVENT_SEND_TIMEOUT_SECS
             (as_size_t value))
  else (false, t).

(** Lines 1585-1613: the option is handed to the byte-stream. *)
Definition SetOption_xio (env : ENV) (w : world) (option_name : string) :
  IOTHUB_CLIENT_RESULT * world * list call :=
  let '(r, w1, tr_io) :=
    match tls_io (w_transport w) with
    | None =>
        let '(r, io, w1, tr) := get_new_underlying_io_transport env w in
        (r, set_transport w1 (set_tls_io (w_transport w1) io), tr)
    | Some _ => (RESULT_OK, w, [])
    end in
  match r, tls_io (w_transport w1) with
  | RESULT_OK, Some io =>
      if negb (env_xio_setoption env) then
        (IOTHUB_CLIENT_ERROR, w1,
         tr_io ++ [call_xio_setoption io option_name false])
      else
        let '(_, w2, tr_save) := save_underlying_io_transport_options env w1 in
        (IOTHUB_CLIENT_OK, w2,
         tr_io ++ [call_xio_setoption io option_name true] ++ tr_save)
  | _, _ => (IOTHUB_CLIENT_ERROR, w1, tr_io)
  end.

Definition IoTHubTransport_AMQP_Common_SetOption (env : ENV) (w : world)
  (option_name : option string) (value : option option_value) :
  IOTHUB_CLIENT_RESULT * world * list call :=
  match option_name, value with
  | Some option_name, Some value =>
      let '(is_device_specific_option, t1) :=
        save_device_specific_option (w_transport w) option_name value in
      let w1 := set_transport w t1 in
      if is_device_specific_option then
        let '(r, tr) :=
          IoTHubTransport_AMQP_Common_Device_SetOption env t1 option_name
            value in
        match r with
        | FAILURE => (IOTHUB_CLIENT_ERROR, w1, tr)
        | RESULT_OK => (IOTHUB_CLIENT_OK, w1, tr)
        end
      else if String.eqb OPTION_LOG_TRACE option_name then
        let t2 := set_is_trace_on t1 (as_bool value) in
        let w2 := set_transport w t2 in
        match amqp_connection t2 with
        | Some c =>
            if negb (env_amqp_connection_set_logging env) then
              (IOTHUB_CLIENT_ERROR, w2,
               [call_amqp_connection_set_logging c (is_trace_on t2) false])
            else
              (IOTHUB_CLIENT_OK, w2,
               [call_amqp_connection_set_logging c (is_trace_on t2) true])
        | None => (IOTHUB_CLIENT_OK, w2, [])
        end
      else
        let '(result, t2) :=
          if String.eqb OPTION_X509_CERT option_name
             || String.eqb OPTION_X509_PRIVATE_KEY option_name then
            if AUTHENTICATION_MODE_eq_dec (preferred_authentication_mode t1)
                 AMQP_TRANSPORT_AUTHENTICATION_MODE_NOT_SET then
              (IOTHUB_CLIENT_OK,
               set_preferred_authentication_mode t1
                 AMQP_TRANSPORT_AUTHENTICATION_MODE_X509)
            else if AUTHENTICATION_MODE_eq_dec
                      (preferred_authentication_mode t1)
                      AMQP_TRANSPORT_AUTHENTICATION_MODE_X509 then
              (IOTHUB_CLIENT_OK, t1)
            else (IOTHUB_CLIENT_INVALID_ARG, t1)
          else (IOTHUB_CLIENT_OK, t1) in
        match result with
        | IOTHUB_CLIENT_INVALID_ARG =>
            (IOTHUB_CLIENT_INVALID_ARG, set_transport w t2, [])
        | _ => SetOption_xio env (set_transport w t2) option_name
        end
  | _, _ => (IOTHUB_CLIENT_INVALID_ARG, w, [])
  end.

(** ** Create, Register, Unregister, Destroy *)

Record IOTHUB_CLIENT_CONFIG : Type := mk_client_config {
  protocol : option addr;
  iotHubName : string;
  iotHubSuffix : string;
  protocolGatewayHostName : option string
}.

Record IOTHUBTRANSPORT_CONFIG : Type := mk_transport_config {
  upperConfig : option IOTHUB_CLIENT_CONFIG
}.

(** [get_target_iothub_fqdn] (lines 148-165): the characters of the FQDN. *)
Definition get_target_iothub_fqdn (upper : IOTHUB_CLIENT_CONFIG) : string :=
  match protocolGatewayHostName upper with
  | None => (iotHubName upper ++ "." ++ iotHubSuffix upper)%string
  | Some gateway => gateway
  end.

(** [IoTHubTransport_AMQP_Common_Create] (lines 1131-1201).  The instance is
    zeroed by [memset]; [zeroed_connection_state] is the member of
    [AMQP_CONNECTION_STATE] whose value is 0, which the header at hand does
    not tell. *)
Definition IoTHubTransport_AMQP_Common_Create (env : ENV)
  (zeroed_connection_state : AMQP_CONNECTION_STATE)
  (config : option IOTHUBTRANSPORT_CONFIG) (get_io_transport : option addr) :
  option world :=
  match config, get_io_transport with
  | Some config, Some _ =>
      match upperConfig config with
      | None => None
      | Some upper =>
          if is_NULL (protocol upper) then None
          else if negb (env_malloc env 0) then None
          else if negb (env_STRING_construct env) then None
          else if negb (env_singlylinkedlist_create env) then None
          else
            Some (mk_world 3
              (mk_transport
                 (mk_cstr (heap_ptr 1) (get_target_iothub_fqdn upper))
                 None None zeroed_connection_state
                 AMQP_TRANSPORT_AUTHENTICATION_MODE_NOT_SET
                 [] false None false
                 DEFAULT_SAS_TOKEN_LIFETIME_SECS
                 DEFAULT_SAS_TOKEN_REFRESH_TIME_SECS
                 DEFAULT_CBS_REQUEST_TIMEOUT_SECS
                 DEFAULT_EVENT_SEND_TIMEOUT_SECS))
      end
  | _, _ => None
  end.

Definition internal_destroy_amqp_device_instance
  (trdev_inst : AMQP_TRANSPORT_DEVICE_INSTANCE) : list call :=
  [call_device_destroy (device_handle trdev_inst)].

(** Lines 1741-1752: the first registered device fixes the preference. *)
Definition save_preferred_authentication_mode (t : AMQP_TRANSPORT_INSTANCE)
  (is_first_device_being_registered : bool)
  (authentication_mode : DEVICE_AUTH_MODE) : AMQP_TRANSPORT_INSTANCE :=
  if (if AUTHENTICATION_MODE_eq_dec (preferred_authentication_mode t)
           AMQP_TRANSPORT_AUTHENTICATION_MODE_NOT_SET then true else false)
     && is_first_device_being_registered
  then
    match authentication_mode with
    | DEVICE_AUTH_MODE_CBS =>
        set_preferred_authentication_mode t
          AMQP_TRANSPORT_AUTHENTICATION_MODE_CBS
    | DEVICE_AUTH_MODE_X509 =>
        set_preferred_authentication_mode t
          AMQP_TRANSPORT_AUTHENTICATION_MODE_X509
    end
  else t.

(** Lines 1660-1765: the device instance is allocated, filled, handed to
    [device_create] and added at the tail of the list; the three addresses
    taken are the instance, the copy of the device id, and the device-session
    handle. *)
Definition create_and_add_device (env : ENV) (w : world)
  (device : IOTHUB_DEVICE_CONFIG) (id : cstr)
  (iotHubClientHandle : IOTHUB_CLIENT_LL_HANDLE)
  (waitingToSend : list IOTHUB_MESSAGE_LIST) :
  option IOTHUB_DEVICE_HANDLE * world * list call :=
  if negb (env_malloc env 0) then (None, w, [])
  else
    let '(self, w1) := alloc w in
    if negb (env_STRING_construct env) then (None, w1, [])
    else
      let '(id_copy, w2) := alloc w1 in
      let t := w_transport w2 in
      let device_config :=
        mk_DEVICE_CONFIG id (STRING_c_str (iothub_host_fqdn t))
          (deviceKey device) (deviceSasToken device)
          (device_authentication_mode device) self in
      if negb (env_device_create env) then
        (None, w2, [call_device_create device_config false])
      else
        let '(dh, w3) := alloc w2 in
        let amqp_device_instance :=
          mk_device (mk_cstr id_copy (c_chars id)) dh iotHubClientHandle
            waitingToSend DEVICE_STATE_STOPPED 0 0 0
            DEFAULT_DEVICE_STATE_CHANGE_TIMEOUT_SECS in
        let is_first_device_being_registered :=
          match registered_devices t with [] => true | _ :: _ => false end in
        let '(r, tr_options) :=
          replicate_device_options_to env t amqp_device_instance
            (cfg_authentication_mode device_config) in
        let tr := call_device_create device_config true :: tr_options in
        match r with
        | FAILURE =>
            (None, w3,
             tr ++ internal_destroy_amqp_device_instance amqp_device_instance)
        | RESULT_OK =>
            if negb (env_singlylinkedlist_add env) then
              (None, w3,
               tr ++ internal_destroy_amqp_device_instance
                       amqp_device_instance)
            else
              let t1 := set_registered_devices t
                          (registered_devices t
                           ++ [(self, amqp_device_instance)]) in
              let t2 := save_preferred_authentication_mode t1
                          is_first_device_being_registered
                          (cfg_authentication_mode device_config) in
              (Some self, set_transport w3 t2, tr)
        end.

(** [IoTHubTransport_AMQP_Common_Register] (lines 1620-1770). *)
Definition IoTHubTransport_AMQP_Common_Register (env : ENV) (w : world)
  (device : option IOTHUB_DEVICE_CONFIG)
  (iotHubClientHandle : option IOTHUB_CLIENT_LL_HANDLE)
  (waitingToSend : option (list IOTHUB_MESSAGE_LIST)) :
  option IOTHUB_DEVICE_HANDLE * world * list call :=
  match device, waitingToSend, iotHubClientHandle with
  | Some device, Some waitingToSend, Some iotHubClientHandle =>
      match deviceId device with
      | None => (None, w, [])
      | Some id =>
          let transport_instance := w_transport w in
          if not_NULL (is_device_registered_ex
                         (registered_devices transport_instance) id)
          then (None, w, [])
          else if negb (is_device_credential_acceptable device
                          (preferred_authentication_mode transport_instance))
          then (None, w, [])
          else create_and_add_device env w device id iotHubClientHandle
                 waitingToSend
      end
  | _, _, _ => (None, w, [])
  end.

(** [IoTHubTransport_AMQP_Common_Unregister] (lines 1772-1816).  A handle is
    dereferenced through the list: a handle that is not registered points to
    no live instance, and the world is left as it is. *)
Definition IoTHubTransport_AMQP_Common_Unregister (w : world)
  (deviceHandle : option IOTHUB_DEVICE_HANDLE) : world * list call :=
  match deviceHandle with
  | None => (w, [])
  | Some h =>
      let t := w_transport w in
      match device_of (registered_devices t) h with
      | None => (w, [])
      | Some registered_device =>
          let device_id := STRING_c_str (device_id registered_device) in
          match is_device_registered_ex (registered_devices t) device_id with
          | None => (w, [])
          | Some _ =>
              (set_transport w
                 (set_registered_devices t
                    (singlylinkedlist_remove (registered_devices t)
                       (Some device_id))),
               internal_destroy_amqp_device_instance registered_device)
          end
      end
  end.

(** The loop of [internal_destroy_instance] (lines 1102-1109). *)
Fixpoint unregister_each (w : world) (handles : list IOTHUB_DEVICE_HANDLE) :
  world * list call :=
  match handles with
  | [] => (w, [])
  | h :: rest =>
      let '(w1, tr) := IoTHubTransport_AMQP_Common_Unregister w (Some h) in
      let '(w2, tr') := unregister_each w1 rest in
      (w2, tr ++ tr')
  end.

(** [IoTHubTransport_AMQP_Common_Destroy] (lines 1096-1126, 1818-1831): the
    calls made while the instance is torn down; the instance is gone. *)
Definition IoTHubTransport_AMQP_Common_Destroy (w : world) : list call :=
  let '(w1, tr_devices) :=
    unregister_each w (map fst (registered_devices (w_transport w))) in
  let t := w_transport w1 in
  let tr_conn :=
    match amqp_connection t with
    | Some c => [call_amqp_connection_destroy (Some c)]
    | None => []
    end in
  let '(t1, tr_io) := destroy_underlying_io_transport t in
  let '(_, tr_options) := destroy_underlying_io_transport_options t1 in
  tr_devices ++ tr_conn ++ tr_io ++ tr_options.

(** ** Message disposition pipeline (lines 255-357, 1866-1947) *)

Definition MESSAGE_CALLBACK_INFO_Create (env : ENV) (w : world)
  (message : IOTHUB_MESSAGE_HANDLE)
  (disposition_info : DEVICE_MESSAGE_DISPOSITION_INFO)
  (device_state : IOTHUB_DEVICE_HANDLE) :
  option MESSAGE_CALLBACK_INFO * world :=
  if negb (env_malloc env 0) then (None, w)
  else if negb (env_malloc env 1) then (None, w)
  else if env_mallocAndStrcpy_s env then
    let '(copy, w1) := alloc w in
    (Some (mk_callback_info (Some message)
             (Some (mk_disposition_context device_state
                      (mk_cstr copy (c_chars (info_source disposition_info)))
                      (info_message_id disposition_info)))),
     w1)
  else (None, w).

(** [on_message_received]: the verdict returned to the device session and,
    when the upper client took it, the callback info it now holds. *)
Definition on_message_received (env : ENV) (w : world)
  (message : IOTHUB_MESSAGE_HANDLE)
  (disposition_info : DEVICE_MESSAGE_DISPOSITION_INFO)
  (context : IOTHUB_DEVICE_HANDLE) :
  option (DEVICE_MESSAGE_DISPOSITION_RESULT * option MESSAGE_CALLBACK_INFO
          * world * list call) :=
  match device_of (registered_devices (w_transport w)) context with
  | None => None
  | Some amqp_device_instance =>
      match MESSAGE_CALLBACK_INFO_Create env w message disposition_info
              context with
      | (None, w1) =>
          Some (DEVICE_MESSAGE_DISPOSITION_RESULT_RELEASED, None, w1, [])
      | (Some message_data, w1) =>
          let client := iothub_client_handle amqp_device_instance in
          if negb (env_IoTHubClient_LL_MessageCallback env) then
            Some (DEVICE_MESSAGE_DISPOSITION_RESULT_RELEASED, None, w1,
                  [call_IoTHubClient_LL_MessageCallback client message false;
                   call_IoTHubMessage_Destroy message])
          else
            Some (DEVICE_MESSAGE_DISPOSITION_RESULT_NONE, Some message_data,
                  w1,
                  [call_IoTHubClient_LL_MessageCallback client message true])
      end
  end.

Definition create_device_message_disposition_info_from (env : ENV) (w : world)
  (ctx : MESSAGE_DISPOSITION_CONTEXT) :
  option DEVICE_MESSAGE_DISPOSITION_INFO * world :=
  if negb (env_malloc env 0) then (None, w)
  else if negb (env_mallocAndStrcpy_s env) then (None, w)
  else
    let '(copy, w1) := alloc w in
    (Some (mk_disposition_info (mk_cstr copy (c_chars (link_name ctx)))
             (message_id ctx)),
     w1).

(** [IoTHubTransport_AMQP_Common_SendMessageDisposition] (lines 1894-1947).
    The device behind the context is read through its back-reference; the
    result is [None] when that device is no longer registered, where the C
    code would read a freed instance. *)
Definition IoTHubTransport_AMQP_Common_SendMessageDisposition (env : ENV)
  (w : world) (message_data : option MESSAGE_CALLBACK_INFO)
  (disposition : IOTHUBMESSAGE_DISPOSITION_RESULT) :
  option (IOTHUB_CLIENT_RESULT * world * list call) :=
  match message_data with
  | None => Some (IOTHUB_CLIENT_INVALID_ARG, w, [])
  | Some message_data =>
      match cb_messageHandle message_data, transportContext message_data with
      | Some payload, Some ctx =>
          let device_disposition_result :=
            get_device_disposition_result_from disposition in
          match device_of (registered_devices (w_transport w))
                  (ctx_device_state ctx) with
          | None => None
          | Some device =>
              match create_device_message_disposition_info_from env w ctx with
              | (None, w1) => Some (IOTHUB_CLIENT_ERROR, w1, [])
              | (Some info, w1) =>
                  let h := device_handle device in
                  if negb (env_device_send_message_disposition env h) then
                    Some (IOTHUB_CLIENT_ERROR, w1,
                          [call_device_send_message_disposition h info
                             device_disposition_result false;
                           call_destroy_device_message_disposition_info info])
                  else
                    Some (IOTHUB_CLIENT_OK, w1,
                          [call_device_send_message_disposition h info
                             device_disposition_result true;
                           call_IoTHubMessage_Destroy payload;
                           call_MESSAGE_CALLBACK_INFO_Destroy ctx;
                           call_destroy_device_message_disposition_info info])
              end
          end
      | _, _ => Some (IOTHUB_CLIENT_INVALID_ARG, w, [])
      end
  end.

(** ** Operations and runs

    What can happen to a live transport: the public operations, the upper
    client adding an event to a device's waiting-to-send list, and the
    callbacks the collaborators invoke.  [step] is undefined ([None]) once
    the transport is destroyed and for a callback whose device is no longer
    registered. *)

Inductive operation : Type :=
| op_register (env : ENV) (device : option IOTHUB_DEVICE_CONFIG)
    (iotHubClientHandle : option IOTHUB_CLIENT_LL_HANDLE)
    (waitingToSend : option (list IOTHUB_MESSAGE_LIST))
| op_unregister (deviceHandle : option IOTHUB_DEVICE_HANDLE)
| op_set_option (env : ENV) (option_name : option string)
    (value : option option_value)
| op_do_work (env : ENV)
| op_destroy
| op_enqueue (h : IOTHUB_DEVICE_HANDLE) (m : IOTHUB_MESSAGE_LIST)
| op_send_message_disposition (env : ENV)
    (message_data : option MESSAGE_CALLBACK_INFO)
    (disposition : IOTHUBMESSAGE_DISPOSITION_RESULT)
| cb_message_received (env : ENV) (message : IOTHUB_MESSAGE_HANDLE)
    (disposition_info : DEVICE_MESSAGE_DISPOSITION_INFO)
    (context : IOTHUB_DEVICE_HANDLE)
| cb_device_state_changed (now : time_t)
    (context : option IOTHUB_DEVICE_HANDLE)
    (previous_state new_state : DEVICE_STATE)
| cb_event_send_complete (context : IOTHUB_DEVICE_HANDLE)
    (message : IOTHUB_MESSAGE_LIST) (result : D2C_EVENT_SEND_RESULT)
| cb_amqp_connection_state_changed
    (previous_state new_state : AMQP_CONNECTION_STATE).

Definition step (op : operation) (w : world) : option (world * list call) :=
  match op with
  | op_register env device client waitingToSend =>
      let '(_, w', tr) :=
        IoTHubTransport_AMQP_Common_Register env w device client
          waitingToSend in
      Some (w', tr)
  | op_unregister deviceHandle =>
      Some (IoTHubTransport_AMQP_Common_Unregister w deviceHandle)
  | op_set_option env option_name value =>
      let '(_, w', tr) :=
        IoTHubTransport_AMQP_Common_SetOption env w option_name value in
      Some (w', tr)
  | op_do_work env => Some (IoTHubTransport_AMQP_Common_DoWork env w)
  | op_destroy => None
  | op_enqueue h m =>
      Some (set_transport w
              (set_registered_devices (w_transport w)
                 (update_device (registered_devices (w_transport w)) h
                    (fun d => set_waiting_to_send d
                                (waiting_to_send d ++ [m])))),
            [])
  | op_send_message_disposition env message_data disposition =>
      match IoTHubTransport_AMQP_Common_SendMessageDisposition env w
              message_data disposition with
      | Some (_, w', tr) => Some (w', tr)
      | None => None
      end
  | cb_message_received env message disposition_info context =>
      match on_message_received env w message disposition_info context with
      | Some (_, _, w', tr) => Some (w', tr)
      | None => None
      end
  | cb_device_state_changed now context previous_state new_state =>
      Some (set_transport w
              (set_registered_devices (w_transport w)
                 (on_device_state_changed_callback now
                    (registered_devices (w_transport w)) context
                    previous_state new_state)),
            [])
  | cb_event_send_complete context message result =>
      match device_of (registered_devices (w_transport w)) context with
      | Some d =>
          let '(d', tr) := on_event_send_complete message result d in
          Some (set_transport w
                  (set_registered_devices (w_transport w)
                     (update_device (registered_devices (w_transport w))
                        context (fun _ => d'))),
                tr)
      | None => None
      end
  | cb_amqp_connection_state_changed previous_state new_state =>
      match on_amqp_connection_state_changed (Some (w_transport w))
              previous_state new_state with
      | Some t => Some (set_transport w t, [])
      | None => None
      end
  end.

(** A run of operations, with the calls it made. *)
Fixpoint run (ops : list operation) (w : world) : option (world * list call) :=
  match ops with
  | [] => Some (w, [])
  | op :: rest =>
      match step op w with
      | Some (w1, tr) =>
          match run rest w1 with
          | Some (w2, tr') => Some (w2, tr ++ tr')
          | None => None
          end
      | None => None
      end
  end.

(** The worlds a transport can be in: created, then driven by operations. *)
Inductive reachable : world -> Prop :=
| reachable_create (env : ENV) (z : AMQP_CONNECTION_STATE)
    (config : option IOTHUBTRANSPORT_CONFIG) (io : option addr) (w : world) :
    IoTHubTransport_AMQP_Common_Create env z config io = Some w ->
    reachable w
| reachable_step (op : operation) (w w' : world) (tr : list call) :
    reachable w -> step op w = Some (w', tr) -> reachable w'.

(** ** Concrete environments and inputs used in the examples *)

Definition env_ok : ENV :=
  mk_env (fun _ => true) true true true true (fun _ => 0)
    true (fun _ _ => true) (fun _ => true) (fun _ => true)
    (fun _ _ => true) (fun _ => true) true true true true true true true
    true true.

Definition a_client_config : IOTHUB_CLIENT_CONFIG :=
  mk_client_config (Some (user_ptr 100)) "hub" "azure-devices.net" None.

Definition a_transport_config : option IOTHUBTRANSPORT_CONFIG :=
  Some (mk_transport_config (Some a_client_config)).

Definition fresh_world : world :=
  mk_world 3
    (mk_transport (mk_cstr (heap_ptr 1) "hub.azure-devices.net")
       None None AMQP_CONNECTION_STATE_CLOSED
       AMQP_TRANSPORT_AUTHENTICATION_MODE_NOT_SET [] false None false
       3600 1800 30 300).

Definition device_A_with_key : option IOTHUB_DEVICE_CONFIG :=
  Some (mk_device_config (Some (mk_cstr (user_ptr 0) "A"))
          (Some (mk_cstr (user_ptr 1) "K")) None).

Definition a_client : option IOTHUB_CLIENT_LL_HANDLE := Some (user_ptr 50).

Definition empty_queue : option (list IOTHUB_MESSAGE_LIST) := Some [].

(** ** Notions used to state the properties *)

(** The credential rules of section 4.3 of the specification, in its words:
    both present, reject; preference unset, accept; preference X509 and key
    or SAS present, reject; preference CBS and both absent, reject; otherwise
    accept. *)
Definition credential_rules (key_present sas_present : bool)
  (preference : AMQP_TRANSPORT_AUTHENTICATION_MODE) : bool :=
  if key_present && sas_present then false
  else
    match preference with
    | AMQP_TRANSPORT_AUTHENTICATION_MODE_NOT_SET => true
    | AMQP_TRANSPORT_AUTHENTICATION_MODE_X509 =>
        if key_present || sas_present then false else true
    | AMQP_TRANSPORT_AUTHENTICATION_MODE_CBS =>
        if negb key_present && negb sas_present then false else true
    end.

(** The per-device mode of section 4.3: CBS if key or SAS is provided. *)
Definition credential_mode (key_present sas_present : bool) :
  DEVICE_AUTH_MODE :=
  if key_present || sas_present then DEVICE_AUTH_MODE_CBS
  else DEVICE_AUTH_MODE_X509.

(** What a [device_create] call found in a trace of Register has to satisfy
    for the device configuration [device]. *)
Definition device_create_follows_rules (device : IOTHUB_DEVICE_CONFIG)
  (preference : AMQP_TRANSPORT_AUTHENTICATION_MODE) (c : call) : Prop :=
  match c with
  | call_device_create cfg _ =>
      credential_rules (not_NULL (deviceKey device))
        (not_NULL (deviceSasToken device)) preference = true /\
      cfg_authentication_mode cfg =
        credential_mode (not_NULL (deviceKey device))
          (not_NULL (deviceSasToken device))
  | _ => True
  end.

Definition is_device_create (c : call) : bool :=
  match c with call_device_create _ _ => true | _ => false end.

(** The device ids held by the registry, as strings, in list order. *)
Definition registered_ids (w : world) : list string :=
  map (fun item => c_chars (device_id (snd item)))
    (registered_devices (w_transport w)).

Definition registered_handles (w : world) : list IOTHUB_DEVICE_HANDLE :=
  map fst (registered_devices (w_transport w)).

(** The user confirmation callbacks of a trace, in order. *)
Fixpoint message_callbacks (tr : list call) :
  list (addr * IOTHUB_CLIENT_CONFIRMATION_RESULT * addr) :=
  match tr with
  | [] => []
  | call_message_callback cb r ctx :: rest =>
      (cb, r, ctx) :: message_callbacks rest
  | _ :: rest => message_callbacks rest
  end.

(** A sequence of send completions delivered to one device. *)
Fixpoint complete_events
  (events : list (IOTHUB_MESSAGE_LIST * D2C_EVENT_SEND_RESULT))
  (registered_device : AMQP_TRANSPORT_DEVICE_INSTANCE) :
  AMQP_TRANSPORT_DEVICE_INSTANCE * list call :=
  match events with
  | [] => (registered_device, [])
  | (message, result) :: rest =>
      let '(d1, tr) := on_event_send_complete message result
                         registered_device in
      let '(d2, tr') := complete_events rest d1 in
      (d2, tr ++ tr')
  end.

(** The callback a completion owes to the user: none for a NULL callback. *)
Definition expected_callback
  (event : IOTHUB_MESSAGE_LIST * D2C_EVENT_SEND_RESULT) :
  list (addr * IOTHUB_CLIENT_CONFIRMATION_RESULT * addr) :=
  match callback (fst event) with
  | Some cb =>
      [(cb, get_iothub_client_confirmation_result_from (snd event),
        context (fst event))]
  | None => []
  end.

(** The disposition calls of a trace, in order. *)
Fixpoint disposition_calls (tr : list call) :
  list (DEVICE_HANDLE * DEVICE_MESSAGE_DISPOSITION_INFO
        * DEVICE_MESSAGE_DISPOSITION_RESULT) :=
  match tr with
  | [] => []
  | call_device_send_message_disposition h info r _ :: rest =>
      (h, info, r) :: disposition_calls rest
  | _ :: rest => disposition_calls rest
  end.

(** Teardown of a received message: its payload and its context. *)
Definition destroys_payload (tr : list call) : bool :=
  existsb (fun c => match c with
                    | call_IoTHubMessage_Destroy _ => true
                    | _ => false end) tr.

Definition destroys_context (tr : list call) : bool :=
  existsb (fun c => match c with
                    | call_MESSAGE_CALLBACK_INFO_Destroy _ => true
                    | _ => false end) tr.

(** Per-device work of a tick: starting a device, checking its timeout,
    draining its events, running its session. *)
Definition is_per_device_work (c : call) : bool :=
  match c with
  | call_get_time _
  | call_amqp_connection_get_session_handle _
  | call_amqp_connection_get_cbs_handle _
  | call_device_start_async _ _ _
  | call_device_send_event_async _ _ _
  | call_device_do_work _
  | call_message_callback _ _ _ => true
  | _ => false
  end.

(** The [device_stop] calls of a trace, in order. *)
Fixpoint device_stop_calls (tr : list call) : list DEVICE_HANDLE :=
  match tr with
  | [] => []
  | call_device_stop h _ :: rest => h :: device_stop_calls rest
  | _ :: rest => device_stop_calls rest
  end.

(** The session handles of the registered devices that are not STOPPED. *)
Fixpoint not_stopped (l : list LIST_ITEM) : list DEVICE_HANDLE :=
  match l with
  | [] => []
  | (_, d) :: rest =>
      if DEVICE_STATE_eq_dec (device_state d) DEVICE_STATE_STOPPED
      then not_stopped rest
      else device_handle d :: not_stopped rest
  end.

(** The calls that tear the connection down and then the byte-stream. *)
Definition teardown_calls (t : AMQP_TRANSPORT_INSTANCE) : list call :=
  call_amqp_connection_destroy (amqp_connection t) ::
  match tls_io t with
  | Some io => [call_xio_destroy io]
  | None => []
  end.

(** What the tick leaves of a device: everything but the two counters. *)
Definition clear_failures (d : AMQP_TRANSPORT_DEVICE_INSTANCE) :
  AMQP_TRANSPORT_DEVICE_INSTANCE :=
  set_number_of_send_event_complete_failures
    (set_number_of_previous_failures d 0) 0.

Definition DEVICE_OPTION_eq_dec (a b : DEVICE_OPTION) : {a = b} + {a <> b}.
Proof. decide equality. Defined.

(** Modelled from the spec: the device session (iothubtransport_amqp_device,
    not part of the sources at hand) keeps, for each option, the value of the
    last [device_set_option] call that succeeded. *)
Fixpoint device_session_option (tr : list call) (h : DEVICE_HANDLE)
  (o : DEVICE_OPTION) : option Z :=
  match tr with
  | [] => None
  | c :: rest =>
      match device_session_option rest h o with
      | Some v => Some v
      | None =>
          match c with
          | call_device_set_option h' o' v true =>
              if addr_eq_dec h' h then
                if DEVICE_OPTION_eq_dec o' o then Some v else None
              else None
          | _ => None
          end
      end
  end.

(** The propagation calls SetOption makes for the devices of [l]. *)
Definition set_option_calls (o : DEVICE_OPTION) (v : Z) (ok : bool)
  (l : list LIST_ITEM) : list call :=
  map (fun item => call_device_set_option (device_handle (snd item)) o v ok) l.



(** The tick visits the registered devices: no retry is pending and the
    connection exists and is open. *)
Definition tick_visits_devices (t : AMQP_TRANSPORT_INSTANCE) : Prop :=
  is_connection_retry_required t = false /\
  amqp_connection t <> None /\
  amqp_connection_state t = AMQP_CONNECTION_STATE_OPENED.

(** A successful registration went through [device_create]. *)
Definition registered_through_device_create
  (r : option IOTHUB_DEVICE_HANDLE) (tr : list call) : Prop :=
  match r with
  | Some _ => exists cfg, In (call_device_create cfg true) tr
  | None => True
  end.

(** The claim that a failed forwarding still tears the message down, at one
    call of SendMessageDisposition. *)
Definition failed_disposition_tears_down (env : ENV) (w : world)
  (message_data : MESSAGE_CALLBACK_INFO)
  (disposition : IOTHUBMESSAGE_DISPOSITION_RESULT) : Prop :=
  match IoTHubTransport_AMQP_Common_SendMessageDisposition env w
          (Some message_data) disposition with
  | Some (r, _, tr) =>
      r = IOTHUB_CLIENT_ERROR /\
      destroys_payload tr = true /\ destroys_context tr = true
  | None => False
  end.

(** A transport with device "A" registered, and a message received for it. *)
Definition world_with_A : world :=
  snd (fst (IoTHubTransport_AMQP_Common_Register env_ok fresh_world
              device_A_with_key a_client empty_queue)).

Definition handle_of_A : IOTHUB_DEVICE_HANDLE := heap_ptr 3.

Definition a_disposition_context : MESSAGE_DISPOSITION_CONTEXT :=
  mk_disposition_context handle_of_A (mk_cstr (heap_ptr 20) "link-1") 7.

Definition a_received_message : MESSAGE_CALLBACK_INFO :=
  mk_callback_info (Some (user_ptr 30)) (Some a_disposition_context).

(** The environment in which the device session refuses dispositions. *)
Definition env_disposition_fails : ENV :=
  mk_env (fun _ => true) true true true true (fun _ => 0)
    true (fun _ _ => true) (fun _ => true) (fun _ => true)
    (fun _ _ => true) (fun _ => false) true true true true true true true
    true true.

(** A device that entered STARTING at time 0, read at time 61. *)
Definition device_D_starting : AMQP_TRANSPORT_DEVICE_INSTANCE :=
  mk_device (mk_cstr (heap_ptr 4) "D") (heap_ptr 5) (user_ptr 50) []
    DEVICE_STATE_STARTING 0 0 0 60.

Definition env_clock_61 : ENV :=
  mk_env (fun _ => true) true true true true (fun _ => 61)
    true (fun _ _ => true) (fun _ => true) (fun _ => true)
    (fun _ _ => true) (fun _ => true) true true true true true true true
    true true.

(** Two registered devices, and a device session that refuses the options
    of the second one. *)
Definition device_B : AMQP_TRANSPORT_DEVICE_INSTANCE :=
  mk_device (mk_cstr (heap_ptr 7) "B") (heap_ptr 8) (user_ptr 50) []
    DEVICE_STATE_STOPPED 0 0 0 60.

Definition device_A : AMQP_TRANSPORT_DEVICE_INSTANCE :=
  mk_device (mk_cstr (heap_ptr 4) "A") (heap_ptr 5) (user_ptr 50) []
    DEVICE_STATE_STOPPED 0 0 0 60.

Definition world_with_A_and_B : world :=
  mk_world 9
    (mk_transport (mk_cstr (heap_ptr 1) "hub.azure-devices.net")
       None None AMQP_CONNECTION_STATE_CLOSED
       AMQP_TRANSPORT_AUTHENTICATION_MODE_CBS
       [(heap_ptr 3, device_A); (heap_ptr 6, device_B)] false None false
       3600 1800 30 300).

Definition env_B_refuses_options : ENV :=
  mk_env (fun _ => true) true true true true (fun _ => 0)
    true (fun h _ => negb (addr_eqb h (heap_ptr 8)))
    (fun _ => true) (fun _ => true)
    (fun _ _ => true) (fun _ => true) true true true true true true true
    true true.

(** The calls by which a retry tick caches the stream options and stops
    devices, before it tears the connection down. *)
Definition is_retry_preparation (c : call) : bool :=
  match c with
  | call_xio_retrieveoptions _ _
  | call_OptionHandler_Destroy _
  | call_device_stop _ _ => true
  | _ => false
  end.

Definition clear_failures_of_item (item : LIST_ITEM) : LIST_ITEM :=
  (fst item, clear_failures (snd item)).

Definition no_per_device_work (tr : list call) : bool :=
  forallb (fun c => negb (is_per_device_work c)) tr.

(** A transport flagged for retry after device E kept failing: an open
    connection over a stream, E in ERROR_MSG with its budget used up, and a
    second device F that is started. *)
Definition device_E_failed : AMQP_TRANSPORT_DEVICE_INSTANCE :=
  mk_device (mk_cstr (heap_ptr 4) "E") (heap_ptr 5) (user_ptr 50)
    [mk_message (user_ptr 60) (Some (user_ptr 61)) (user_ptr 62)]
    DEVICE_STATE_ERROR_MSG 5 0 10 60.

Definition device_F_started : AMQP_TRANSPORT_DEVICE_INSTANCE :=
  mk_device (mk_cstr (heap_ptr 7) "F") (heap_ptr 8) (user_ptr 50) []
    DEVICE_STATE_STARTED 0 3 12 60.

Definition device_G_stopped : AMQP_TRANSPORT_DEVICE_INSTANCE :=
  mk_device (mk_cstr (heap_ptr 10) "G") (heap_ptr 11) (user_ptr 50) []
    DEVICE_STATE_STOPPED 0 0 0 60.

Definition world_flagged_for_retry : world :=
  mk_world 14
    (mk_transport (mk_cstr (heap_ptr 1) "hub.azure-devices.net")
       (Some (heap_ptr 12)) (Some (heap_ptr 13)) AMQP_CONNECTION_STATE_OPENED
       AMQP_TRANSPORT_AUTHENTICATION_MODE_CBS
       [(heap_ptr 3, device_E_failed); (heap_ptr 6, device_F_started);
        (heap_ptr 9, device_G_stopped)]
       false None true 3600 1800 30 300).

Definition mode_of (w : world) : AMQP_TRANSPORT_AUTHENTICATION_MODE :=
  preferred_authentication_mode (w_transport w).

(** A life of a transport after device "A" fixed the preference to CBS: an
    X509 option is refused, a keyless device is refused, the device is
    unregistered, and ticks run. *)
Definition device_C_without_credentials : option IOTHUB_DEVICE_CONFIG :=
  Some (mk_device_config (Some (mk_cstr (user_ptr 2) "C")) None None).

Definition operations_after_A : list operation :=
  [op_set_option env_ok (Some OPTION_X509_CERT)
     (Some (mk_option_value 0 false));
   op_do_work env_ok;
   cb_amqp_connection_state_changed AMQP_CONNECTION_STATE_CLOSED
     AMQP_CONNECTION_STATE_OPENED;
   op_do_work env_ok;
   op_register env_ok device_C_without_credentials a_client empty_queue;
   op_unregister (Some handle_of_A);
   op_register env_ok device_C_without_credentials a_client empty_queue;
   op_set_option env_ok (Some OPTION_X509_PRIVATE_KEY)
     (Some (mk_option_value 0 false))].

Definition world_after_operations : world * list call :=
  match run operations_after_A world_with_A with
  | Some r => r
  | None => (world_with_A, [])
  end.





(** Registry size, and the registrations and unregistrations of a run that
    succeeded: a registration succeeds when it returns a handle, an
    unregistration when it removed and destroyed a device. *)
Definition registry_size (w : world) : Z :=
  Z.of_nat (List.length (registered_devices (w_transport w))).

Definition is_device_destroy (c : call) : bool :=
  match c with call_device_destroy _ => true | _ => false end.

Definition registry_change (op : operation) (w : world) : Z :=
  match op with
  | op_register env device client q =>
      if not_NULL (fst (fst (IoTHubTransport_AMQP_Common_Register env w
                               device client q)))
      then 1 else 0
  | op_unregister h =>
      if existsb is_device_destroy
           (snd (IoTHubTransport_AMQP_Common_Unregister w h))
      then -1 else 0
  | _ => 0
  end.

Fixpoint net_registrations (ops : list operation) (w : world) : Z :=
  match ops with
  | [] => 0
  | op :: rest =>
      match step op w with
      | Some (w1, _) => registry_change op w + net_registrations rest w1
      | None => 0
      end
  end.

(** A trace that destroys no device session. *)
Definition keeps_devices (tr : list call) : bool :=
  forallb (fun c => negb (is_device_destroy c)) tr.

(** ** Proof tactics *)

(** Case analysis on the scrutinee of a match of the goal, or of [H]. *)
Ltac break_match :=
  match goal with
  | |- context [match ?x with _ => _ end] => destruct x eqn:?
  end.

Ltac break_match_in H :=
  match type of H with
  | context [match ?x with _ => _ end] => destruct x eqn:?
  end.

(** Closes the conjuncts of a frame condition from the context. *)
Ltac frame_done :=
  repeat split; try assumption; try congruence;
  try (intros _; first [assumption | congruence]).

(** ** Notions used by the further properties *)

(** Environments that differ from [e] in one collaborator. *)
Definition env_with_send_event (e : ENV)
  (f : DEVICE_HANDLE -> IOTHUB_MESSAGE_LIST -> bool) : ENV :=
  mk_env (env_malloc e) (env_STRING_construct e) (env_mallocAndStrcpy_s e)
    (env_singlylinkedlist_create e) (env_singlylinkedlist_add e)
    (env_get_time e) (env_device_create e) (env_device_set_option e)
    (env_device_start_async e) (env_device_stop e) f
    (env_device_send_message_disposition e)
    (env_amqp_connection_get_session_handle e)
    (env_amqp_connection_get_cbs_handle e) (env_amqp_connection_create e)
    (env_amqp_connection_set_logging e)
    (env_underlying_io_transport_provider e) (env_xio_retrieveoptions e)
    (env_xio_setoption e) (env_OptionHandler_FeedOptions e)
    (env_IoTHubClient_LL_MessageCallback e).

Definition env_with_device_stop (e : ENV) (f : DEVICE_HANDLE -> bool) : ENV :=
  mk_env (env_malloc e) (env_STRING_construct e) (env_mallocAndStrcpy_s e)
    (env_singlylinkedlist_create e) (env_singlylinkedlist_add e)
    (env_get_time e) (env_device_create e) (env_device_set_option e)
    (env_device_start_async e) f (env_device_send_event_async e)
    (env_device_send_message_disposition e)
    (env_amqp_connection_get_session_handle e)
    (env_amqp_connection_get_cbs_handle e) (env_amqp_connection_create e)
    (env_amqp_connection_set_logging e)
    (env_underlying_io_transport_provider e) (env_xio_retrieveoptions e)
    (env_xio_setoption e) (env_OptionHandler_FeedOptions e)
    (env_IoTHubClient_LL_MessageCallback e).



(** The submissions of the events of [q] to the session [h]. *)
Definition submissions (h : DEVICE_HANDLE) (ok : bool)
  (q : list IOTHUB_MESSAGE_LIST) : list call :=
  map (fun m => call_device_send_event_async h m ok) q.

(** The error states of a device. *)
Definition is_error_state (s : DEVICE_STATE) : bool :=
  match s with
  | DEVICE_STATE_ERROR_AUTH
  | DEVICE_STATE_ERROR_AUTH_TIMEOUT
  | DEVICE_STATE_ERROR_MSG => true
  | _ => false
  end.

(** The [device_do_work] calls of a trace, in order. *)
Fixpoint device_do_work_calls (tr : list call) : list DEVICE_HANDLE :=
  match tr with
  | [] => []
  | call_device_do_work h :: rest => h :: device_do_work_calls rest
  | _ :: rest => device_do_work_calls rest
  end.

(** The sessions of the devices whose send-complete failures are below the
    maximum: the ones a tick works on. *)
Fixpoint within_send_budget (l : list LIST_ITEM) : list DEVICE_HANDLE :=
  match l with
  | [] => []
  | (_, d) :: rest =>
      if number_of_send_event_complete_failures d
         >=? MAX_NUMBER_OF_DEVICE_FAILURES
      then within_send_budget rest
      else device_handle d :: within_send_budget rest
  end.

(** Three events, and a started device that has them waiting. *)
Definition event_1 : IOTHUB_MESSAGE_LIST :=
  mk_message (user_ptr 70) (Some (user_ptr 80)) (user_ptr 90).
Definition event_2 : IOTHUB_MESSAGE_LIST :=
  mk_message (user_ptr 71) (Some (user_ptr 81)) (user_ptr 91).
Definition event_3 : IOTHUB_MESSAGE_LIST :=
  mk_message (user_ptr 72) (Some (user_ptr 82)) (user_ptr 92).

Definition device_with_events : AMQP_TRANSPORT_DEVICE_INSTANCE :=
  mk_device (mk_cstr (heap_ptr 4) "F") (heap_ptr 5) (user_ptr 50)
    [event_1; event_2; event_3] DEVICE_STATE_STARTED 2 1 12 60.

(** The session refuses the event whose payload is at address 71. *)
Definition env_refuses_event_2 : ENV :=
  env_with_send_event env_ok
    (fun _ m => negb (addr_eqb (messageHandle m) (user_ptr 71))).

Definition device_in_error (failures : Z) : AMQP_TRANSPORT_DEVICE_INSTANCE :=
  mk_device (mk_cstr (heap_ptr 4) "E") (heap_ptr 5) (user_ptr 50) []
    DEVICE_STATE_ERROR_MSG failures 0 10 60.

Definition device_D_stopping_at (t : time_t) :
  AMQP_TRANSPORT_DEVICE_INSTANCE :=
  mk_device (mk_cstr (heap_ptr 4) "D") (heap_ptr 5) (user_ptr 50) []
    DEVICE_STATE_STOPPING 0 0 t 60.

(** A transport with an open connection and three devices: one over its
    send budget, one started, one stopped. *)
Definition device_over_send_budget : AMQP_TRANSPORT_DEVICE_INSTANCE :=
  mk_device (mk_cstr (heap_ptr 4) "E") (heap_ptr 5) (user_ptr 50) []
    DEVICE_STATE_STARTED 0 5 10 60.

Definition world_connected : world :=
  mk_world 14
    (mk_transport (mk_cstr (heap_ptr 1) "hub.azure-devices.net")
       (Some (heap_ptr 12)) (Some (heap_ptr 13)) AMQP_CONNECTION_STATE_OPENED
       AMQP_TRANSPORT_AUTHENTICATION_MODE_CBS
       [(heap_ptr 3, device_over_send_budget); (heap_ptr 6, device_F_started);
        (heap_ptr 9, device_G_stopped)]
       false None false 3600 1800 30 300).

(** The calls made on behalf of one device by its tick. *)
Definition is_device_call (c : call) : bool :=
  match c with
  | call_get_time _
  | call_amqp_connection_get_session_handle _
  | call_amqp_connection_get_cbs_handle _
  | call_device_start_async _ _ _
  | call_device_stop _ _
  | call_device_do_work _
  | call_device_send_event_async _ _ _
  | call_message_callback _ _ _
  | call_IoTHubMessage_Destroy _
  | call_free_message _ => true
  | _ => false
  end.

Definition is_connection_create (c : call) : bool :=
  match c with
  | call_amqp_connection_create _ _ _ _ _ => true
  | _ => false
  end.

(** A transport flagged for retry, with a stream whose options were never
    cached, and the transport a tick later. *)
Definition world_after_retry_tick : world :=
  fst (IoTHubTransport_AMQP_Common_DoWork env_ok world_flagged_for_retry).


(** The instance Register builds for a device (lines 1671-1705), given the
    allocator value it starts from. *)
Definition new_device_instance (next : nat) (id : cstr)
  (client : IOTHUB_CLIENT_LL_HANDLE) (q : list IOTHUB_MESSAGE_LIST) :
  AMQP_TRANSPORT_DEVICE_INSTANCE :=
  mk_device (mk_cstr (heap_ptr (S next)) (c_chars id)) (heap_ptr (S (S next)))
    client q DEVICE_STATE_STOPPED 0 0 0
    DEFAULT_DEVICE_STATE_CHANGE_TIMEOUT_SECS.

(** The device options Register replicates for a CBS device, in the order of
    the calls. *)
Definition replicated_options_CBS : list DEVICE_OPTION :=
  [DEVICE_OPTION_EVENT_SEND_TIMEOUT_SECS;
   DEVICE_OPTION_CBS_REQUEST_TIMEOUT_SECS;
   DEVICE_OPTION_SAS_TOKEN_LIFETIME_SECS;
   DEVICE_OPTION_SAS_TOKEN_REFRESH_TIME_SECS].

Definition replicated_options (m : DEVICE_AUTH_MODE) : list DEVICE_OPTION :=
  match m with
  | DEVICE_AUTH_MODE_CBS => replicated_options_CBS
  | DEVICE_AUTH_MODE_X509 => [DEVICE_OPTION_EVENT_SEND_TIMEOUT_SECS]
  end.


Definition device_X_with_certificate : option IOTHUB_DEVICE_CONFIG :=
  Some (mk_device_config (Some (mk_cstr (user_ptr 3) "X")) None None).

Definition device_B_with_sas : option IOTHUB_DEVICE_CONFIG :=
  Some (mk_device_config (Some (mk_cstr (user_ptr 4) "B")) None
          (Some (mk_cstr (user_ptr 5) "T"))).

(** The three addresses that identify a registered device: its instance (the
    handle given to the caller), its copy of the device id, and its device
    session. *)
Definition identity_of (item : LIST_ITEM) : addr * addr * addr :=
  (fst item, c_addr (STRING_c_str (device_id (snd item))),
   device_handle (snd item)).

Definition registry_identities (w : world) : list (addr * addr * addr) :=
  map identity_of (registered_devices (w_transport w)).

(** The addresses a registration takes when the allocator stands at [n]. *)
Definition allocated_at (n : nat) : addr * addr * addr :=
  (heap_ptr n, heap_ptr (S n), heap_ptr (S (S n))).

(** Every registered device sits where a registration put it, no two at the
    same place, all below the allocator. *)
Definition registry_layout (w : world) : Prop :=
  exists ns : list nat,
    registry_identities w = map allocated_at ns /\ NoDup ns /\
    Forall (fun n => (S (S n) < w_next w)%nat) ns.

Definition keeps_registry (w w' : world) : Prop :=
  registry_identities w' = registry_identities w /\
  (w_next w <= w_next w')%nat.

Definition registered_id_addresses (w : world) : list addr :=
  map (fun item : LIST_ITEM => c_addr (STRING_c_str (device_id (snd item))))
    (registered_devices (w_transport w)).

Definition registered_sessions (w : world) : list DEVICE_HANDLE :=
  map (fun item : LIST_ITEM => device_handle (snd item))
    (registered_devices (w_transport w)).

(** The list without the items filed under the handle [h]. *)
Definition without_handle (h : IOTHUB_DEVICE_HANDLE) (l : list LIST_ITEM) :
  list LIST_ITEM :=
  filter (fun item : LIST_ITEM => negb (addr_eqb (fst item) h)) l.

(** The calls [internal_destroy_instance] makes after the devices are gone. *)
Definition instance_teardown_calls (t : AMQP_TRANSPORT_INSTANCE) : list call :=
  match amqp_connection t with
  | Some c => [call_amqp_connection_destroy (Some c)]
  | None => []
  end
  ++ match tls_io t with
     | Some io => [call_xio_destroy io]
     | None => []
     end
  ++ match saved_tls_options t with
     | Some o => [call_OptionHandler_Destroy o]
     | None => []
     end.

(** Case analysis on a scrutinee that holds no other match. *)
Ltac break_inner :=
  match goal with
  | |- context [match ?x with _ => _ end] =>
      lazymatch x with
      | context [match _ with _ => _ end] => fail
      | _ => destruct x eqn:?
      end
  end.

Definition registrations_of_A_and_B : list operation :=
  [op_register env_ok device_A_with_key a_client empty_queue;
   op_register env_ok device_B_with_sas a_client empty_queue].

(** The id address of a registered device tells its handle. *)
Definition id_address_tells_handle (l : list LIST_ITEM) : Prop :=
  forall h1 d1 h2 d2,
    In (h1, d1) l -> In (h2, d2) l ->
    c_addr (STRING_c_str (device_id d1)) = c_addr (STRING_c_str (device_id d2))
    -> h1 = h2.

Definition device_destroy_of (item : LIST_ITEM) : call :=
  call_device_destroy (device_handle (snd item)).

Definition is_x509_option (name : string) : Prop :=
  name = OPTION_X509_CERT \/ name = OPTION_X509_PRIVATE_KEY.

Definition a_certificate : option option_value :=
  Some (mk_option_value 0 false).

Definition every_device_accepts (env : ENV) (o : DEVICE_OPTION)
  (l : list LIST_ITEM) : bool :=
  forallb (fun item : LIST_ITEM =>
             env_device_set_option env (device_handle (snd item)) o) l.

(** A connection is never held without the byte-stream it runs on. *)
Definition connection_has_stream (t : AMQP_TRANSPORT_INSTANCE) : Prop :=
  amqp_connection t <> None -> tls_io t <> None.

(** Devices are only registered on a transport whose mode is fixed. *)
Definition registry_has_mode (t : AMQP_TRANSPORT_INSTANCE) : Prop :=
  registered_devices t <> [] ->
  preferred_authentication_mode t <>
    AMQP_TRANSPORT_AUTHENTICATION_MODE_NOT_SET.

Definition keeps_endpoint (w w' : world) : Prop :=
  iothub_host_fqdn (w_transport w') = iothub_host_fqdn (w_transport w) /\
  (connection_has_stream (w_transport w) ->
   connection_has_stream (w_transport w')).

Ltac endpoint_done :=
  unfold keeps_endpoint, connection_has_stream in *;
  cbn [w_transport set_transport iothub_host_fqdn tls_io amqp_connection
       set_tls_io set_amqp_connection set_amqp_connection_state
       set_preferred_authentication_mode set_registered_devices
       set_is_trace_on set_saved_tls_options set_is_connection_retry_required
       set_transport_option fst snd] in *;
  split; [reflexivity || congruence|];
  intros; try congruence; try discriminate; auto.

(** [IoTHubTransport_AMQP_Common_GetHostname] (lines 1846-1864) on a live
    transport: a clone of the stored FQDN at a fresh address, or NULL when
    [STRING_clone] fails. *)
Definition IoTHubTransport_AMQP_Common_GetHostname (STRING_clone_ok : bool)
  (w : world) : option STRING_HANDLE * world :=
  if STRING_clone_ok then
    let '(copy, w1) := alloc w in
    (Some (mk_cstr copy (c_chars (iothub_host_fqdn (w_transport w)))), w1)
  else (None, w).

Definition a_gateway_client_config : IOTHUB_CLIENT_CONFIG :=
  mk_client_config (Some (user_ptr 9)) "hub" "azure-devices.net"
    (Some "gateway.contoso.com"%string).

Definition a_gateway_config : IOTHUBTRANSPORT_CONFIG :=
  mk_transport_config (Some a_gateway_client_config).

Definition gateway_world : world :=
  mk_world 3
    (mk_transport (mk_cstr (heap_ptr 1) "gateway.contoso.com")
       None None AMQP_CONNECTION_STATE_CLOSED
       AMQP_TRANSPORT_AUTHENTICATION_MODE_NOT_SET [] false None false
       3600 1800 30 300).

Definition gateway_world_with_A_and_B : world :=
  match run registrations_of_A_and_B gateway_world with
  | Some (w, _) => w
  | None => gateway_world
  end.

Definition operations_connecting : list operation :=
  [op_register env_ok device_A_with_key a_client empty_queue;
   op_do_work env_ok].

Definition world_after_connecting : world :=
  match run operations_connecting fresh_world with
  | Some (w, _) => w
  | None => fresh_world
  end.

(** The calls of the subscription surface (lines 1287-1346). *)
Inductive subscription_call : Type :=
| call_device_subscribe_message (h : DEVICE_HANDLE)
    (context : IOTHUB_DEVICE_HANDLE) (ok : bool)
| call_device_unsubscribe_message (h : DEVICE_HANDLE) (ok : bool).

(** [IoTHubTransport_AMQP_Common_Subscribe] (lines 1287-1322).  As in
    Unregister, the handle is dereferenced through the list; the outcome of
    [device_subscribe_message] is an argument. *)
Definition IoTHubTransport_AMQP_Common_Subscribe
  (device_subscribe_message_ok : bool) (w : world)
  (handle : option IOTHUB_DEVICE_HANDLE) :
  int_result * list subscription_call :=
  match handle with
  | None => (FAILURE, [])
  | Some h =>
      let l := registered_devices (w_transport w) in
      match device_of l h with
      | None => (FAILURE, [])
      | Some amqp_device_instance =>
          if negb (is_device_registered l amqp_device_instance) then
            (FAILURE, [])
          else if negb device_subscribe_message_ok then
            (FAILURE,
             [call_device_subscribe_message
                (device_handle amqp_device_instance) h false])
          else
            (RESULT_OK,
             [call_device_subscribe_message
                (device_handle amqp_device_instance) h true])
      end
  end.

(** [IoTHubTransport_AMQP_Common_Unsubscribe] (lines 1324-1346). *)
Definition IoTHubTransport_AMQP_Common_Unsubscribe
  (device_unsubscribe_message_ok : bool) (w : world)
  (handle : option IOTHUB_DEVICE_HANDLE) : list subscription_call :=
  match handle with
  | None => []
  | Some h =>
      let l := registered_devices (w_transport w) in
      match device_of l h with
      | None => []
      | Some amqp_device_instance =>
          if negb (is_device_registered l amqp_device_instance) then []
          else
            [call_device_unsubscribe_message
               (device_handle amqp_device_instance)
               device_unsubscribe_message_ok]
      end
  end.

(** Whether [on_message_received] can assemble the callback info. *)
Definition callback_info_can_be_created (env : ENV) : bool :=
  env_malloc env 0 && env_malloc env 1 && env_mallocAndStrcpy_s env.

Definition env_client_refuses_messages : ENV :=
  mk_env (fun _ => true) true true true true (fun _ => 0)
    true (fun _ _ => true) (fun _ => true) (fun _ => true)
    (fun _ _ => true) (fun _ => true) true true true true true true true
    true false.

Definition a_disposition_info : DEVICE_MESSAGE_DISPOSITION_INFO :=
  mk_disposition_info (mk_cstr (user_ptr 20) "link") 7.

(** The default of each device-scoped option (lines 40-44). *)
Definition default_option (o : DEVICE_OPTION) : Z :=
  match o with
  | DEVICE_OPTION_SAS_TOKEN_LIFETIME_SECS => DEFAULT_SAS_TOKEN_LIFETIME_SECS
  | DEVICE_OPTION_SAS_TOKEN_REFRESH_TIME_SECS =>
      DEFAULT_SAS_TOKEN_REFRESH_TIME_SECS
  | DEVICE_OPTION_CBS_REQUEST_TIMEOUT_SECS => DEFAULT_CBS_REQUEST_TIMEOUT_SECS
  | DEVICE_OPTION_EVENT_SEND_TIMEOUT_SECS => DEFAULT_EVENT_SEND_TIMEOUT_SECS
  end.

Definition config_of_A_with_key : IOTHUB_DEVICE_CONFIG :=
  mk_device_config (Some (mk_cstr (user_ptr 0) "A"))
    (Some (mk_cstr (user_ptr 1) "K")) None.







(** * Properties *)

(** ** Registration and duplicate device ids *)

Lemma fresh_world_is_created :
  IoTHubTransport_AMQP_Common_Create env_ok AMQP_CONNECTION_STATE_CLOSED
    a_transport_config (Some (user_ptr 7)) = Some fresh_world.
Proof. reflexivity. Qed.

(** C1 (the code departs from the claim).  On a freshly created transport,
    registering the device id "A" with a key twice in a row succeeds both
    times: the second call does not return NULL, and the registry ends up
    holding two devices whose device id is the string "A".  The lookup
    compares the address of the stored copy of the id with the address the
    caller passed, never their characters. *)
Theorem register_same_device_id_twice :
  let '(h1, w1, _) :=
    IoTHubTransport_AMQP_Common_Register env_ok fresh_world
      device_A_with_key a_client empty_queue in
  let '(h2, w2, _) :=
    IoTHubTransport_AMQP_Common_Register env_ok w1
      device_A_with_key a_client empty_queue in
  h1 = Some (heap_ptr 3) /\
  registered_ids w1 = ["A"%string] /\
  h2 = Some (heap_ptr 6) /\
  registered_ids w2 = ["A"%string; "A"%string] /\
  registered_handles w2 = [heap_ptr 3; heap_ptr 6].
Proof. vm_compute. repeat split; reflexivity. Qed.

(** ** Credential acceptance *)

Lemma is_device_credential_acceptable_rules :
  forall device preference,
    is_device_credential_acceptable device preference =
    credential_rules (not_NULL (deviceKey device))
      (not_NULL (deviceSasToken device)) preference.
Proof.
  intros [id [k|] [s|]] []; reflexivity.
Qed.

Lemma device_authentication_mode_rules :
  forall device,
    device_authentication_mode device =
    credential_mode (not_NULL (deviceKey device))
      (not_NULL (deviceSasToken device)).
Proof. intros [id [k|] [s|]]; reflexivity. Qed.

Lemma replicate_device_options_to_no_create :
  forall env t d m,
    Forall (fun c => is_device_create c = false)
      (snd (replicate_device_options_to env t d m)).
Proof.
  intros env t d m. unfold replicate_device_options_to. cbv zeta.
  destruct (env_device_set_option env (device_handle d)
              DEVICE_OPTION_EVENT_SEND_TIMEOUT_SECS); simpl.
  - destruct m.
    + destruct (env_device_set_option env (device_handle d)
                  DEVICE_OPTION_CBS_REQUEST_TIMEOUT_SECS); simpl.
      * destruct (env_device_set_option env (device_handle d)
                    DEVICE_OPTION_SAS_TOKEN_LIFETIME_SECS); simpl.
        -- destruct (env_device_set_option env (device_handle d)
                       DEVICE_OPTION_SAS_TOKEN_REFRESH_TIME_SECS); simpl;
             repeat constructor.
        -- repeat constructor.
      * repeat constructor.
    + repeat constructor.
  - repeat constructor.
Qed.

Lemma Forall_no_create_follows_rules :
  forall device preference tr,
    Forall (fun c => is_device_create c = false) tr ->
    Forall (device_create_follows_rules device preference) tr.
Proof.
  intros device preference tr H. induction H as [|c tr Hc _ IH].
  - constructor.
  - constructor; [|exact IH]. destruct c; simpl in *; try exact I.
    discriminate.
Qed.

Lemma create_and_add_device_calls :
  forall env w device id client q,
    is_device_credential_acceptable device
      (preferred_authentication_mode (w_transport w)) = true ->
    let '(r, _, tr) := create_and_add_device env w device id client q in
    Forall (device_create_follows_rules device
              (preferred_authentication_mode (w_transport w))) tr /\
    registered_through_device_create r tr.
Proof.
  intros env w device id client q Hacc.
  rewrite is_device_credential_acceptable_rules in Hacc.
  unfold create_and_add_device.
  destruct (env_malloc env 0); simpl; [|split; [constructor|exact I]].
  destruct (env_STRING_construct env); simpl; [|split; [constructor|exact I]].
  destruct (env_device_create env); simpl.
  - match goal with
    | |- context [replicate_device_options_to ?e ?t ?d ?m] =>
        pose proof (replicate_device_options_to_no_create e t d m) as Hopts;
        destruct (replicate_device_options_to e t d m) as [r tr_options]
    end.
    simpl in Hopts.
    assert (Hhead : device_create_follows_rules device
                      (preferred_authentication_mode (w_transport w))
                      (call_device_create
                         (mk_DEVICE_CONFIG id
                            (STRING_c_str (iothub_host_fqdn (w_transport w)))
                            (deviceKey device) (deviceSasToken device)
                            (device_authentication_mode device)
                            (heap_ptr (w_next w))) true)).
    { simpl. split; [exact Hacc|apply device_authentication_mode_rules]. }
    assert (Hrest : Forall (device_create_follows_rules device
                      (preferred_authentication_mode (w_transport w)))
                      tr_options).
    { apply Forall_no_create_follows_rules; exact Hopts. }
    destruct r.
    + destruct (env_singlylinkedlist_add env); simpl.
      * split; [constructor; assumption|].
        eexists; left; reflexivity.
      * split; [|exact I]. constructor; [exact Hhead|].
        apply Forall_app; split; [exact Hrest|]. repeat constructor.
    + split; [|exact I]. constructor; [exact Hhead|].
      apply Forall_app; split; [exact Hrest|]. repeat constructor.
  - split; [|exact I]. constructor; [|constructor].
    simpl. split; [exact Hacc|apply device_authentication_mode_rules].
Qed.

Lemma Register_reaches_device_create :
  forall env w device id client q,
    deviceId device = Some id ->
    is_device_registered_ex (registered_devices (w_transport w)) id = None ->
    is_device_credential_acceptable device
      (preferred_authentication_mode (w_transport w)) = true ->
    env_malloc env 0 = true ->
    env_STRING_construct env = true ->
    exists rest,
      snd (IoTHubTransport_AMQP_Common_Register env w (Some device)
             (Some client) (Some q))
      = call_device_create
          (mk_DEVICE_CONFIG id
             (STRING_c_str (iothub_host_fqdn (w_transport w)))
             (deviceKey device) (deviceSasToken device)
             (device_authentication_mode device) (heap_ptr (w_next w)))
          (env_device_create env)
        :: rest /\
      Forall (fun c => is_device_create c = false) rest.
Proof.
  intros env w device id client q Hid Hnew Hacc Hmalloc Hstring.
  unfold IoTHubTransport_AMQP_Common_Register.
  rewrite Hid, Hnew, Hacc. cbn [not_NULL is_NULL negb].
  unfold create_and_add_device. rewrite Hmalloc, Hstring.
  cbv beta iota zeta delta [alloc]. cbn [negb fst snd w_transport w_next].
  destruct (env_device_create env); cbn [negb].
  - match goal with
    | |- context [replicate_device_options_to ?e ?t ?d ?m] =>
        pose proof (replicate_device_options_to_no_create e t d m) as Hopts;
        destruct (replicate_device_options_to e t d m) as [r tr_options]
    end.
    cbn [snd] in Hopts.
    destruct r; [destruct (negb (env_singlylinkedlist_add env))|];
      cbn [snd]; eexists; (split; [reflexivity|]);
      try exact Hopts;
      (apply Forall_app; split; [exact Hopts|repeat constructor]).
  - eexists. split; [reflexivity|constructor].
Qed.

Lemma Register_refuses_unacceptable_credentials :
  forall env w device client q,
    is_device_credential_acceptable device
      (preferred_authentication_mode (w_transport w)) = false ->
    IoTHubTransport_AMQP_Common_Register env w (Some device) client q
    = (None, w, []).
Proof.
  intros env w device client q Hacc.
  unfold IoTHubTransport_AMQP_Common_Register.
  destruct q as [q|]; [|reflexivity].
  destruct client as [client|]; [|reflexivity].
  destruct (deviceId device) as [id|]; [|reflexivity].
  destruct (not_NULL _); [reflexivity|].
  rewrite Hacc. reflexivity.
Qed.

(** C2.  Credential acceptance is the rule list of the specification, for
    every device configuration and every transport preference.  A
    configuration the rules reject never reaches device creation: Register
    returns NULL, changes nothing and calls no collaborator.  For a
    configuration the rules accept, whenever Register gets as far as device
    creation (its arguments are not NULL, the id is not found in the
    registry, and the instance and the copy of the id could be allocated),
    the first call it makes is [device_create], it makes no other, and the
    mode it passes is CBS if a key or a SAS token is provided and X509
    otherwise.  Every [device_create] call of Register is of that kind, and
    a registration that returns a handle made one that succeeded. *)
Theorem credential_acceptance_follows_rules :
  forall env w device client q,
    let preference := preferred_authentication_mode (w_transport w) in
    let key_present := not_NULL (deviceKey device) in
    let sas_present := not_NULL (deviceSasToken device) in
    let res :=
      IoTHubTransport_AMQP_Common_Register env w (Some device) client q in
    is_device_credential_acceptable device preference =
      credential_rules key_present sas_present preference /\
    (Forall (device_create_follows_rules device preference) (snd res) /\
     registered_through_device_create (fst (fst res)) (snd res)) /\
    (credential_rules key_present sas_present preference = false ->
     res = (None, w, [])) /\
    (forall id client' q',
       client = Some client' ->
       q = Some q' ->
       deviceId device = Some id ->
       is_device_registered_ex (registered_devices (w_transport w)) id = None
       ->
       credential_rules key_present sas_present preference = true ->
       env_malloc env 0 = true ->
       env_STRING_construct env = true ->
       exists rest,
         snd res
         = call_device_create
             (mk_DEVICE_CONFIG id
                (STRING_c_str (iothub_host_fqdn (w_transport w)))
                (deviceKey device) (deviceSasToken device)
                (credential_mode key_present sas_present)
                (heap_ptr (w_next w)))
             (env_device_create env)
           :: rest /\
         Forall (fun c => is_device_create c = false) rest).
Proof.
  intros env w device client q. cbv zeta.
  split; [apply is_device_credential_acceptable_rules|].
  split; [|split].
  - unfold IoTHubTransport_AMQP_Common_Register.
    destruct q as [q|]; [|split; [constructor|exact I]].
    destruct client as [client|]; [|split; [constructor|exact I]].
    destruct (deviceId device) as [id|]; [|split; [constructor|exact I]].
    destruct (not_NULL _); [split; [constructor|exact I]|].
    destruct (is_device_credential_acceptable device
                (preferred_authentication_mode (w_transport w))) eqn:Hacc;
      cbn [negb]; [|split; [constructor|exact I]].
    pose proof (create_and_add_device_calls env w device id client q Hacc)
      as H.
    destruct (create_and_add_device env w device id client q)
      as [[r w'] tr]. exact H.
  - intros Hrej. apply Register_refuses_unacceptable_credentials.
    rewrite is_device_credential_acceptable_rules. exact Hrej.
  - intros id client' q' -> -> Hid Hnew Hacc Hmalloc Hstring.
    rewrite <- is_device_credential_acceptable_rules in Hacc.
    rewrite <- device_authentication_mode_rules.
    apply Register_reaches_device_create; assumption.
Qed.

Lemma credential_acceptance_follows_rules_witness :
  exists rest,
    snd (IoTHubTransport_AMQP_Common_Register env_ok fresh_world
           (Some config_of_A_with_key) a_client empty_queue)
    = call_device_create
        (mk_DEVICE_CONFIG (mk_cstr (user_ptr 0) "A")
           (mk_cstr (heap_ptr 1) "hub.azure-devices.net")
           (Some (mk_cstr (user_ptr 1) "K")) None DEVICE_AUTH_MODE_CBS
           (heap_ptr 3))
        true
      :: rest /\
    Forall (fun c => is_device_create c = false) rest.
Proof.
  apply (proj2 (proj2 (proj2
           (credential_acceptance_follows_rules env_ok fresh_world
              config_of_A_with_key a_client empty_queue)))
           (mk_cstr (user_ptr 0) "A") (user_ptr 50) []);
    reflexivity.
Defined.

(** ** Send completion *)

Lemma message_callbacks_app :
  forall tr tr',
    message_callbacks (tr ++ tr') =
    message_callbacks tr ++ message_callbacks tr'.
Proof.
  induction tr as [|c tr IH]; intros tr'; simpl; [reflexivity|].
  destruct c; simpl; rewrite ?IH; reflexivity.
Qed.

Lemma on_event_send_complete_callbacks :
  forall message result d,
    message_callbacks (snd (on_event_send_complete message result d)) =
    expected_callback (message, result).
Proof.
  intros message result d. unfold on_event_send_complete, expected_callback.
  simpl. destruct (callback message); reflexivity.
Qed.

Lemma on_event_send_complete_counter :
  forall message result d,
    number_of_send_event_complete_failures
      (fst (on_event_send_complete message result d)) =
    match result with
    | D2C_EVENT_SEND_COMPLETE_RESULT_OK
    | D2C_EVENT_SEND_COMPLETE_RESULT_DEVICE_DESTROYED => 0
    | _ => size_t_incr (number_of_send_event_complete_failures d)
    end.
Proof. intros message [] d; reflexivity. Qed.

Lemma complete_events_callbacks :
  forall events d,
    message_callbacks (snd (complete_events events d)) =
    flat_map expected_callback events.
Proof.
  induction events as [|[message result] events IH]; intros d.
  - reflexivity.
  - pose proof (on_event_send_complete_callbacks message result d) as Hc.
    cbn [complete_events flat_map].
    destruct (on_event_send_complete message result d) as [d1 tr].
    specialize (IH d1). destruct (complete_events events d1) as [d2 tr'].
    cbn [snd] in *. rewrite message_callbacks_app, Hc, IH. reflexivity.
Qed.

(** C3.  The device-session result of a send completion is mapped to the
    user confirmation as Ok to Ok, CannotParse, FailSending and Unknown (and
    any value outside the enumeration) to Error, Timeout to MessageTimeout,
    DeviceDestroyed to BecauseDestroy; the send-complete failure counter is
    reset to 0 on Ok and DeviceDestroyed and incremented (as a [size_t]) on
    every other result; over any sequence of completions the user callbacks
    fire once per message that carries a callback, in completion order, with
    the mapped result and the message's context.  Three messages completed
    with Ok, Timeout, FailSending yield Ok, MessageTimeout, Error in that
    order and leave the counter at 2. *)
Theorem send_completion_mapping :
  (get_iothub_client_confirmation_result_from D2C_EVENT_SEND_COMPLETE_RESULT_OK
     = IOTHUB_CLIENT_CONFIRMATION_OK /\
   get_iothub_client_confirmation_result_from
     D2C_EVENT_SEND_COMPLETE_RESULT_ERROR_CANNOT_PARSE
     = IOTHUB_CLIENT_CONFIRMATION_ERROR /\
   get_iothub_client_confirmation_result_from
     D2C_EVENT_SEND_COMPLETE_RESULT_ERROR_FAIL_SENDING
     = IOTHUB_CLIENT_CONFIRMATION_ERROR /\
   get_iothub_client_confirmation_result_from
     D2C_EVENT_SEND_COMPLETE_RESULT_ERROR_UNKNOWN
     = IOTHUB_CLIENT_CONFIRMATION_ERROR /\
   get_iothub_client_confirmation_result_from
     D2C_EVENT_SEND_COMPLETE_RESULT_ERROR_TIMEOUT
     = IOTHUB_CLIENT_CONFIRMATION_MESSAGE_TIMEOUT /\
   get_iothub_client_confirmation_result_from
     D2C_EVENT_SEND_COMPLETE_RESULT_DEVICE_DESTROYED
     = IOTHUB_CLIENT_CONFIRMATION_BECAUSE_DESTROY /\
   forall raw,
     get_iothub_client_confirmation_result_from
       (D2C_EVENT_SEND_COMPLETE_RESULT_OTHER raw)
     = IOTHUB_CLIENT_CONFIRMATION_ERROR) /\
  (forall message result d,
     number_of_send_event_complete_failures
       (fst (on_event_send_complete message result d)) =
     match result with
     | D2C_EVENT_SEND_COMPLETE_RESULT_OK
     | D2C_EVENT_SEND_COMPLETE_RESULT_DEVICE_DESTROYED => 0
     | _ => size_t_incr (number_of_send_event_complete_failures d)
     end) /\
  (forall events d,
     message_callbacks (snd (complete_events events d)) =
     flat_map expected_callback events) /\
  (forall d m1 m2 m3 cb1 cb2 cb3 c1 c2 c3,
     let events :=
       [(mk_message m1 (Some cb1) c1, D2C_EVENT_SEND_COMPLETE_RESULT_OK);
        (mk_message m2 (Some cb2) c2,
         D2C_EVENT_SEND_COMPLETE_RESULT_ERROR_TIMEOUT);
        (mk_message m3 (Some cb3) c3,
         D2C_EVENT_SEND_COMPLETE_RESULT_ERROR_FAIL_SENDING)] in
     message_callbacks (snd (complete_events events d)) =
       [(cb1, IOTHUB_CLIENT_CONFIRMATION_OK, c1);
        (cb2, IOTHUB_CLIENT_CONFIRMATION_MESSAGE_TIMEOUT, c2);
        (cb3, IOTHUB_CLIENT_CONFIRMATION_ERROR, c3)] /\
     number_of_send_event_complete_failures
       (fst (complete_events events d)) = 2).
Proof.
  split; [repeat split; reflexivity|].
  split; [exact on_event_send_complete_counter|].
  split; [exact complete_events_callbacks|].
  intros d m1 m2 m3 cb1 cb2 cb3 c1 c2 c3. split; reflexivity.
Qed.

(** ** Message disposition *)

Lemma send_message_disposition_result :
  forall env w payload ctx disposition device,
    device_of (registered_devices (w_transport w)) (ctx_device_state ctx)
      = Some device ->
    env_malloc env 0 = true ->
    env_mallocAndStrcpy_s env = true ->
    let info := mk_disposition_info
                  (mk_cstr (heap_ptr (w_next w)) (c_chars (link_name ctx)))
                  (message_id ctx) in
    let h := device_handle device in
    let verdict := get_device_disposition_result_from disposition in
    IoTHubTransport_AMQP_Common_SendMessageDisposition env w
      (Some (mk_callback_info (Some payload) (Some ctx))) disposition =
    Some (if env_device_send_message_disposition env h
          then IOTHUB_CLIENT_OK else IOTHUB_CLIENT_ERROR,
          mk_world (S (w_next w)) (w_transport w),
          if env_device_send_message_disposition env h
          then [call_device_send_message_disposition h info verdict true;
                call_IoTHubMessage_Destroy payload;
                call_MESSAGE_CALLBACK_INFO_Destroy ctx;
                call_destroy_device_message_disposition_info info]
          else [call_device_send_message_disposition h info verdict false;
                call_destroy_device_message_disposition_info info]).
Proof.
  intros env w payload ctx disposition device Hdev Hmalloc Hcopy.
  unfold IoTHubTransport_AMQP_Common_SendMessageDisposition,
    create_device_message_disposition_info_from. simpl.
  rewrite Hdev, Hmalloc, Hcopy. simpl.
  destruct (env_device_send_message_disposition env (device_handle device));
    reflexivity.
Qed.

(** C4.  For a well-formed disposition context whose device is registered,
    and when the copy of the disposition information can be allocated,
    SendMessageDisposition maps the verdict as Accepted to Accepted,
    Abandoned to Released, Rejected to Rejected and any other value to
    Released, and makes exactly one disposition call to the session of that
    device, carrying the mapped verdict, the characters of the context's
    link name and its delivery id. *)
Theorem disposition_forwarded_once :
  forall env w payload ctx disposition device,
    device_of (registered_devices (w_transport w)) (ctx_device_state ctx)
      = Some device ->
    env_malloc env 0 = true ->
    env_mallocAndStrcpy_s env = true ->
    exists r w' tr info,
      IoTHubTransport_AMQP_Common_SendMessageDisposition env w
        (Some (mk_callback_info (Some payload) (Some ctx))) disposition
      = Some (r, w', tr) /\
      disposition_calls tr =
        [(device_handle device, info,
          match disposition with
          | IOTHUBMESSAGE_ACCEPTED =>
              DEVICE_MESSAGE_DISPOSITION_RESULT_ACCEPTED
          | IOTHUBMESSAGE_ABANDONED =>
              DEVICE_MESSAGE_DISPOSITION_RESULT_RELEASED
          | IOTHUBMESSAGE_REJECTED =>
              DEVICE_MESSAGE_DISPOSITION_RESULT_REJECTED
          | IOTHUBMESSAGE_OTHER _ =>
              DEVICE_MESSAGE_DISPOSITION_RESULT_RELEASED
          end)] /\
      c_chars (info_source info) = c_chars (link_name ctx) /\
      info_message_id info = message_id ctx.
Proof.
  intros env w payload ctx disposition device Hdev Hmalloc Hcopy.
  rewrite (send_message_disposition_result env w payload ctx disposition
             device Hdev Hmalloc Hcopy).
  do 3 eexists.
  exists (mk_disposition_info
            (mk_cstr (heap_ptr (w_next w)) (c_chars (link_name ctx)))
            (message_id ctx)).
  split; [reflexivity|].
  split; [|split; reflexivity].
  destruct (env_device_send_message_disposition env (device_handle device));
    destruct disposition; reflexivity.
Qed.

Lemma disposition_forwarded_once_witness :
  exists r w' tr info,
    IoTHubTransport_AMQP_Common_SendMessageDisposition env_ok world_with_A
      (Some a_received_message) IOTHUBMESSAGE_ACCEPTED = Some (r, w', tr) /\
    disposition_calls tr =
      [(heap_ptr 5, info, DEVICE_MESSAGE_DISPOSITION_RESULT_ACCEPTED)] /\
    c_chars (info_source info) = "link-1"%string /\
    info_message_id info = 7.
Proof.
  apply (disposition_forwarded_once env_ok world_with_A (user_ptr 30)
           a_disposition_context IOTHUBMESSAGE_ACCEPTED
           (mk_device (mk_cstr (heap_ptr 4) "A") (heap_ptr 5) (user_ptr 50)
              [] DEVICE_STATE_STOPPED 0 0 0 60));
    reflexivity.
Defined.

(** The round trip: a message the transport received and handed to the upper
    client, then dispositioned Accepted, yields exactly one Accepted
    disposition call with the link name and delivery id it arrived with. *)
Lemma received_then_accepted :
  forall env env' w message received context message_data w1 tr1,
    on_message_received env w message received context =
      Some (DEVICE_MESSAGE_DISPOSITION_RESULT_NONE, Some message_data,
            w1, tr1) ->
    env_malloc env' 0 = true ->
    env_mallocAndStrcpy_s env' = true ->
    exists r w2 tr info device,
      device_of (registered_devices (w_transport w)) context = Some device /\
      IoTHubTransport_AMQP_Common_SendMessageDisposition env' w1
        (Some message_data) IOTHUBMESSAGE_ACCEPTED = Some (r, w2, tr) /\
      disposition_calls tr =
        [(device_handle device, info,
          DEVICE_MESSAGE_DISPOSITION_RESULT_ACCEPTED)] /\
      c_chars (info_source info) = c_chars (info_source received) /\
      info_message_id info = info_message_id received.
Proof.
  intros env env' w message received context message_data w1 tr1 Hrx Hm Hc.
  unfold on_message_received in Hrx.
  destruct (device_of (registered_devices (w_transport w)) context)
    as [device|] eqn:Hdev; [|discriminate].
  unfold MESSAGE_CALLBACK_INFO_Create in Hrx.
  destruct (env_malloc env 0); simpl in Hrx; [|discriminate].
  destruct (env_malloc env 1); simpl in Hrx; [|discriminate].
  destruct (env_mallocAndStrcpy_s env); simpl in Hrx; [|discriminate].
  destruct (env_IoTHubClient_LL_MessageCallback env); simpl in Hrx;
    [|discriminate].
  injection Hrx as Hmd Hw1 _. subst message_data w1.
  pose proof (send_message_disposition_result env'
                (mk_world (S (w_next w)) (w_transport w)) message
                (mk_disposition_context context
                   (mk_cstr (heap_ptr (w_next w))
                      (c_chars (info_source received)))
                   (info_message_id received))
                IOTHUBMESSAGE_ACCEPTED device Hdev Hm Hc) as Hsend.
  cbv zeta in Hsend. simpl in Hsend.
  do 3 eexists.
  exists (mk_disposition_info
            (mk_cstr (heap_ptr (S (w_next w)))
               (c_chars (info_source received)))
            (info_message_id received)).
  exists device. split; [reflexivity|].
  split; [exact Hsend|].
  split; [|split; reflexivity].
  destruct (env_device_send_message_disposition env' (device_handle device));
    reflexivity.
Qed.

(** C5, as the claim states it, fails: with device "A" registered and a
    device session that refuses the disposition, SendMessageDisposition
    returns Error and destroys neither the payload nor the context. *)
Lemma failed_disposition_keeps_message :
  env_device_send_message_disposition env_disposition_fails (heap_ptr 5)
    = false /\
  ~ failed_disposition_tears_down env_disposition_fails world_with_A
      a_received_message IOTHUBMESSAGE_ACCEPTED.
Proof.
  split; [reflexivity|].
  unfold failed_disposition_tears_down. vm_compute.
  intros [_ [H _]]. discriminate H.
Qed.

(** C5, amended.  For a well-formed disposition context whose device is
    registered, when the disposition information can be allocated and
    forwarding the disposition to the device session fails,
    SendMessageDisposition returns Error, destroys the disposition
    information it had allocated for the call, and destroys neither the
    message payload nor the disposition context. *)
Theorem failed_disposition_returns_error :
  forall env w payload ctx disposition device,
    device_of (registered_devices (w_transport w)) (ctx_device_state ctx)
      = Some device ->
    env_malloc env 0 = true ->
    env_mallocAndStrcpy_s env = true ->
    env_device_send_message_disposition env (device_handle device) = false ->
    exists w' tr info,
      IoTHubTransport_AMQP_Common_SendMessageDisposition env w
        (Some (mk_callback_info (Some payload) (Some ctx))) disposition
      = Some (IOTHUB_CLIENT_ERROR, w', tr) /\
      In (call_destroy_device_message_disposition_info info) tr /\
      destroys_payload tr = false /\
      destroys_context tr = false.
Proof.
  intros env w payload ctx disposition device Hdev Hmalloc Hcopy Hfail.
  rewrite (send_message_disposition_result env w payload ctx disposition
             device Hdev Hmalloc Hcopy).
  rewrite Hfail. do 3 eexists. split; [reflexivity|].
  split; [right; left; reflexivity|]. split; reflexivity.
Qed.

Lemma failed_disposition_returns_error_witness :
  exists w' tr info,
    IoTHubTransport_AMQP_Common_SendMessageDisposition env_disposition_fails
      world_with_A (Some a_received_message) IOTHUBMESSAGE_ACCEPTED
    = Some (IOTHUB_CLIENT_ERROR, w', tr) /\
    In (call_destroy_device_message_disposition_info info) tr /\
    destroys_payload tr = false /\
    destroys_context tr = false.
Proof.
  apply (failed_disposition_returns_error env_disposition_fails world_with_A
           (user_ptr 30) a_disposition_context IOTHUBMESSAGE_ACCEPTED
           (mk_device (mk_cstr (heap_ptr 4) "A") (heap_ptr 5) (user_ptr 50)
              [] DEVICE_STATE_STOPPED 0 0 0 60));
    reflexivity.
Defined.

(** On success the payload and the context are destroyed. *)
Lemma accepted_disposition_tears_down :
  forall env w payload ctx disposition device,
    device_of (registered_devices (w_transport w)) (ctx_device_state ctx)
      = Some device ->
    env_malloc env 0 = true ->
    env_mallocAndStrcpy_s env = true ->
    env_device_send_message_disposition env (device_handle device) = true ->
    exists w' tr,
      IoTHubTransport_AMQP_Common_SendMessageDisposition env w
        (Some (mk_callback_info (Some payload) (Some ctx))) disposition
      = Some (IOTHUB_CLIENT_OK, w', tr) /\
      destroys_payload tr = true /\ destroys_context tr = true.
Proof.
  intros env w payload ctx disposition device Hdev Hmalloc Hcopy Hok.
  rewrite (send_message_disposition_result env w payload ctx disposition
             device Hdev Hmalloc Hcopy).
  rewrite Hok. do 2 eexists. split; [reflexivity|]. split; reflexivity.
Qed.

(** ** State-change timeout *)

Lemma check_state_change_timeout_fail_closed :
  forall env d,
    time_of_last_state_change d = INDEFINITE_TIME \/
    env_get_time env (device_handle d) = INDEFINITE_TIME \/
    get_difftime (env_get_time env (device_handle d))
      (time_of_last_state_change d) >= max_state_change_timeout_secs d ->
    fst (fst (check_state_change_timeout env d)) = FAILURE /\
    device_state (snd (fst (check_state_change_timeout env d)))
      = DEVICE_STATE_ERROR_AUTH.
Proof.
  intros env d H. unfold check_state_change_timeout, is_timeout_reached.
  destruct (time_of_last_state_change d =? INDEFINITE_TIME) eqn:Hstart;
    [split; reflexivity|].
  destruct (env_get_time env (device_handle d) =? INDEFINITE_TIME) eqn:Hnow;
    [split; reflexivity|].
  destruct (get_difftime (env_get_time env (device_handle d))
              (time_of_last_state_change d)
            >=? max_state_change_timeout_secs d) eqn:Hdiff;
    [split; reflexivity|].
  exfalso. apply Z.eqb_neq in Hstart, Hnow.
  rewrite Z.geb_leb in Hdiff. apply Z.leb_gt in Hdiff.
  destruct H as [H|[H|H]]; [contradiction|contradiction|lia].
Qed.

(** C8.  For a device in state STARTING or STOPPING, the per-device tick
    forces the state to ERROR_AUTH and reports failure whenever the recorded
    timestamp is the indefinite sentinel, or the clock cannot be read, or
    the time elapsed since [time_of_last_state_change] is at least
    [max_state_change_timeout_secs]. *)
Theorem state_change_timeout_forces_error_auth :
  forall env t d,
    device_state d = DEVICE_STATE_STARTING \/
    device_state d = DEVICE_STATE_STOPPING ->
    time_of_last_state_change d = INDEFINITE_TIME \/
    env_get_time env (device_handle d) = INDEFINITE_TIME \/
    get_difftime (env_get_time env (device_handle d))
      (time_of_last_state_change d) >= max_state_change_timeout_secs d ->
    let '(r, d', _) := IoTHubTransport_AMQP_Common_Device_DoWork env t d in
    r = FAILURE /\ device_state d' = DEVICE_STATE_ERROR_AUTH.
Proof.
  intros env t d Hstate Htime.
  pose proof (check_state_change_timeout_fail_closed env d Htime) as Hc.
  unfold IoTHubTransport_AMQP_Common_Device_DoWork.
  destruct Hstate as [Hs|Hs]; rewrite Hs;
    destruct (check_state_change_timeout env d) as [[r d'] tr];
    simpl in *; exact Hc.
Qed.

Lemma state_change_timeout_forces_error_auth_witness :
  let '(r, d', _) :=
    IoTHubTransport_AMQP_Common_Device_DoWork env_clock_61
      (w_transport fresh_world) device_D_starting in
  r = FAILURE /\ device_state d' = DEVICE_STATE_ERROR_AUTH.
Proof.
  apply (state_change_timeout_forces_error_auth env_clock_61
           (w_transport fresh_world) device_D_starting).
  - left; reflexivity.
  - right; right. vm_compute. discriminate.
Defined.

(** ** Option propagation *)

Lemma save_device_specific_option_stores :
  forall t name v o,
    get_device_option_name_from name = Some o ->
    save_device_specific_option t name v =
    (true, set_transport_option t o (as_size_t v)).
Proof.
  intros t name v o H.
  unfold get_device_option_name_from in H.
  unfold save_device_specific_option.
  destruct (String.eqb OPTION_SAS_TOKEN_LIFETIME name);
    [injection H as <-; reflexivity|].
  destruct (String.eqb OPTION_SAS_TOKEN_REFRESH_TIME name);
    [injection H as <-; reflexivity|].
  destruct (String.eqb OPTION_CBS_REQUEST_TIMEOUT name);
    [injection H as <-; reflexivity|].
  destruct (String.eqb OPTION_EVENT_SEND_TIMEOUT_SECS name);
    [injection H as <-; reflexivity|discriminate].
Qed.

Lemma transport_option_set :
  forall t o v, transport_option (set_transport_option t o v) o = v.
Proof. intros t [] v; reflexivity. Qed.

Lemma Device_SetOption_loop_stops :
  forall env o v pre hk dk post,
    (forall item, In item pre ->
       env_device_set_option env (device_handle (snd item)) o = true) ->
    env_device_set_option env (device_handle dk) o = false ->
    Device_SetOption_loop env o v (pre ++ (hk, dk) :: post) =
    (FAILURE,
     set_option_calls o v true pre
     ++ [call_device_set_option (device_handle dk) o v false]).
Proof.
  intros env o v pre hk dk post Hpre Hk.
  induction pre as [|[h d] pre IH]; simpl.
  - rewrite Hk. reflexivity.
  - pose proof (Hpre (h, d) (or_introl eq_refl)) as Hd. simpl in Hd.
    rewrite Hd. simpl.
    rewrite IH; [reflexivity|].
    intros item Hin. apply Hpre. right. exact Hin.
Qed.

Lemma device_session_option_In :
  forall tr h o v,
    device_session_option tr h o = Some v ->
    In (call_device_set_option h o v true) tr.
Proof.
  induction tr as [|c tr IH]; intros h o v H; simpl in H; [discriminate|].
  destruct (device_session_option tr h o) as [v'|] eqn:Hrest.
  - injection H as <-. right. apply IH. exact Hrest.
  - destruct c; try discriminate.
    destruct ok; try discriminate.
    destruct (addr_eq_dec h0 h); [|discriminate].
    destruct (DEVICE_OPTION_eq_dec o0 o); [|discriminate].
    injection H as <-. subst. left. reflexivity.
Qed.

Lemma device_session_option_defined :
  forall tr h o v,
    In (call_device_set_option h o v true) tr ->
    exists v', device_session_option tr h o = Some v'.
Proof.
  induction tr as [|c tr IH]; intros h o v H; simpl in H; [contradiction|].
  simpl. destruct (device_session_option tr h o) as [v'|] eqn:Hrest.
  - eexists; reflexivity.
  - destruct H as [H|H].
    + subst c. destruct (addr_eq_dec h h); [|congruence].
      destruct (DEVICE_OPTION_eq_dec o o); [|congruence].
      eexists; reflexivity.
    + destruct (IH h o v H) as [v' Hv']. congruence.
Qed.

Lemma set_option_calls_value :
  forall o v pre h' o' v' c,
    In (call_device_set_option h' o' v' true)
      (set_option_calls o v true pre ++ [call_device_set_option c o v false]) ->
    v' = v.
Proof.
  intros o v pre h' o' v' c H. apply in_app_or in H. destruct H as [H|H].
  - unfold set_option_calls in H. apply in_map_iff in H.
    destruct H as [item [Heq _]]. injection Heq as _ _ Hv. symmetry; exact Hv.
  - destruct H as [H|[]]. discriminate H.
Qed.

(** The new value is stored whatever the propagation does. *)
Lemma set_option_stores_default :
  forall env w name v o,
    get_device_option_name_from name = Some o ->
    transport_option
      (w_transport
         (snd (fst (IoTHubTransport_AMQP_Common_SetOption env w (Some name)
                      (Some v))))) o = as_size_t v.
Proof.
  intros env w name v o H. unfold IoTHubTransport_AMQP_Common_SetOption.
  rewrite (save_device_specific_option_stores _ _ v _ H).
  destruct (IoTHubTransport_AMQP_Common_Device_SetOption env _ name v)
    as [[|] tr]; simpl; apply transport_option_set.
Qed.

(** C10.  For every call to SetOption with one of the four device-scoped
    option names, the transport's stored default of that option is the new
    value when the call returns, whatever the propagation did.  When the
    propagation fails at some registered device (the devices before it in
    the list accepting the option), SetOption returns Error, the calls made
    are the successful [device_set_option] calls with the new value on the
    devices before the failing one, followed by the failing call and nothing
    else, and each device visited before the failing one holds the new
    value. *)
Theorem set_option_failure_keeps_new_value :
  forall env w name v o,
    get_device_option_name_from name = Some o ->
    let res :=
      IoTHubTransport_AMQP_Common_SetOption env w (Some name) (Some v) in
    let r := fst (fst res) in
    let w' := snd (fst res) in
    let tr := snd res in
    transport_option (w_transport w') o = as_size_t v /\
    forall pre hk dk post,
      registered_devices (w_transport w) = pre ++ (hk, dk) :: post ->
      (forall item, In item pre ->
         env_device_set_option env (device_handle (snd item)) o = true) ->
      env_device_set_option env (device_handle dk) o = false ->
      r = IOTHUB_CLIENT_ERROR /\
      tr = set_option_calls o (as_size_t v) true pre
           ++ [call_device_set_option (device_handle dk) o (as_size_t v)
                 false] /\
      forall item, In item pre ->
        device_session_option tr (device_handle (snd item)) o
          = Some (as_size_t v).
Proof.
  intros env w name v o Hname. cbv zeta.
  split; [apply set_option_stores_default; exact Hname|].
  intros pre hk dk post Hreg Hpre Hk.
  unfold IoTHubTransport_AMQP_Common_SetOption.
  rewrite (save_device_specific_option_stores _ _ v _ Hname).
  unfold IoTHubTransport_AMQP_Common_Device_SetOption. rewrite Hname.
  replace (registered_devices
             (set_transport_option (w_transport w) o (as_size_t v)))
    with (pre ++ (hk, dk) :: post) by (rewrite <- Hreg; reflexivity).
  rewrite (Device_SetOption_loop_stops env o (as_size_t v) pre hk dk post
             Hpre Hk).
  cbn [fst snd].
  split; [reflexivity|]. split; [reflexivity|].
  intros item Hin.
  assert (Hcall : In (call_device_set_option (device_handle (snd item)) o
                        (as_size_t v) true)
                    (set_option_calls o (as_size_t v) true pre
                     ++ [call_device_set_option (device_handle dk) o
                           (as_size_t v) false])).
  { apply in_or_app. left. unfold set_option_calls.
    apply in_map_iff. exists item. split; [reflexivity|exact Hin]. }
  destruct (device_session_option_defined _ _ _ _ Hcall) as [v' Hv'].
  rewrite Hv'. f_equal.
  apply device_session_option_In in Hv'.
  eapply set_option_calls_value. exact Hv'.
Qed.

Lemma set_option_failure_keeps_new_value_witness :
  let res :=
    IoTHubTransport_AMQP_Common_SetOption env_B_refuses_options
      world_with_A_and_B (Some OPTION_CBS_REQUEST_TIMEOUT)
      (Some (mk_option_value 45 true)) in
  transport_option (w_transport (snd (fst res)))
    DEVICE_OPTION_CBS_REQUEST_TIMEOUT_SECS = 45 /\
  fst (fst res) = IOTHUB_CLIENT_ERROR /\
  snd res =
    [call_device_set_option (heap_ptr 5)
       DEVICE_OPTION_CBS_REQUEST_TIMEOUT_SECS 45 true;
     call_device_set_option (heap_ptr 8)
       DEVICE_OPTION_CBS_REQUEST_TIMEOUT_SECS 45 false] /\
  device_session_option (snd res) (heap_ptr 5)
    DEVICE_OPTION_CBS_REQUEST_TIMEOUT_SECS = Some 45.
Proof.
  pose proof (set_option_failure_keeps_new_value env_B_refuses_options
                world_with_A_and_B OPTION_CBS_REQUEST_TIMEOUT
                (mk_option_value 45 true)
                DEVICE_OPTION_CBS_REQUEST_TIMEOUT_SECS eq_refl) as H.
  cbv zeta in H. destruct H as [Hstored Hfail].
  destruct (Hfail [(heap_ptr 3, device_A)] (heap_ptr 6) device_B [])
    as (Hr & Htr & Hkeep).
  - reflexivity.
  - intros item [<-|[]]. reflexivity.
  - reflexivity.
  - cbv zeta. split; [exact Hstored|]. split; [exact Hr|].
    split; [exact Htr|].
    apply (Hkeep (heap_ptr 3, device_A)). left. reflexivity.
Defined.

(** ** The retry tick *)

Lemma device_stop_calls_app :
  forall tr tr',
    device_stop_calls (tr ++ tr') =
    device_stop_calls tr ++ device_stop_calls tr'.
Proof.
  induction tr as [|c tr IH]; intros tr'; simpl; [reflexivity|].
  destruct c; simpl; rewrite ?IH; reflexivity.
Qed.

Lemma no_per_device_work_app :
  forall tr tr',
    no_per_device_work (tr ++ tr') =
    no_per_device_work tr && no_per_device_work tr'.
Proof. intros tr tr'. unfold no_per_device_work. apply forallb_app. Qed.

Lemma prepare_devices_for_connection_retry_devices :
  forall env l,
    fst (prepare_devices_for_connection_retry env l) =
    map clear_failures_of_item l.
Proof.
  intros env l. induction l as [|[h d] l IH]; simpl; [reflexivity|].
  destruct (prepare_devices_for_connection_retry env l) as [rest tr].
  simpl in *. rewrite IH. reflexivity.
Qed.

Lemma prepare_devices_for_connection_retry_calls :
  forall env l,
    let tr := snd (prepare_devices_for_connection_retry env l) in
    device_stop_calls tr = not_stopped l /\
    no_per_device_work tr = true /\
    forallb is_retry_preparation tr = true.
Proof.
  intros env l. induction l as [|[h d] l IH]; simpl.
  - repeat split; reflexivity.
  - destruct (prepare_devices_for_connection_retry env l) as [rest tr].
    simpl in *. destruct IH as [IH1 [IH2 IH3]].
    destruct (DEVICE_STATE_eq_dec (device_state d) DEVICE_STATE_STOPPED);
      simpl; repeat split; try assumption.
    rewrite IH1. reflexivity.
Qed.

Lemma save_underlying_io_transport_options_frame :
  forall env w,
    let '(_, w1, tr) := save_underlying_io_transport_options env w in
    let t := w_transport w in
    let t1 := w_transport w1 in
    registered_devices t1 = registered_devices t /\
    amqp_connection t1 = amqp_connection t /\
    tls_io t1 = tls_io t /\
    preferred_authentication_mode t1 = preferred_authentication_mode t /\
    is_connection_retry_required t1 = is_connection_retry_required t /\
    amqp_connection_state t1 = amqp_connection_state t /\
    device_stop_calls tr = [] /\
    no_per_device_work tr = true /\
    forallb is_retry_preparation tr = true.
Proof.
  intros env w. unfold save_underlying_io_transport_options.
  destruct (tls_io (w_transport w)) as [io|] eqn:Hio.
  - destruct (env_xio_retrieveoptions env); simpl.
    + destruct (saved_tls_options (w_transport w));
        repeat split; try reflexivity; exact Hio.
    + repeat split; try reflexivity; exact Hio.
  - repeat split; try reflexivity; exact Hio.
Qed.

(** C7.  A tick that begins with [is_connection_retry_required] set runs no
    per-device work: it makes no call that starts a device, reads the clock,
    sends an event, invokes a user callback or runs a device session, and it
    leaves every registered device as it was (state, timestamps and waiting
    list) except for the two failure counters, which become 0.  Its
    [device_stop] calls are exactly the devices that are not STOPPED, in list
    order; its calls end with the destruction of the connection object
    followed by that of the byte-stream (when one exists), preceded only by
    option caching and [device_stop]; and it returns with no connection, no
    byte-stream and [is_connection_retry_required] cleared. *)
Theorem retry_tick_only_prepares_retry :
  forall env w,
    is_connection_retry_required (w_transport w) = true ->
    let '(w', tr) := IoTHubTransport_AMQP_Common_DoWork env w in
    let t := w_transport w in
    let t' := w_transport w' in
    no_per_device_work tr = true /\
    registered_devices t' = map clear_failures_of_item (registered_devices t)
    /\
    device_stop_calls tr = not_stopped (registered_devices t) /\
    (exists preparation,
       tr = preparation ++ teardown_calls t /\
       forallb is_retry_preparation preparation = true) /\
    amqp_connection t' = None /\
    tls_io t' = None /\
    amqp_connection_state t' = AMQP_CONNECTION_STATE_CLOSED /\
    is_connection_retry_required t' = false.
Proof.
  intros env w Hretry. unfold IoTHubTransport_AMQP_Common_DoWork.
  rewrite Hretry. unfold prepare_for_connection_retry.
  pose proof (save_underlying_io_transport_options_frame env w) as Hsave.
  destruct (save_underlying_io_transport_options env w) as [[r w1] tr_save].
  cbv zeta in Hsave.
  destruct Hsave as (Hreg & Hconn & Hio & _ & _ & _ & Hs1 & Hs2 & Hs3).
  pose proof (prepare_devices_for_connection_retry_devices env
                (registered_devices (w_transport w1))) as Hdevs.
  pose proof (prepare_devices_for_connection_retry_calls env
                (registered_devices (w_transport w1))) as Hcalls.
  destruct (prepare_devices_for_connection_retry env
              (registered_devices (w_transport w1))) as [devices tr_devices].
  cbv zeta in Hcalls. simpl in Hdevs, Hcalls.
  destruct Hcalls as (Hc1 & Hc2 & Hc3).
  rewrite Hreg in Hdevs, Hc1.
  unfold destroy_underlying_io_transport. simpl.
  rewrite Hio, Hconn.
  assert (Htear : no_per_device_work (teardown_calls (w_transport w)) = true
                  /\ device_stop_calls (teardown_calls (w_transport w)) = []).
  { unfold teardown_calls. destruct (tls_io (w_transport w));
      split; reflexivity. }
  destruct Htear as [Ht1 Ht2].
  destruct (tls_io (w_transport w)) as [io|] eqn:Hio0; simpl.
  - repeat split; try reflexivity; try assumption.
    + rewrite !no_per_device_work_app, Hs2, Hc2. reflexivity.
    + rewrite !device_stop_calls_app, Hs1, Hc1. simpl.
      rewrite app_nil_r. reflexivity.
    + exists (tr_save ++ tr_devices). split.
      * unfold teardown_calls. rewrite Hio0, <- app_assoc. reflexivity.
      * rewrite forallb_app, Hs3, Hc3. reflexivity.
  - repeat split; try reflexivity; try assumption.
    + rewrite !no_per_device_work_app, Hs2, Hc2. reflexivity.
    + rewrite !device_stop_calls_app, Hs1, Hc1. simpl.
      rewrite app_nil_r. reflexivity.
    + exists (tr_save ++ tr_devices). split.
      * unfold teardown_calls. rewrite Hio0, <- app_assoc. reflexivity.
      * rewrite forallb_app, Hs3, Hc3. reflexivity.
Qed.

Lemma retry_tick_only_prepares_retry_witness :
  let '(w', tr) :=
    IoTHubTransport_AMQP_Common_DoWork env_ok world_flagged_for_retry in
  let t := w_transport world_flagged_for_retry in
  let t' := w_transport w' in
  no_per_device_work tr = true /\
  registered_devices t' = map clear_failures_of_item (registered_devices t) /\
  device_stop_calls tr = not_stopped (registered_devices t) /\
  (exists preparation,
     tr = preparation ++ teardown_calls t /\
     forallb is_retry_preparation preparation = true) /\
  amqp_connection t' = None /\
  tls_io t' = None /\
  amqp_connection_state t' = AMQP_CONNECTION_STATE_CLOSED /\
  is_connection_retry_required t' = false.
Proof.
  apply (retry_tick_only_prepares_retry env_ok world_flagged_for_retry).
  reflexivity.
Defined.

Example retry_tick_calls :
  snd (IoTHubTransport_AMQP_Common_DoWork env_ok world_flagged_for_retry) =
  [call_xio_retrieveoptions (heap_ptr 12) true;
   call_device_stop (heap_ptr 5) true;
   call_device_stop (heap_ptr 8) true;
   call_amqp_connection_destroy (Some (heap_ptr 13));
   call_xio_destroy (heap_ptr 12)].
Proof. reflexivity. Qed.

(** ** The preferred authentication mode *)

Lemma get_new_underlying_io_transport_frame :
  forall env w,
    let '(_, _, w1, _) := get_new_underlying_io_transport env w in
    w_transport w1 = w_transport w.
Proof.
  intros env w. unfold get_new_underlying_io_transport.
  destruct (env_underlying_io_transport_provider env); simpl.
  - destruct (restore_underlying_io_transport_options env (w_transport w)
                (heap_ptr (w_next w))). reflexivity.
  - reflexivity.
Qed.

Lemma create_amqp_connection_frame :
  forall env w io,
    let '(_, w1, _) := create_amqp_connection env w io in
    let t := w_transport w in
    let t1 := w_transport w1 in
    preferred_authentication_mode t1 = preferred_authentication_mode t /\
    registered_devices t1 = registered_devices t /\
    is_connection_retry_required t1 = is_connection_retry_required t /\
    amqp_connection_state t1 = AMQP_CONNECTION_STATE_CLOSED.
Proof.
  intros env w io. unfold create_amqp_connection.
  destruct (env_amqp_connection_create env); simpl; repeat split.
Qed.

Lemma establish_amqp_connection_frame :
  forall env w,
    let '(r, w1, _) := establish_amqp_connection env w in
    let t := w_transport w in
    let t1 := w_transport w1 in
    preferred_authentication_mode t1 = preferred_authentication_mode t /\
    registered_devices t1 = registered_devices t /\
    is_connection_retry_required t1 = is_connection_retry_required t /\
    (r = RESULT_OK ->
     amqp_connection_state t1 = AMQP_CONNECTION_STATE_CLOSED).
Proof.
  intros env w. unfold establish_amqp_connection.
  destruct (AUTHENTICATION_MODE_eq_dec _ _);
    [repeat split; discriminate|].
  destruct (tls_io (w_transport w)) as [io|].
  - pose proof (create_amqp_connection_frame env w io) as H.
    destruct (create_amqp_connection env w io) as [[r w1] tr].
    cbv zeta in H. destruct H as (H1 & H2 & H3 & H4).
    repeat split; try assumption. intros _. exact H4.
  - pose proof (get_new_underlying_io_transport_frame env w) as Hnew.
    destruct (get_new_underlying_io_transport env w) as [[[r io] w1] tr].
    destruct r; [|rewrite Hnew; repeat split; discriminate].
    destruct io as [io|]; [|rewrite Hnew; repeat split; discriminate].
    match goal with
    | |- context [create_amqp_connection env ?w2 io] =>
        pose proof (create_amqp_connection_frame env w2 io) as H;
        destruct (create_amqp_connection env w2 io) as [[r2 w3] tr2]
    end.
    cbv zeta in H. simpl in H. rewrite Hnew in H.
    destruct H as (H1 & H2 & H3 & H4).
    repeat split; try assumption. intros _. exact H4.
Qed.

Lemma prepare_for_connection_retry_mode :
  forall env w,
    mode_of (fst (prepare_for_connection_retry env w)) = mode_of w.
Proof.
  intros env w. unfold prepare_for_connection_retry, mode_of.
  pose proof (save_underlying_io_transport_options_frame env w) as Hsave.
  destruct (save_underlying_io_transport_options env w) as [[r w1] tr_save].
  cbv zeta in Hsave. destruct Hsave as (_ & _ & _ & Hmode & _).
  destruct (prepare_devices_for_connection_retry env
              (registered_devices (w_transport w1))) as [devices tr].
  unfold destroy_underlying_io_transport. simpl.
  destruct (tls_io (w_transport w1)); simpl; exact Hmode.
Qed.

Lemma DoWork_connected_mode :
  forall env w, mode_of (fst (DoWork_connected env w)) = mode_of w.
Proof.
  intros env w. unfold DoWork_connected, mode_of.
  destruct (registered_devices (w_transport w)); [reflexivity|].
  destruct (amqp_connection (w_transport w)).
  - destruct (AMQP_CONNECTION_STATE_eq_dec _ _); [|reflexivity].
    destruct (DoWork_devices env (w_transport w) _) as [[devices flag] tr].
    destruct flag; reflexivity.
  - pose proof (establish_amqp_connection_frame env w) as H.
    destruct (establish_amqp_connection env w) as [[r w1] tr].
    cbv zeta in H. destruct H as (Hmode & _).
    destruct r; [|exact Hmode].
    destruct (AMQP_CONNECTION_STATE_eq_dec _ _); [|exact Hmode].
    destruct (DoWork_devices env (w_transport w1) _) as [[devices flag] tr'].
    destruct flag; exact Hmode.
Qed.

Lemma DoWork_mode :
  forall env w,
    mode_of (fst (IoTHubTransport_AMQP_Common_DoWork env w)) = mode_of w.
Proof.
  intros env w. unfold IoTHubTransport_AMQP_Common_DoWork.
  destruct (is_connection_retry_required (w_transport w)).
  - pose proof (prepare_for_connection_retry_mode env w) as H.
    destruct (prepare_for_connection_retry env w) as [w1 tr].
    simpl in *. destruct (amqp_connection _); exact H.
  - pose proof (DoWork_connected_mode env w) as H.
    destruct (DoWork_connected env w) as [w1 tr].
    simpl in *. destruct (amqp_connection _); exact H.
Qed.

Lemma SetOption_xio_frame :
  forall env w name,
    let '(_, w1, _) := SetOption_xio env w name in
    let t := w_transport w in
    let t1 := w_transport w1 in
    preferred_authentication_mode t1 = preferred_authentication_mode t /\
    registered_devices t1 = registered_devices t /\
    is_connection_retry_required t1 = is_connection_retry_required t.
Proof.
  intros env w name. unfold SetOption_xio.
  assert (Hio : forall w0 : world,
            match
              (let '(_, w2, tr_save) :=
                 save_underlying_io_transport_options env w0 in
               (IOTHUB_CLIENT_OK, w2, tr_save))
            with
            | (_, w2, _) =>
                preferred_authentication_mode (w_transport w2) =
                  preferred_authentication_mode (w_transport w0) /\
                registered_devices (w_transport w2) =
                  registered_devices (w_transport w0) /\
                is_connection_retry_required (w_transport w2) =
                  is_connection_retry_required (w_transport w0)
            end).
  { intros w0.
    pose proof (save_underlying_io_transport_options_frame env w0) as H.
    destruct (save_underlying_io_transport_options env w0) as [[r w2] tr].
    cbv zeta in H. destruct H as (H1 & _ & _ & H2 & H3 & _).
    repeat split; assumption. }
  destruct (tls_io (w_transport w)) as [io|] eqn:Hio0.
  - rewrite Hio0. destruct (env_xio_setoption env); simpl.
    + specialize (Hio w).
      destruct (save_underlying_io_transport_options env w) as [[r w2] tr].
      exact Hio.
    + repeat split.
  - pose proof (get_new_underlying_io_transport_frame env w) as Hnew.
    destruct (get_new_underlying_io_transport env w) as [[[r io] w1] tr].
    simpl. destruct r; [|rewrite Hnew; repeat split].
    destruct io as [io|]; [|rewrite Hnew; repeat split].
    destruct (env_xio_setoption env); simpl; [|rewrite Hnew; repeat split].
    match goal with
    | |- context [save_underlying_io_transport_options env ?w2] =>
        specialize (Hio w2);
        destruct (save_underlying_io_transport_options env w2)
          as [[r2 w3] tr2]
    end.
    simpl in Hio. rewrite Hnew in Hio. exact Hio.
Qed.

Lemma save_device_specific_option_frame :
  forall t name v,
    let t1 := snd (save_device_specific_option t name v) in
    preferred_authentication_mode t1 = preferred_authentication_mode t /\
    registered_devices t1 = registered_devices t /\
    is_connection_retry_required t1 = is_connection_retry_required t /\
    amqp_connection t1 = amqp_connection t.
Proof.
  intros t name v. unfold save_device_specific_option.
  repeat break_match; simpl; repeat split.
Qed.

Lemma SetOption_frame :
  forall env w name v,
    let '(_, w1, _) := IoTHubTransport_AMQP_Common_SetOption env w name v in
    let t := w_transport w in
    let t1 := w_transport w1 in
    registered_devices t1 = registered_devices t /\
    is_connection_retry_required t1 = is_connection_retry_required t /\
    (preferred_authentication_mode t <>
       AMQP_TRANSPORT_AUTHENTICATION_MODE_NOT_SET ->
     preferred_authentication_mode t1 = preferred_authentication_mode t).
Proof.
  intros env w name v. unfold IoTHubTransport_AMQP_Common_SetOption.
  destruct name as [name|]; [|repeat split].
  destruct v as [v|]; [|repeat split].
  pose proof (save_device_specific_option_frame (w_transport w) name v) as Hs.
  destruct (save_device_specific_option (w_transport w) name v)
    as [specific t1].
  cbv zeta in Hs. simpl in Hs. destruct Hs as (Hm & Hr & Hf & Hc).
  destruct specific.
  - destruct (IoTHubTransport_AMQP_Common_Device_SetOption env t1 name v)
      as [[|] tr]; simpl; frame_done.
  - destruct (String.eqb OPTION_LOG_TRACE name).
    + simpl. destruct (amqp_connection t1);
        [destruct (env_amqp_connection_set_logging env)|];
        simpl; frame_done.
    + destruct (String.eqb OPTION_X509_CERT name
                || String.eqb OPTION_X509_PRIVATE_KEY name).
      * destruct (AUTHENTICATION_MODE_eq_dec
                    (preferred_authentication_mode t1)
                    AMQP_TRANSPORT_AUTHENTICATION_MODE_NOT_SET) as [Hns|Hns].
        -- pose proof (SetOption_xio_frame env
                         (set_transport w
                            (set_preferred_authentication_mode t1
                               AMQP_TRANSPORT_AUTHENTICATION_MODE_X509))
                         name) as Hx.
           destruct (SetOption_xio env _ name) as [[r w1] tr].
           cbv zeta in Hx. simpl in Hx. destruct Hx as (_ & Hx2 & Hx3).
           repeat split; [congruence|congruence|].
           intros Hset. exfalso. apply Hset. congruence.
        -- destruct (AUTHENTICATION_MODE_eq_dec
                       (preferred_authentication_mode t1)
                       AMQP_TRANSPORT_AUTHENTICATION_MODE_X509).
           ++ pose proof (SetOption_xio_frame env (set_transport w t1) name)
                as Hx.
              destruct (SetOption_xio env _ name) as [[r w1] tr].
              cbv zeta in Hx. simpl in Hx. destruct Hx as (Hx1 & Hx2 & Hx3).
              frame_done.
           ++ simpl. frame_done.
      * pose proof (SetOption_xio_frame env (set_transport w t1) name) as Hx.
        destruct (SetOption_xio env _ name) as [[r w1] tr].
        cbv zeta in Hx. simpl in Hx. destruct Hx as (Hx1 & Hx2 & Hx3).
        frame_done.
Qed.

Lemma save_preferred_authentication_mode_once :
  forall t first m,
    preferred_authentication_mode t <>
      AMQP_TRANSPORT_AUTHENTICATION_MODE_NOT_SET ->
    save_preferred_authentication_mode t first m = t.
Proof.
  intros t first m H. unfold save_preferred_authentication_mode.
  destruct (AUTHENTICATION_MODE_eq_dec _ _); [contradiction|reflexivity].
Qed.

Lemma Register_mode :
  forall env w device client q,
    mode_of w <> AMQP_TRANSPORT_AUTHENTICATION_MODE_NOT_SET ->
    mode_of (snd (fst (IoTHubTransport_AMQP_Common_Register env w device
                         client q))) = mode_of w.
Proof.
  intros env w device client q Hset.
  unfold IoTHubTransport_AMQP_Common_Register, create_and_add_device.
  repeat (break_match; simpl; try reflexivity).
  all: unfold mode_of; simpl.
  all: rewrite save_preferred_authentication_mode_once; [reflexivity|].
  all: exact Hset.
Qed.

Lemma Unregister_mode :
  forall w h,
    mode_of (fst (IoTHubTransport_AMQP_Common_Unregister w h)) = mode_of w.
Proof.
  intros w h. unfold IoTHubTransport_AMQP_Common_Unregister.
  repeat (break_match; simpl; try reflexivity).
Qed.

Lemma create_device_message_disposition_info_from_frame :
  forall env w ctx,
    w_transport (snd (create_device_message_disposition_info_from env w ctx))
    = w_transport w.
Proof.
  intros env w ctx. unfold create_device_message_disposition_info_from.
  destruct (env_malloc env 0); simpl; [|reflexivity].
  destruct (env_mallocAndStrcpy_s env); reflexivity.
Qed.

Lemma MESSAGE_CALLBACK_INFO_Create_frame :
  forall env w message info h,
    w_transport (snd (MESSAGE_CALLBACK_INFO_Create env w message info h))
    = w_transport w.
Proof.
  intros env w message info h. unfold MESSAGE_CALLBACK_INFO_Create.
  destruct (env_malloc env 0); simpl; [|reflexivity].
  destruct (env_malloc env 1); simpl; [|reflexivity].
  destruct (env_mallocAndStrcpy_s env); reflexivity.
Qed.

Lemma SendMessageDisposition_frame :
  forall env w message_data disposition r w' tr,
    IoTHubTransport_AMQP_Common_SendMessageDisposition env w message_data
      disposition = Some (r, w', tr) ->
    w_transport w' = w_transport w.
Proof.
  intros env w message_data disposition r w' tr H.
  unfold IoTHubTransport_AMQP_Common_SendMessageDisposition in H.
  destruct message_data as [md|]; [|injection H as _ <- _; reflexivity].
  destruct (cb_messageHandle md); [|injection H as _ <- _; reflexivity].
  destruct (transportContext md) as [ctx|];
    [|injection H as _ <- _; reflexivity].
  destruct (device_of _ _) as [device|]; [|discriminate].
  pose proof (create_device_message_disposition_info_from_frame env w ctx)
    as Hc.
  destruct (create_device_message_disposition_info_from env w ctx)
    as [[info|] w1]; simpl in Hc.
  - destruct (env_device_send_message_disposition env _); simpl in H;
      injection H as _ <- _; exact Hc.
  - injection H as _ <- _. exact Hc.
Qed.

Lemma on_message_received_frame :
  forall env w message info context r md w' tr,
    on_message_received env w message info context = Some (r, md, w', tr) ->
    w_transport w' = w_transport w.
Proof.
  intros env w message info context r md w' tr H.
  unfold on_message_received in H.
  destruct (device_of _ _) as [device|]; [|discriminate].
  pose proof (MESSAGE_CALLBACK_INFO_Create_frame env w message info context)
    as Hc.
  destruct (MESSAGE_CALLBACK_INFO_Create env w message info context)
    as [[message_data|] w1]; simpl in Hc.
  - destruct (env_IoTHubClient_LL_MessageCallback env); simpl in H;
      injection H as _ _ <- _; exact Hc.
  - injection H as _ _ <- _. exact Hc.
Qed.

Lemma step_mode :
  forall op w w' tr,
    step op w = Some (w', tr) ->
    mode_of w <> AMQP_TRANSPORT_AUTHENTICATION_MODE_NOT_SET ->
    mode_of w' = mode_of w.
Proof.
  intros op w w' tr Hstep Hset.
  destruct op as [env device client q | h | env name value | env |
                  | h m | env md disposition | env message info ctx
                  | now ctx prev new | ctx m result | prev new];
    simpl in Hstep.
  - pose proof (Register_mode env w device client q Hset) as H.
    destruct (IoTHubTransport_AMQP_Common_Register env w device client q)
      as [[r w1] tr1].
    injection Hstep as <- _. exact H.
  - pose proof (Unregister_mode w h) as H.
    destruct (IoTHubTransport_AMQP_Common_Unregister w h).
    injection Hstep as <- _. exact H.
  - pose proof (SetOption_frame env w name value) as H.
    destruct (IoTHubTransport_AMQP_Common_SetOption env w name value)
      as [[r w1] tr1].
    injection Hstep as <- _. cbv zeta in H. apply H. exact Hset.
  - pose proof (DoWork_mode env w) as H.
    destruct (IoTHubTransport_AMQP_Common_DoWork env w).
    injection Hstep as <- _. exact H.
  - discriminate.
  - injection Hstep as <- _. reflexivity.
  - destruct (IoTHubTransport_AMQP_Common_SendMessageDisposition env w
                md disposition) as [[[r w1] tr1]|] eqn:Hsend;
      [|discriminate].
    injection Hstep as <- _. unfold mode_of.
    rewrite (SendMessageDisposition_frame _ _ _ _ _ _ _ Hsend). reflexivity.
  - destruct (on_message_received env w message info ctx)
      as [[[[r md] w1] tr1]|] eqn:Hrx; [|discriminate].
    injection Hstep as <- _. unfold mode_of.
    rewrite (on_message_received_frame _ _ _ _ _ _ _ _ _ Hrx). reflexivity.
  - injection Hstep as <- _. reflexivity.
  - destruct (device_of _ _) as [d|]; [|discriminate].
    destruct (on_event_send_complete m result d).
    injection Hstep as <- _. reflexivity.
  - destruct (AMQP_CONNECTION_STATE_eq_dec new prev);
      [injection Hstep as <- _; destruct w; reflexivity|].
    destruct (AMQP_CONNECTION_STATE_eq_dec new AMQP_CONNECTION_STATE_ERROR);
      injection Hstep as <- _; reflexivity.
Qed.

(** C9.  Over every run of operations of a live transport (register,
    unregister, set_option, do_work, the callbacks of the collaborators;
    destroy ends the life of the transport), once the preferred
    authentication mode is CBS or X509 it keeps that value. *)
Theorem preferred_authentication_mode_is_fixed :
  forall ops w w' tr,
    mode_of w <> AMQP_TRANSPORT_AUTHENTICATION_MODE_NOT_SET ->
    run ops w = Some (w', tr) ->
    mode_of w' = mode_of w.
Proof.
  induction ops as [|op ops IH]; intros w w' tr Hset Hrun; simpl in Hrun.
  - injection Hrun as <- _. reflexivity.
  - destruct (step op w) as [[w1 tr1]|] eqn:Hstep; [|discriminate].
    destruct (run ops w1) as [[w2 tr2]|] eqn:Hrest; [|discriminate].
    injection Hrun as <- _.
    pose proof (step_mode op w w1 tr1 Hstep Hset) as H1.
    rewrite <- H1. apply (IH w1 w2 tr2); [congruence|exact Hrest].
Qed.

Lemma preferred_authentication_mode_is_fixed_witness :
  mode_of (fst world_after_operations) =
  AMQP_TRANSPORT_AUTHENTICATION_MODE_CBS.
Proof.
  apply (preferred_authentication_mode_is_fixed operations_after_A
           world_with_A (fst world_after_operations)
           (snd world_after_operations)).
  - vm_compute. discriminate.
  - vm_compute. reflexivity.
Defined.

(** ** The failure budget *)

Lemma size_t_incr_small :
  forall x, 0 <= x <= 4 -> size_t_incr x = x + 1.
Proof.
  intros x H. unfold size_t_incr, SIZE_T_MODULUS.
  apply Z.mod_small. change (2 ^ 64) with 18446744073709551616. lia.
Qed.









Lemma prepare_for_connection_retry_registry :
  forall env w,
    registered_devices (w_transport (fst (prepare_for_connection_retry env w)))
    = map clear_failures_of_item (registered_devices (w_transport w)).
Proof.
  intros env w. unfold prepare_for_connection_retry.
  pose proof (save_underlying_io_transport_options_frame env w) as Hsave.
  destruct (save_underlying_io_transport_options env w) as [[r w1] tr_save].
  cbv zeta in Hsave. destruct Hsave as (Hreg & _).
  pose proof (prepare_devices_for_connection_retry_devices env
                (registered_devices (w_transport w1))) as Hdevs.
  destruct (prepare_devices_for_connection_retry env
              (registered_devices (w_transport w1))) as [devices tr].
  simpl in Hdevs. rewrite Hreg in Hdevs.
  unfold destroy_underlying_io_transport. simpl.
  destruct (tls_io (w_transport w1)); simpl; exact Hdevs.
Qed.


Lemma map_fst_clear_failures :
  forall l, map fst (map clear_failures_of_item l) = map fst l.
Proof.
  intros l. rewrite map_map. apply map_ext. intros [h d]. reflexivity.
Qed.



Lemma DoWork_devices_handles :
  forall env t l, map fst (fst (fst (DoWork_devices env t l))) = map fst l.
Proof.
  intros env t l. induction l as [|[h d] l IH]; simpl; [reflexivity|].
  destruct (DoWork_devices env t l) as [[rest flag'] tr']. simpl in IH.
  destruct (number_of_send_event_complete_failures d
            >=? MAX_NUMBER_OF_DEVICE_FAILURES);
    [simpl; rewrite IH; reflexivity|].
  destruct (IoTHubTransport_AMQP_Common_Device_DoWork env t d)
    as [[r d1] tr1].
  destruct r; simpl; rewrite IH; reflexivity.
Qed.

Lemma DoWork_connected_handles :
  forall env w,
    registered_handles (fst (DoWork_connected env w)) = registered_handles w.
Proof.
  intros env w. unfold DoWork_connected, registered_handles.
  destruct (registered_devices (w_transport w)) eqn:Hregs;
    [simpl; rewrite Hregs; reflexivity|].
  rewrite <- Hregs.
  assert (Hloop : forall w1 tr_conn,
            registered_devices (w_transport w1)
              = registered_devices (w_transport w) ->
            map fst
              (registered_devices
                 (w_transport
                    (fst (let '(devices, flag, tr) :=
                            DoWork_devices env (w_transport w1)
                              (registered_devices (w_transport w1)) in
                          (set_transport w1
                             (if flag
                              then set_is_connection_retry_required
                                     (set_registered_devices (w_transport w1)
                                        devices) true
                              else set_registered_devices (w_transport w1)
                                     devices),
                           tr_conn ++ tr)))))
            = map fst (registered_devices (w_transport w))).
  { intros w1 tr_conn Hreg.
    pose proof (DoWork_devices_handles env (w_transport w1)
                  (registered_devices (w_transport w1))) as H.
    destruct (DoWork_devices env (w_transport w1)
                (registered_devices (w_transport w1)))
      as [[devices flag] tr].
    simpl in H. rewrite Hreg in H. destruct flag; exact H. }
  destruct (amqp_connection (w_transport w)).
  - destruct (AMQP_CONNECTION_STATE_eq_dec _ _); [|reflexivity].
    apply Hloop. reflexivity.
  - pose proof (establish_amqp_connection_frame env w) as He.
    destruct (establish_amqp_connection env w) as [[r w1] tr_conn].
    cbv zeta in He. destruct He as (_ & Hreg & _).
    destruct r; [|simpl; rewrite Hreg; reflexivity].
    destruct (AMQP_CONNECTION_STATE_eq_dec _ _);
      [|simpl; rewrite Hreg; reflexivity].
    apply Hloop. exact Hreg.
Qed.

(** A tick neither adds nor removes a device. *)
Lemma DoWork_handles :
  forall env w,
    registered_handles (fst (IoTHubTransport_AMQP_Common_DoWork env w))
    = registered_handles w.
Proof.
  intros env w. unfold IoTHubTransport_AMQP_Common_DoWork.
  destruct (is_connection_retry_required (w_transport w)).
  - pose proof (prepare_for_connection_retry_registry env w) as Hreg.
    destruct (prepare_for_connection_retry env w) as [w1 tr].
    simpl in Hreg.
    assert (H : map fst (registered_devices (w_transport w1))
                = registered_handles w).
    { rewrite Hreg. apply map_fst_clear_failures. }
    simpl. destruct (amqp_connection (w_transport w1)); exact H.
  - pose proof (DoWork_connected_handles env w) as H.
    destruct (DoWork_connected env w) as [w1 tr]. simpl in H.
    destruct (amqp_connection (w_transport w1)); exact H.
Qed.




Lemma device_of_In :
  forall l h d, device_of l h = Some d -> In (h, d) l.
Proof.
  induction l as [|[h' d'] l IH]; intros h d H; simpl in H; [discriminate|].
  destruct (addr_eq_dec h' h) as [->|_].
  - injection H as ->. left. reflexivity.
  - right. apply IH. exact H.
Qed.


Lemma save_preferred_authentication_mode_frame :
  forall t first m,
    registered_devices (save_preferred_authentication_mode t first m)
      = registered_devices t /\
    is_connection_retry_required (save_preferred_authentication_mode t first m)
      = is_connection_retry_required t.
Proof.
  intros t first m. unfold save_preferred_authentication_mode.
  destruct (_ && _); [destruct m|]; split; reflexivity.
Qed.

(** What Register does to the list: nothing when it returns NULL, one new
    device at the tail, with its counters at 0, when it returns a handle. *)
Lemma Register_registry :
  forall env w device client q,
    let res := IoTHubTransport_AMQP_Common_Register env w device client q in
    let t := w_transport w in
    let t' := w_transport (snd (fst res)) in
    is_connection_retry_required t' = is_connection_retry_required t /\
    ((fst (fst res) = None /\ registered_devices t' = registered_devices t) \/
     (exists h d,
        fst (fst res) = Some h /\
        registered_devices t' = registered_devices t ++ [(h, d)] /\
        number_of_previous_failures d = 0 /\
        number_of_send_event_complete_failures d = 0)).
Proof.
  intros env w device client q. cbv zeta.
  assert (Hnone : forall w0 : world,
            w_transport w0 = w_transport w ->
            is_connection_retry_required (w_transport w0)
              = is_connection_retry_required (w_transport w) /\
            ((@None IOTHUB_DEVICE_HANDLE = None /\
              registered_devices (w_transport w0)
                = registered_devices (w_transport w)) \/
             (exists h d,
                @None IOTHUB_DEVICE_HANDLE = Some h /\
                registered_devices (w_transport w0)
                  = registered_devices (w_transport w) ++ [(h, d)] /\
                number_of_previous_failures d = 0 /\
                number_of_send_event_complete_failures d = 0))).
  { intros w0 ->. split; [reflexivity|left; split; reflexivity]. }
  unfold IoTHubTransport_AMQP_Common_Register.
  destruct device as [device|]; [|apply Hnone; reflexivity].
  destruct q as [q|]; [|apply Hnone; reflexivity].
  destruct client as [client|]; [|apply Hnone; reflexivity].
  destruct (deviceId device) as [id|]; [|apply Hnone; reflexivity].
  destruct (not_NULL _); [apply Hnone; reflexivity|].
  destruct (negb (is_device_credential_acceptable _ _));
    [apply Hnone; reflexivity|].
  unfold create_and_add_device. cbv beta iota zeta delta [alloc].
  destruct (negb (env_malloc env 0)); [apply Hnone; reflexivity|].
  destruct (negb (env_STRING_construct env)); [apply Hnone; reflexivity|].
  destruct (negb (env_device_create env)); [apply Hnone; reflexivity|].
  destruct (replicate_device_options_to _ _ _ _) as [[|] tr_options];
    [|apply Hnone; reflexivity].
  destruct (negb (env_singlylinkedlist_add env)); [apply Hnone; reflexivity|].
  simpl.
  match goal with
  | |- context [save_preferred_authentication_mode ?t ?f ?m] =>
      destruct (save_preferred_authentication_mode_frame t f m) as [Hr Hf];
      rewrite Hr, Hf
  end.
  split; [reflexivity|right].
  do 2 eexists. repeat split; reflexivity.
Qed.



Lemma created_transport_is_empty :
  forall env z config io w,
    IoTHubTransport_AMQP_Common_Create env z config io = Some w ->
    registered_devices (w_transport w) = [].
Proof.
  intros env z config io w H. unfold IoTHubTransport_AMQP_Common_Create in H.
  repeat (break_match_in H; try discriminate H).
  injection H as <-. reflexivity.
Qed.


Lemma run_reachable :
  forall ops w w' tr,
    reachable w -> run ops w = Some (w', tr) -> reachable w'.
Proof.
  induction ops as [|op ops IH]; intros w w' tr Hw Hrun; simpl in Hrun.
  - injection Hrun as <- _. exact Hw.
  - destruct (step op w) as [[w1 tr1]|] eqn:Hstep; [|discriminate].
    destruct (run ops w1) as [[w2 tr2]|] eqn:Hrest; [|discriminate].
    injection Hrun as <- _.
    apply (IH w1 w2 tr2); [|exact Hrest].
    eapply reachable_step; eassumption.
Qed.

(** A tick destroys no device session. *)






Lemma on_event_send_complete_keeps :
  forall message result d,
    keeps_devices (snd (on_event_send_complete message result d)) = true.
Proof.
  intros message result d. unfold on_event_send_complete. simpl.
  destruct (callback message); reflexivity.
Qed.













(** ** Registry size *)

Lemma update_device_length :
  forall l h f, List.length (update_device l h f) = List.length l.
Proof.
  induction l as [|[h' d] l IH]; intros h f; simpl; [reflexivity|].
  destruct (addr_eq_dec h' h); simpl; rewrite IH; reflexivity.
Qed.

Lemma singlylinkedlist_remove_length :
  forall l ctx item,
    singlylinkedlist_find l ctx = Some item ->
    S (List.length (singlylinkedlist_remove l ctx)) = List.length l.
Proof.
  induction l as [|x l IH]; intros ctx item H; simpl in *; [discriminate|].
  destruct (find_device_by_id_callback x ctx); [reflexivity|].
  simpl. rewrite (IH ctx item H). reflexivity.
Qed.

Lemma Unregister_size :
  forall w h,
    registry_size (fst (IoTHubTransport_AMQP_Common_Unregister w h)) =
    registry_size w + registry_change (op_unregister h) w.
Proof.
  intros w h. unfold registry_change, registry_size,
    IoTHubTransport_AMQP_Common_Unregister.
  destruct h as [h|]; simpl; [|lia].
  destruct (device_of _ h) as [d|]; simpl; [|lia].
  unfold is_device_registered_ex.
  destruct (singlylinkedlist_find _ _) as [item|] eqn:Hfind; simpl; [|lia].
  rewrite <- (singlylinkedlist_remove_length _ _ _ Hfind). lia.
Qed.

Lemma step_size :
  forall op w w' tr,
    step op w = Some (w', tr) ->
    registry_size w' = registry_size w + registry_change op w.
Proof.
  intros op w w' tr Hstep.
  destruct op as [env device client q | h | env name value | env |
                  | h m | env md disposition | env message info ctx
                  | now ctx prev new | ctx m result | prev new];
    cbn [step] in Hstep.
  - pose proof (Register_registry env w device client q) as H.
    unfold registry_change.
    destruct (IoTHubTransport_AMQP_Common_Register env w device client q)
      as [[r w1] tr1].
    injection Hstep as <- _. cbv zeta in H. simpl in H.
    destruct H as [_ [[-> Hreg]|(h & d & -> & Hreg & _)]];
      unfold registry_size; simpl; rewrite Hreg; [lia|].
    rewrite length_app. simpl. lia.
  - pose proof (Unregister_size w h) as H.
    destruct (IoTHubTransport_AMQP_Common_Unregister w h) as [w1 tr1].
    injection Hstep as <- _. exact H.
  - pose proof (SetOption_frame env w name value) as H.
    destruct (IoTHubTransport_AMQP_Common_SetOption env w name value)
      as [[r w1] tr1].
    injection Hstep as <- _. cbv zeta in H. destruct H as (Hreg & _).
    unfold registry_size, registry_change. rewrite Hreg. lia.
  - pose proof (DoWork_handles env w) as H.
    destruct (IoTHubTransport_AMQP_Common_DoWork env w) as [w1 tr1].
    injection Hstep as <- _. simpl in H.
    unfold registry_size, registry_change, registered_handles in *.
    apply (f_equal (@List.length _)) in H. rewrite !length_map in H.
    rewrite Z.add_0_r. f_equal. exact H.
  - discriminate.
  - injection Hstep as <- _. unfold registry_size, registry_change. simpl.
    rewrite update_device_length. lia.
  - destruct (IoTHubTransport_AMQP_Common_SendMessageDisposition env w
                md disposition) as [[[r w1] tr1]|] eqn:Hsend;
      [|discriminate].
    injection Hstep as <- _. unfold registry_size, registry_change.
    rewrite (SendMessageDisposition_frame _ _ _ _ _ _ _ Hsend). lia.
  - destruct (on_message_received env w message info ctx)
      as [[[[r md] w1] tr1]|] eqn:Hrx; [|discriminate].
    injection Hstep as <- _. unfold registry_size, registry_change.
    rewrite (on_message_received_frame _ _ _ _ _ _ _ _ _ Hrx). lia.
  - injection Hstep as <- _. unfold registry_size, registry_change. simpl.
    unfold on_device_state_changed_callback.
    destruct ctx as [h|]; [|lia].
    destruct (DEVICE_STATE_eq_dec new prev); [lia|].
    rewrite update_device_length. lia.
  - destruct (device_of _ _) as [d|]; [|discriminate].
    destruct (on_event_send_complete m result d) as [d' tr1].
    injection Hstep as <- _. unfold registry_size, registry_change. simpl.
    rewrite update_device_length. lia.
  - unfold on_amqp_connection_state_changed in Hstep.
    destruct (AMQP_CONNECTION_STATE_eq_dec new prev);
      [injection Hstep as <- _; unfold registry_size, registry_change;
       simpl; lia|].
    destruct (AMQP_CONNECTION_STATE_eq_dec new AMQP_CONNECTION_STATE_ERROR);
      injection Hstep as <- _; unfold registry_size, registry_change;
      simpl; lia.
Qed.

(** Over every run, the registry size is the initial size plus the
    registrations that returned a handle minus the unregistrations that
    removed a device. *)
Lemma registry_size_accounting :
  forall ops w w' tr,
    run ops w = Some (w', tr) ->
    registry_size w' = registry_size w + net_registrations ops w.
Proof.
  induction ops as [|op ops IH]; intros w w' tr Hrun; simpl in Hrun.
  - injection Hrun as <- _. simpl. lia.
  - simpl. destruct (step op w) as [[w1 tr1]|] eqn:Hstep; [|discriminate].
    destruct (run ops w1) as [[w2 tr2]|] eqn:Hrest; [|discriminate].
    injection Hrun as <- _.
    rewrite (IH w1 w2 tr2 Hrest), (step_size op w w1 tr1 Hstep). lia.
Qed.

(** * Further properties of the transport *)

(** ** Event draining (lines 727-836, 941-954) *)

Lemma send_pending_events_loop_all :
  forall env q d,
    (forall m, In m q ->
       env_device_send_event_async env (device_handle d) m = true) ->
    send_pending_events_loop env d q =
    (RESULT_OK,
     match q with [] => d | _ :: _ => set_waiting_to_send d [] end,
     submissions (device_handle d) true q).
Proof.
  intros env q. induction q as [|m rest IH]; intros d Hok; simpl.
  - reflexivity.
  - rewrite (Hok m (or_introl eq_refl)).
    rewrite (IH (set_waiting_to_send d rest));
      [|intros m' Hin; apply (Hok m'); right; exact Hin].
    destruct rest; reflexivity.
Qed.

Lemma send_pending_events_loop_stops :
  forall env pre m post d,
    (forall m', In m' pre ->
       env_device_send_event_async env (device_handle d) m' = true) ->
    env_device_send_event_async env (device_handle d) m = false ->
    send_pending_events_loop env d (pre ++ m :: post) =
    (FAILURE,
     set_number_of_send_event_complete_failures (set_waiting_to_send d post)
       (size_t_incr (number_of_send_event_complete_failures d)),
     submissions (device_handle d) true pre
     ++ call_device_send_event_async (device_handle d) m false
        :: snd (on_event_send_complete m
                  D2C_EVENT_SEND_COMPLETE_RESULT_ERROR_FAIL_SENDING d)).
Proof.
  intros env pre. induction pre as [|m0 pre IH]; intros m post d Hok Hfail.
  - simpl. rewrite Hfail. reflexivity.
  - simpl. rewrite (Hok m0 (or_introl eq_refl)).
    rewrite (IH m post (set_waiting_to_send d (pre ++ m :: post)));
      [reflexivity| |exact Hfail].
    intros m' Hin. apply (Hok m'). right. exact Hin.
Qed.

(** X1.  A started device whose session accepts every waiting event: the
    tick submits the events in list order and nothing else before running
    the session, leaves the waiting list empty, resets the count of previous
    failures to 0 and succeeds. *)
Theorem started_device_drains_in_order :
  forall env t d,
    device_state d = DEVICE_STATE_STARTED ->
    (forall m, In m (waiting_to_send d) ->
       env_device_send_event_async env (device_handle d) m = true) ->
    let res := IoTHubTransport_AMQP_Common_Device_DoWork env t d in
    fst (fst res) = RESULT_OK /\
    snd res = submissions (device_handle d) true (waiting_to_send d)
              ++ [call_device_do_work (device_handle d)] /\
    waiting_to_send (snd (fst res)) = [] /\
    number_of_previous_failures (snd (fst res)) = 0 /\
    number_of_send_event_complete_failures (snd (fst res))
      = number_of_send_event_complete_failures d.
Proof.
  intros env t d Hstate Hok. cbv zeta.
  unfold IoTHubTransport_AMQP_Common_Device_DoWork. rewrite Hstate.
  unfold drain_started_device, send_pending_events.
  rewrite (send_pending_events_loop_all env (waiting_to_send d) d Hok).
  cbn [fst snd]. repeat split.
  - destruct (waiting_to_send d) eqn:Hq; [exact Hq|reflexivity].
  - destruct (waiting_to_send d); reflexivity.
Qed.

Lemma started_device_drains_in_order_witness :
  let res :=
    IoTHubTransport_AMQP_Common_Device_DoWork env_ok
      (w_transport world_connected) device_with_events in
  fst (fst res) = RESULT_OK /\
  snd res = submissions (heap_ptr 5) true [event_1; event_2; event_3]
            ++ [call_device_do_work (heap_ptr 5)] /\
  waiting_to_send (snd (fst res)) = [] /\
  number_of_previous_failures (snd (fst res)) = 0 /\
  number_of_send_event_complete_failures (snd (fst res)) = 1.
Proof.
  apply (started_device_drains_in_order env_ok (w_transport world_connected)
           device_with_events).
  - reflexivity.
  - intros m _. reflexivity.
Defined.

(** X2.  A started device whose session refuses the event [m], after
    accepting the events before it: the tick submits the events up to [m] in
    list order, completes [m] on the spot with the confirmation Error (its
    callback fires once, its payload is destroyed), and stops draining: the
    events after [m] stay on the waiting list in their order.  Both failure
    counters are incremented and the tick fails. *)
Theorem started_device_stops_at_refused_event :
  forall env t d pre m post,
    device_state d = DEVICE_STATE_STARTED ->
    waiting_to_send d = pre ++ m :: post ->
    (forall m', In m' pre ->
       env_device_send_event_async env (device_handle d) m' = true) ->
    env_device_send_event_async env (device_handle d) m = false ->
    let res := IoTHubTransport_AMQP_Common_Device_DoWork env t d in
    fst (fst res) = FAILURE /\
    snd res =
      submissions (device_handle d) true pre
      ++ [call_device_send_event_async (device_handle d) m false]
      ++ match callback m with
         | Some cb =>
             [call_message_callback cb IOTHUB_CLIENT_CONFIRMATION_ERROR
                (context m)]
         | None => []
         end
      ++ [call_IoTHubMessage_Destroy (messageHandle m); call_free_message m;
          call_device_do_work (device_handle d)] /\
    waiting_to_send (snd (fst res)) = post /\
    number_of_previous_failures (snd (fst res))
      = size_t_incr (number_of_previous_failures d) /\
    number_of_send_event_complete_failures (snd (fst res))
      = size_t_incr (number_of_send_event_complete_failures d).
Proof.
  intros env t d pre m post Hstate Hq Hok Hfail. cbv zeta.
  unfold IoTHubTransport_AMQP_Common_Device_DoWork. rewrite Hstate.
  unfold drain_started_device, send_pending_events. rewrite Hq.
  rewrite (send_pending_events_loop_stops env pre m post d Hok Hfail).
  cbn [fst snd]. repeat split.
  unfold on_event_send_complete. cbn [snd].
  rewrite <- !app_assoc. cbn [app].
  destruct (callback m); reflexivity.
Qed.

Lemma started_device_stops_at_refused_event_witness :
  let res :=
    IoTHubTransport_AMQP_Common_Device_DoWork env_refuses_event_2
      (w_transport world_connected) device_with_events in
  fst (fst res) = FAILURE /\
  snd res =
    submissions (heap_ptr 5) true [event_1]
    ++ [call_device_send_event_async (heap_ptr 5) event_2 false]
    ++ [call_message_callback (user_ptr 81) IOTHUB_CLIENT_CONFIRMATION_ERROR
          (user_ptr 91)]
    ++ [call_IoTHubMessage_Destroy (user_ptr 71); call_free_message event_2;
        call_device_do_work (heap_ptr 5)] /\
  waiting_to_send (snd (fst res)) = [event_3] /\
  number_of_previous_failures (snd (fst res)) = size_t_incr 2 /\
  number_of_send_event_complete_failures (snd (fst res)) = size_t_incr 1.
Proof.
  apply (started_device_stops_at_refused_event env_refuses_event_2
           (w_transport world_connected) device_with_events
           [event_1] event_2 [event_3]).
  - reflexivity.
  - reflexivity.
  - intros m' [<-|[]]. reflexivity.
  - reflexivity.
Defined.

(** ** The per-device tick outside the started state (lines 844-960) *)

(** X3.  A device in STARTING or STOPPING whose timestamps can be read and
    whose state change is younger than [max_state_change_timeout_secs] is
    left exactly as it is: the tick reads the clock, runs the session, and
    succeeds. *)
Theorem state_change_within_timeout_is_kept :
  forall env t d,
    device_state d = DEVICE_STATE_STARTING \/
    device_state d = DEVICE_STATE_STOPPING ->
    time_of_last_state_change d <> INDEFINITE_TIME ->
    env_get_time env (device_handle d) <> INDEFINITE_TIME ->
    get_difftime (env_get_time env (device_handle d))
      (time_of_last_state_change d) < max_state_change_timeout_secs d ->
    IoTHubTransport_AMQP_Common_Device_DoWork env t d =
    (RESULT_OK, d,
     [call_get_time (env_get_time env (device_handle d));
      call_device_do_work (device_handle d)]).
Proof.
  intros env t d Hstate Hstart Hnow Hlt.
  unfold IoTHubTransport_AMQP_Common_Device_DoWork.
  assert (Hc : check_state_change_timeout env d =
               (RESULT_OK, d,
                [call_get_time (env_get_time env (device_handle d))])).
  { unfold check_state_change_timeout, is_timeout_reached.
    apply Z.eqb_neq in Hstart, Hnow. rewrite Hstart, Hnow.
    assert (Hge : (get_difftime (env_get_time env (device_handle d))
                     (time_of_last_state_change d)
                   >=? max_state_change_timeout_secs d) = false).
    { rewrite Z.geb_leb. apply Z.leb_gt. exact Hlt. }
    rewrite Hge. reflexivity. }
  destruct Hstate as [Hs|Hs]; rewrite Hs, Hc; reflexivity.
Qed.

Lemma state_change_within_timeout_is_kept_witness :
  IoTHubTransport_AMQP_Common_Device_DoWork env_clock_61
    (w_transport fresh_world) (device_D_stopping_at 2) =
  (RESULT_OK, device_D_stopping_at 2,
   [call_get_time 61; call_device_do_work (heap_ptr 5)]).
Proof.
  apply (state_change_within_timeout_is_kept env_clock_61
           (w_transport fresh_world) (device_D_stopping_at 2)).
  - right; reflexivity.
  - vm_compute. discriminate.
  - vm_compute. discriminate.
  - vm_compute. reflexivity.
Defined.

(** X4.  A device in one of the error states, with a count of previous
    failures in [0, 4]: the tick increments the count.  Below 4 the device
    is stopped through exactly one [device_stop] call, and the tick reports
    the outcome of that call; at 4 the count reaches the maximum, the device
    is not stopped, and the tick fails.  The device state is not written. *)
Theorem failed_device_is_stopped_until_budget :
  forall env t d,
    is_error_state (device_state d) = true ->
    0 <= number_of_previous_failures d <= 4 ->
    let h := device_handle d in
    IoTHubTransport_AMQP_Common_Device_DoWork env t d =
    (if number_of_previous_failures d <? 4
     then if env_device_stop env h then RESULT_OK else FAILURE
     else FAILURE,
     set_number_of_previous_failures d (number_of_previous_failures d + 1),
     (if number_of_previous_failures d <? 4
      then [call_device_stop h (env_device_stop env h)]
      else [])
     ++ [call_device_do_work h]).
Proof.
  intros env t d Hstate Hrange. cbv zeta.
  unfold IoTHubTransport_AMQP_Common_Device_DoWork.
  assert (Hh : handle_device_failure env d =
               (if number_of_previous_failures d <? 4
                then if env_device_stop env (device_handle d)
                     then RESULT_OK else FAILURE
                else FAILURE,
                set_number_of_previous_failures d
                  (number_of_previous_failures d + 1),
                if number_of_previous_failures d <? 4
                then [call_device_stop (device_handle d)
                        (env_device_stop env (device_handle d))]
                else [])).
  { unfold handle_device_failure, MAX_NUMBER_OF_DEVICE_FAILURES.
    cbn [number_of_previous_failures set_number_of_previous_failures
         device_handle].
    rewrite (size_t_incr_small _ Hrange).
    destruct (number_of_previous_failures d <? 4) eqn:Hlt.
    - apply Z.ltb_lt in Hlt.
      assert (Hge : (number_of_previous_failures d + 1 >=? 5) = false)
        by (rewrite Z.geb_leb; apply Z.leb_gt; lia).
      rewrite Hge. destruct (env_device_stop env (device_handle d));
        reflexivity.
    - apply Z.ltb_ge in Hlt.
      assert (Hge : (number_of_previous_failures d + 1 >=? 5) = true)
        by (rewrite Z.geb_leb; apply Z.leb_le; lia).
      rewrite Hge. reflexivity. }
  destruct (device_state d); try discriminate Hstate; rewrite Hh;
    reflexivity.
Qed.

Lemma failed_device_is_stopped_until_budget_witness :
  IoTHubTransport_AMQP_Common_Device_DoWork env_ok (w_transport fresh_world)
    (device_in_error 4) =
  (FAILURE, device_in_error 5, [call_device_do_work (heap_ptr 5)]) /\
  IoTHubTransport_AMQP_Common_Device_DoWork env_ok (w_transport fresh_world)
    (device_in_error 1) =
  (RESULT_OK, device_in_error 2,
   [call_device_stop (heap_ptr 5) true; call_device_do_work (heap_ptr 5)]).
Proof.
  split.
  - apply (failed_device_is_stopped_until_budget env_ok
             (w_transport fresh_world) (device_in_error 4));
      [reflexivity|vm_compute; split; discriminate].
  - apply (failed_device_is_stopped_until_budget env_ok
             (w_transport fresh_world) (device_in_error 1));
      [reflexivity|vm_compute; split; discriminate].
Defined.

Lemma send_pending_events_loop_identity :
  forall env q d,
    let d' := snd (fst (send_pending_events_loop env d q)) in
    device_id d' = device_id d /\
    device_handle d' = device_handle d /\
    iothub_client_handle d' = iothub_client_handle d /\
    device_state d' = device_state d /\
    time_of_last_state_change d' = time_of_last_state_change d /\
    max_state_change_timeout_secs d' = max_state_change_timeout_secs d.
Proof.
  intros env q. induction q as [|m rest IH]; intros d; simpl.
  - repeat split.
  - destruct (env_device_send_event_async env _ m).
    + specialize (IH (set_waiting_to_send d rest)).
      destruct (send_pending_events_loop env (set_waiting_to_send d rest) rest)
        as [[r d2] tr]. exact IH.
    + repeat split.
Qed.

(** X5.  Whatever the state of the device and the answers of its
    collaborators, the per-device tick keeps the identity of the device (its
    id, session handle, client handle), its timeout and its timestamp, and
    writes the device state in one case only: a device in STARTING or
    STOPPING may be forced to ERROR_AUTH.  In particular the tick itself
    never marks a device as started. *)
Theorem device_tick_writes_state_only_on_timeout :
  forall env t d,
    let d' := snd (fst (IoTHubTransport_AMQP_Common_Device_DoWork env t d)) in
    device_id d' = device_id d /\
    device_handle d' = device_handle d /\
    iothub_client_handle d' = iothub_client_handle d /\
    time_of_last_state_change d' = time_of_last_state_change d /\
    max_state_change_timeout_secs d' = max_state_change_timeout_secs d /\
    (device_state d' = device_state d \/
     (device_state d' = DEVICE_STATE_ERROR_AUTH /\
      (device_state d = DEVICE_STATE_STARTING \/
       device_state d = DEVICE_STATE_STOPPING))).
Proof.
  intros env t d. cbv zeta.
  unfold IoTHubTransport_AMQP_Common_Device_DoWork.
  assert (Herr : let d' := snd (fst (handle_device_failure env d)) in
                 d' = set_number_of_previous_failures d
                        (size_t_incr (number_of_previous_failures d))).
  { unfold handle_device_failure. cbv zeta.
    destruct (_ >=? _); [reflexivity|].
    destruct (negb _); reflexivity. }
  assert (Htime : let d' := snd (fst (check_state_change_timeout env d)) in
                  d' = d \/ d' = set_device_state d DEVICE_STATE_ERROR_AUTH).
  { unfold check_state_change_timeout. cbv zeta.
    destruct (is_timeout_reached _ _ _) as [[[|]|] tr];
      [right|left|right]; reflexivity. }
  cbv zeta in Herr, Htime.
  destruct (device_state d) eqn:Hs.
  - destruct (start_stopped_device env t d) as [r tr]. cbn [fst snd].
    rewrite Hs. repeat split. left. reflexivity.
  - destruct (check_state_change_timeout env d) as [[r d'] tr].
    cbn [fst snd] in *. destruct Htime as [->| ->];
      cbn; rewrite ?Hs; repeat split; [left|right]; auto.
  - destruct (check_state_change_timeout env d) as [[r d'] tr].
    cbn [fst snd] in *. destruct Htime as [->| ->];
      cbn; rewrite ?Hs; repeat split; [left|right]; auto.
  - unfold drain_started_device, send_pending_events.
    pose proof (send_pending_events_loop_identity env (waiting_to_send d) d)
      as Hi.
    destruct (send_pending_events_loop env d (waiting_to_send d))
      as [[r d1] tr]. cbv zeta in Hi. cbn [fst snd] in Hi.
    destruct Hi as (H1 & H2 & H3 & H4 & H5 & H6).
    destruct r; cbn; rewrite ?Hs in *; repeat split; auto.
  - destruct (handle_device_failure env d) as [[r d'] tr].
    cbn [fst snd] in *. subst d'. cbn. rewrite ?Hs. repeat split. auto.
  - destruct (handle_device_failure env d) as [[r d'] tr].
    cbn [fst snd] in *. subst d'. cbn. rewrite ?Hs. repeat split. auto.
  - destruct (handle_device_failure env d) as [[r d'] tr].
    cbn [fst snd] in *. subst d'. cbn. rewrite ?Hs. repeat split. auto.
Qed.

(** ** Which devices a tick works on (lines 1236-1283) *)

Lemma device_do_work_calls_app :
  forall tr tr',
    device_do_work_calls (tr ++ tr') =
    device_do_work_calls tr ++ device_do_work_calls tr'.
Proof.
  induction tr as [|c tr IH]; intros tr'; simpl; [reflexivity|].
  destruct c; simpl; rewrite ?IH; reflexivity.
Qed.

Lemma send_pending_events_loop_no_do_work :
  forall env q d,
    device_do_work_calls (snd (send_pending_events_loop env d q)) = [].
Proof.
  intros env q. induction q as [|m rest IH]; intros d; simpl.
  - reflexivity.
  - destruct (env_device_send_event_async env _ m).
    + specialize (IH (set_waiting_to_send d rest)).
      destruct (send_pending_events_loop env (set_waiting_to_send d rest) rest)
        as [[r d2] tr]. exact IH.
    + simpl. destruct (callback m); reflexivity.
Qed.

Lemma Device_DoWork_runs_session_once :
  forall env t d,
    device_do_work_calls
      (snd (IoTHubTransport_AMQP_Common_Device_DoWork env t d))
    = [device_handle d].
Proof.
  intros env t d. unfold IoTHubTransport_AMQP_Common_Device_DoWork.
  assert (Herr : device_do_work_calls (snd (handle_device_failure env d))
                 = []).
  { unfold handle_device_failure.
    destruct (_ >=? _); [reflexivity|]. destruct (negb _); reflexivity. }
  assert (Htime : device_do_work_calls
                    (snd (check_state_change_timeout env d)) = []).
  { unfold check_state_change_timeout, is_timeout_reached.
    destruct (_ =? _); [reflexivity|]. destruct (_ =? _); [reflexivity|].
    destruct (_ >=? _); reflexivity. }
  assert (Hstart : device_do_work_calls (snd (start_stopped_device env t d))
                   = []).
  { unfold start_stopped_device.
    destruct (negb (env_amqp_connection_get_session_handle env));
      [reflexivity|].
    destruct (is_CBS (preferred_authentication_mode t)); simpl;
      [destruct (negb (env_amqp_connection_get_cbs_handle env));
         [reflexivity|]|];
      destruct (negb (env_device_start_async env (device_handle d)));
      reflexivity. }
  assert (Hdrain : device_do_work_calls (snd (drain_started_device env d))
                   = []).
  { unfold drain_started_device, send_pending_events.
    pose proof (send_pending_events_loop_no_do_work env (waiting_to_send d) d)
      as H.
    destruct (send_pending_events_loop env d (waiting_to_send d))
      as [[r d1] tr]. destruct r; exact H. }
  destruct (device_state d).
  - destruct (start_stopped_device env t d) as [r tr]. cbn [fst snd] in *.
    rewrite device_do_work_calls_app, Hstart. reflexivity.
  - destruct (check_state_change_timeout env d) as [[r d'] tr].
    cbn [fst snd] in *. rewrite device_do_work_calls_app, Htime. reflexivity.
  - destruct (check_state_change_timeout env d) as [[r d'] tr].
    cbn [fst snd] in *. rewrite device_do_work_calls_app, Htime. reflexivity.
  - destruct (drain_started_device env d) as [[r d'] tr].
    cbn [fst snd] in *. rewrite device_do_work_calls_app, Hdrain. reflexivity.
  - destruct (handle_device_failure env d) as [[r d'] tr].
    cbn [fst snd] in *. rewrite device_do_work_calls_app, Herr. reflexivity.
  - destruct (handle_device_failure env d) as [[r d'] tr].
    cbn [fst snd] in *. rewrite device_do_work_calls_app, Herr. reflexivity.
  - destruct (handle_device_failure env d) as [[r d'] tr].
    cbn [fst snd] in *. rewrite device_do_work_calls_app, Herr. reflexivity.
Qed.

Lemma DoWork_devices_sessions :
  forall env t l,
    device_do_work_calls (snd (DoWork_devices env t l)) = within_send_budget l.
Proof.
  intros env t l. induction l as [|[h d] l IH]; simpl; [reflexivity|].
  destruct (DoWork_devices env t l) as [[rest flag'] tr']. cbn [snd] in IH.
  destruct (number_of_send_event_complete_failures d
            >=? MAX_NUMBER_OF_DEVICE_FAILURES); [exact IH|].
  pose proof (Device_DoWork_runs_session_once env t d) as Hd.
  destruct (IoTHubTransport_AMQP_Common_Device_DoWork env t d)
    as [[r d1] tr1].
  cbn [snd] in Hd.
  destruct r; cbn [snd]; rewrite device_do_work_calls_app, Hd, IH;
    reflexivity.
Qed.

(** X6.  A tick that visits the devices (no retry pending, the connection
    exists and is open) runs the session of every registered device whose
    send-complete failures are below the maximum exactly once, in list
    order, and does not run the session of a device that reached it. *)
Theorem tick_runs_each_session_once :
  forall env w,
    tick_visits_devices (w_transport w) ->
    device_do_work_calls (snd (IoTHubTransport_AMQP_Common_DoWork env w))
    = within_send_budget (registered_devices (w_transport w)).
Proof.
  intros env w (Hretry & Hconn & Hopen).
  unfold IoTHubTransport_AMQP_Common_DoWork. rewrite Hretry.
  unfold DoWork_connected.
  destruct (registered_devices (w_transport w)) eqn:Hregs.
  - destruct (amqp_connection (w_transport w)); reflexivity.
  - rewrite <- Hregs.
    destruct (amqp_connection (w_transport w)) as [c|] eqn:Hc;
      [|contradiction].
    destruct (AMQP_CONNECTION_STATE_eq_dec _ _); [|contradiction].
    pose proof (DoWork_devices_sessions env (w_transport w)
                  (registered_devices (w_transport w))) as H.
    destruct (DoWork_devices env (w_transport w) _) as [[devices flag] tr].
    cbn [snd] in H.
    assert (Hsame : amqp_connection
                      (w_transport
                         (set_transport w
                            (if flag
                             then set_is_connection_retry_required
                                    (set_registered_devices (w_transport w)
                                       devices) true
                             else set_registered_devices (w_transport w)
                                    devices))) = Some c).
    { destruct flag; exact Hc. }
    rewrite Hsame. cbn [snd].
    rewrite !device_do_work_calls_app, H. cbn. apply app_nil_r.
Qed.

Lemma tick_runs_each_session_once_witness :
  device_do_work_calls
    (snd (IoTHubTransport_AMQP_Common_DoWork env_ok world_connected))
  = [heap_ptr 8; heap_ptr 11].
Proof.
  apply (tick_runs_each_session_once env_ok world_connected).
  repeat split; vm_compute; discriminate.
Defined.

Lemma establish_amqp_connection_no_device_work :
  forall env w,
    no_per_device_work (snd (establish_amqp_connection env w)) = true.
Proof.
  intros env w.
  assert (Hc : forall w0 io,
            no_per_device_work (snd (create_amqp_connection env w0 io))
            = true).
  { intros w0 io. unfold create_amqp_connection.
    destruct (env_amqp_connection_create env); reflexivity. }
  unfold establish_amqp_connection.
  destruct (AUTHENTICATION_MODE_eq_dec _ _); [reflexivity|].
  destruct (tls_io (w_transport w)) as [io|]; [apply Hc|].
  assert (Hn : no_per_device_work
                 (snd (get_new_underlying_io_transport env w)) = true).
  { unfold get_new_underlying_io_transport,
      restore_underlying_io_transport_options.
    destruct (env_underlying_io_transport_provider env); [|reflexivity].
    simpl. destruct (saved_tls_options (w_transport w)); [|reflexivity].
    destruct (env_OptionHandler_FeedOptions env); reflexivity. }
  destruct (get_new_underlying_io_transport env w) as [[[r io] w1] tr].
  cbn [snd] in Hn. destruct r; [|exact Hn]. destruct io as [io|]; [|exact Hn].
  match goal with
  | |- context [create_amqp_connection env ?w2 io] =>
      specialize (Hc w2 io);
      destruct (create_amqp_connection env w2 io) as [[r2 w3] tr2]
  end.
  cbn [snd] in *. rewrite no_per_device_work_app, Hn, Hc. reflexivity.
Qed.

Lemma prepare_for_connection_retry_no_device_work :
  forall env w,
    no_per_device_work (snd (prepare_for_connection_retry env w)) = true.
Proof.
  intros env w. unfold prepare_for_connection_retry.
  pose proof (save_underlying_io_transport_options_frame env w) as Hs.
  destruct (save_underlying_io_transport_options env w) as [[r w1] tr_save].
  cbv zeta in Hs. destruct Hs as (_ & _ & _ & _ & _ & _ & _ & Hs & _).
  pose proof (prepare_devices_for_connection_retry_calls env
                (registered_devices (w_transport w1))) as Hd.
  destruct (prepare_devices_for_connection_retry env _) as [devices tr].
  cbv zeta in Hd. cbn [snd] in Hd. destruct Hd as (_ & Hd & _).
  unfold destroy_underlying_io_transport. cbn.
  destruct (tls_io (w_transport w1)); cbn;
    rewrite !no_per_device_work_app, Hs, Hd; reflexivity.
Qed.

(** X7.  Per-device work (starting a device, reading the clock for its
    timeout, submitting its events, invoking a confirmation callback,
    running its session) happens only in a tick that is entered with no
    retry pending and with a connection that exists and is open.  A tick
    that has to establish the connection first does no per-device work. *)
Theorem device_work_needs_open_connection :
  forall env w,
    no_per_device_work (snd (IoTHubTransport_AMQP_Common_DoWork env w))
      = false ->
    tick_visits_devices (w_transport w).
Proof.
  intros env w Hwork. unfold IoTHubTransport_AMQP_Common_DoWork in Hwork.
  destruct (is_connection_retry_required (w_transport w)) eqn:Hretry.
  - exfalso.
    pose proof (prepare_for_connection_retry_no_device_work env w) as H.
    destruct (prepare_for_connection_retry env w) as [w1 tr].
    cbn [fst snd] in *.
    destruct (amqp_connection _); cbn [snd] in Hwork;
      rewrite ?no_per_device_work_app, H in Hwork; discriminate Hwork.
  - unfold DoWork_connected in Hwork.
    destruct (registered_devices (w_transport w)) eqn:Hregs.
    + exfalso. destruct (amqp_connection (w_transport w));
        discriminate Hwork.
    + destruct (amqp_connection (w_transport w)) as [c|] eqn:Hc.
      * destruct (AMQP_CONNECTION_STATE_eq_dec _ _) as [Hopen|Hopen].
        -- split; [exact Hretry|]. split; [congruence|exact Hopen].
        -- exfalso. cbn [fst snd] in Hwork. rewrite Hc in Hwork.
           discriminate Hwork.
      * exfalso.
        pose proof (establish_amqp_connection_frame env w) as Hf.
        pose proof (establish_amqp_connection_no_device_work env w) as He.
        destruct (establish_amqp_connection env w) as [[r w1] tr_conn].
        cbv zeta in Hf. destruct Hf as (_ & _ & _ & Hclosed).
        cbn [snd] in He.
        assert (Hdone : forall tr' : list call,
                  no_per_device_work tr' = true ->
                  no_per_device_work
                    (snd (match amqp_connection (w_transport w1) with
                          | Some c => (w1, tr' ++ [call_amqp_connection_do_work c])
                          | None => (w1, tr')
                          end)) = true).
        { intros tr' Htr. destruct (amqp_connection (w_transport w1));
            cbn [snd]; rewrite ?no_per_device_work_app, Htr; reflexivity. }
        destruct r.
        -- destruct (AMQP_CONNECTION_STATE_eq_dec _ _) as [Hopen|_].
           ++ rewrite (Hclosed eq_refl) in Hopen. discriminate Hopen.
           ++ cbn [fst snd] in Hwork. rewrite (Hdone _ He) in Hwork.
              discriminate Hwork.
        -- cbn [fst snd] in Hwork. rewrite (Hdone _ He) in Hwork.
           discriminate Hwork.
Qed.

Lemma device_work_needs_open_connection_witness :
  tick_visits_devices (w_transport world_connected).
Proof.
  apply (device_work_needs_open_connection env_ok world_connected).
  vm_compute. reflexivity.
Defined.

(** ** Establishing the connection (lines 488-630) *)

Lemma forallb_impl :
  forall (A : Type) (P Q : A -> bool) (l : list A),
    (forall x, P x = true -> Q x = true) ->
    forallb P l = true -> forallb Q l = true.
Proof.
  intros A P Q l H. induction l as [|x l IH]; simpl; [reflexivity|].
  intros Hl. apply andb_true_iff in Hl. destruct Hl as [Hx Hl].
  rewrite (H x Hx), (IH Hl). reflexivity.
Qed.

Lemma forallb_In :
  forall (A : Type) (P : A -> bool) (l : list A) (x : A),
    forallb P l = true -> In x l -> P x = true.
Proof.
  intros A P l x H Hin. rewrite forallb_forall in H. apply H. exact Hin.
Qed.

Lemma send_pending_events_loop_device_calls :
  forall env q d,
    forallb is_device_call (snd (send_pending_events_loop env d q)) = true.
Proof.
  intros env q. induction q as [|m rest IH]; intros d; simpl.
  - reflexivity.
  - destruct (env_device_send_event_async env _ m).
    + specialize (IH (set_waiting_to_send d rest)).
      destruct (send_pending_events_loop env (set_waiting_to_send d rest) rest)
        as [[r d2] tr]. exact IH.
    + simpl. destruct (callback m); reflexivity.
Qed.

Lemma Device_DoWork_device_calls :
  forall env t d,
    forallb is_device_call
      (snd (IoTHubTransport_AMQP_Common_Device_DoWork env t d)) = true.
Proof.
  intros env t d. unfold IoTHubTransport_AMQP_Common_Device_DoWork.
  assert (Herr : forallb is_device_call (snd (handle_device_failure env d))
                 = true).
  { unfold handle_device_failure.
    destruct (_ >=? _); [reflexivity|]. destruct (negb _); reflexivity. }
  assert (Htime : forallb is_device_call
                    (snd (check_state_change_timeout env d)) = true).
  { unfold check_state_change_timeout, is_timeout_reached.
    destruct (_ =? _); [reflexivity|]. destruct (_ =? _); [reflexivity|].
    destruct (_ >=? _); reflexivity. }
  assert (Hstart : forallb is_device_call
                     (snd (start_stopped_device env t d)) = true).
  { unfold start_stopped_device.
    destruct (negb (env_amqp_connection_get_session_handle env));
      [reflexivity|].
    destruct (is_CBS (preferred_authentication_mode t)); simpl;
      [destruct (negb (env_amqp_connection_get_cbs_handle env));
         [reflexivity|]|];
      destruct (negb (env_device_start_async env (device_handle d)));
      reflexivity. }
  assert (Hdrain : forallb is_device_call (snd (drain_started_device env d))
                   = true).
  { unfold drain_started_device, send_pending_events.
    pose proof (send_pending_events_loop_device_calls env (waiting_to_send d)
                  d) as H.
    destruct (send_pending_events_loop env d (waiting_to_send d))
      as [[r d1] tr]. destruct r; exact H. }
  destruct (device_state d).
  - destruct (start_stopped_device env t d) as [r tr]. cbn [fst snd] in *.
    rewrite forallb_app, Hstart. reflexivity.
  - destruct (check_state_change_timeout env d) as [[r d'] tr].
    cbn [fst snd] in *. rewrite forallb_app, Htime. reflexivity.
  - destruct (check_state_change_timeout env d) as [[r d'] tr].
    cbn [fst snd] in *. rewrite forallb_app, Htime. reflexivity.
  - destruct (drain_started_device env d) as [[r d'] tr].
    cbn [fst snd] in *. rewrite forallb_app, Hdrain. reflexivity.
  - destruct (handle_device_failure env d) as [[r d'] tr].
    cbn [fst snd] in *. rewrite forallb_app, Herr. reflexivity.
  - destruct (handle_device_failure env d) as [[r d'] tr].
    cbn [fst snd] in *. rewrite forallb_app, Herr. reflexivity.
  - destruct (handle_device_failure env d) as [[r d'] tr].
    cbn [fst snd] in *. rewrite forallb_app, Herr. reflexivity.
Qed.

Lemma DoWork_devices_device_calls :
  forall env t l,
    forallb is_device_call (snd (DoWork_devices env t l)) = true.
Proof.
  intros env t l. induction l as [|[h d] l IH]; simpl; [reflexivity|].
  destruct (DoWork_devices env t l) as [[rest flag'] tr']. cbn [snd] in IH.
  destruct (number_of_send_event_complete_failures d
            >=? MAX_NUMBER_OF_DEVICE_FAILURES); [exact IH|].
  pose proof (Device_DoWork_device_calls env t d) as Hd.
  destruct (IoTHubTransport_AMQP_Common_Device_DoWork env t d)
    as [[r d1] tr1].
  cbn [snd] in Hd. destruct r; cbn [snd]; rewrite forallb_app, Hd, IH;
    reflexivity.
Qed.

Lemma prepare_for_connection_retry_no_create :
  forall env w,
    forallb (fun c => negb (is_connection_create c))
      (snd (prepare_for_connection_retry env w)) = true.
Proof.
  intros env w. unfold prepare_for_connection_retry.
  pose proof (save_underlying_io_transport_options_frame env w) as Hs.
  destruct (save_underlying_io_transport_options env w) as [[r w1] tr_save].
  cbv zeta in Hs. destruct Hs as (_ & _ & _ & _ & _ & _ & _ & _ & Hs).
  pose proof (prepare_devices_for_connection_retry_calls env
                (registered_devices (w_transport w1))) as Hd.
  destruct (prepare_devices_for_connection_retry env _) as [devices tr].
  cbv zeta in Hd. cbn [snd] in Hd. destruct Hd as (_ & _ & Hd).
  assert (Himp : forall c, is_retry_preparation c = true ->
                           negb (is_connection_create c) = true).
  { intros c. destruct c; simpl; congruence. }
  apply (forallb_impl _ _ _ _ Himp) in Hs, Hd.
  unfold destroy_underlying_io_transport. cbn.
  destruct (tls_io (w_transport w1)); cbn; rewrite !forallb_app, Hs, Hd;
    reflexivity.
Qed.

(** What [establish_amqp_connection] does once the mode is set. *)
Lemma establish_amqp_connection_calls :
  forall env w,
    preferred_authentication_mode (w_transport w) <>
      AMQP_TRANSPORT_AUTHENTICATION_MODE_NOT_SET ->
    let t := w_transport w in
    let cbs := is_CBS (preferred_authentication_mode t) in
    let create io :=
      call_amqp_connection_create io (is_trace_on t) cbs cbs
        (env_amqp_connection_create env) in
    let res := establish_amqp_connection env w in
    let t' := w_transport (snd (fst res)) in
    match tls_io t with
    | Some io =>
        snd res = [create io] /\ tls_io t' = Some io /\
        is_NULL (amqp_connection t') = negb (env_amqp_connection_create env)
    | None =>
        if env_underlying_io_transport_provider env then
          let io := heap_ptr (w_next w) in
          snd res =
            call_underlying_io_transport_provider
              (STRING_c_str (iothub_host_fqdn t)) true
            :: match saved_tls_options t with
               | Some o =>
                   [call_OptionHandler_FeedOptions o io
                      (env_OptionHandler_FeedOptions env)]
               | None => []
               end
            ++ [create io] /\
          tls_io t' = Some io /\
          is_NULL (amqp_connection t')
            = negb (env_amqp_connection_create env)
        else
          snd res =
            [call_underlying_io_transport_provider
               (STRING_c_str (iothub_host_fqdn t)) false] /\
          tls_io t' = None /\ amqp_connection t' = amqp_connection t
    end.
Proof.
  intros env w Hmode. cbv zeta. unfold establish_amqp_connection.
  destruct (AUTHENTICATION_MODE_eq_dec _ _); [contradiction|].
  destruct (tls_io (w_transport w)) as [io|] eqn:Hio.
  - unfold create_amqp_connection, is_CBS.
    destruct (env_amqp_connection_create env); cbn;
      (split; [reflexivity|split; [exact Hio|reflexivity]]).
  - unfold get_new_underlying_io_transport,
      restore_underlying_io_transport_options.
    destruct (env_underlying_io_transport_provider env);
      [|cbn; repeat split].
    cbv beta iota zeta delta [alloc]. cbn.
    unfold create_amqp_connection, is_CBS.
    destruct (saved_tls_options (w_transport w));
      [destruct (env_OptionHandler_FeedOptions env)|];
      destruct (env_amqp_connection_create env); cbn; repeat split.
Qed.

Lemma DoWork_connection_create :
  forall env w io trace_on sasl cbs ok,
    In (call_amqp_connection_create io trace_on sasl cbs ok)
      (snd (IoTHubTransport_AMQP_Common_DoWork env w)) ->
    let t := w_transport w in
    let t' := w_transport (fst (IoTHubTransport_AMQP_Common_DoWork env w)) in
    is_connection_retry_required t = false /\
    registered_devices t <> [] /\
    amqp_connection t = None /\
    preferred_authentication_mode t <>
      AMQP_TRANSPORT_AUTHENTICATION_MODE_NOT_SET /\
    sasl = is_CBS (preferred_authentication_mode t) /\
    cbs = is_CBS (preferred_authentication_mode t) /\
    trace_on = is_trace_on t /\
    tls_io t' = Some io /\
    is_NULL (amqp_connection t') = negb ok.
Proof.
  intros env w io trace_on sasl cbs ok Hin. cbv zeta.
  assert (Hnot : forall tr,
            forallb (fun c => negb (is_connection_create c)) tr = true ->
            ~ In (call_amqp_connection_create io trace_on sasl cbs ok) tr).
  { intros tr Htr Hc. apply (forallb_In _ _ _ _ Htr) in Hc.
    discriminate Hc. }
  assert (Hdev : forall c, is_device_call c = true ->
                           negb (is_connection_create c) = true).
  { intros c. destruct c; simpl; congruence. }
  unfold IoTHubTransport_AMQP_Common_DoWork in *.
  destruct (is_connection_retry_required (w_transport w)) eqn:Hretry.
  - exfalso.
    pose proof (prepare_for_connection_retry_no_create env w) as H.
    destruct (prepare_for_connection_retry env w) as [w1 tr].
    cbn [fst snd] in *.
    destruct (amqp_connection _); cbn [snd] in Hin.
    + apply in_app_or in Hin. destruct Hin as [Hin|[Hin|[]]];
        [exact (Hnot _ H Hin)|discriminate Hin].
    + exact (Hnot _ H Hin).
  - unfold DoWork_connected in *.
    destruct (registered_devices (w_transport w)) eqn:Hregs.
    + exfalso. destruct (amqp_connection (w_transport w));
        cbn [snd] in Hin; [destruct Hin as [Hin|[]]; discriminate Hin|].
      exact Hin.
    + rewrite <- Hregs in *.
      destruct (amqp_connection (w_transport w)) as [c|] eqn:Hc.
      * exfalso.
        destruct (AMQP_CONNECTION_STATE_eq_dec _ _).
        -- pose proof (DoWork_devices_device_calls env (w_transport w)
                         (registered_devices (w_transport w))) as H.
           destruct (DoWork_devices env (w_transport w) _)
             as [[devices flag] tr].
           cbn [snd] in H. apply (forallb_impl _ _ _ _ Hdev) in H.
           assert (Hsame : amqp_connection
                             (w_transport
                                (set_transport w
                                   (if flag
                                    then set_is_connection_retry_required
                                           (set_registered_devices
                                              (w_transport w) devices) true
                                    else set_registered_devices
                                           (w_transport w) devices)))
                           = Some c) by (destruct flag; exact Hc).
           rewrite Hsame in Hin. cbn [snd] in Hin.
           apply in_app_or in Hin. destruct Hin as [Hin|[Hin|[]]];
             [exact (Hnot _ H Hin)|discriminate Hin].
        -- cbn [fst snd] in Hin. rewrite Hc in Hin. cbn [snd] in Hin.
           destruct Hin as [Hin|[]]. discriminate Hin.
      * destruct (AUTHENTICATION_MODE_eq_dec
                    (preferred_authentication_mode (w_transport w))
                    AMQP_TRANSPORT_AUTHENTICATION_MODE_NOT_SET) as [Hns|Hset].
        -- exfalso. unfold establish_amqp_connection in Hin.
           destruct (AUTHENTICATION_MODE_eq_dec _ _); [|contradiction].
           cbn [fst snd] in Hin. rewrite Hc in Hin. exact Hin.
        -- pose proof (establish_amqp_connection_calls env w Hset) as He.
           pose proof (establish_amqp_connection_frame env w) as Hf.
           destruct (establish_amqp_connection env w) as [[r w1] tr_conn].
           cbv zeta in He, Hf. cbn [fst snd] in He.
           destruct Hf as (_ & _ & _ & Hclosed).
           assert (Hskip :
                     (let '(w2, tr) :=
                        match r with
                        | RESULT_OK =>
                            if AMQP_CONNECTION_STATE_eq_dec
                                 (amqp_connection_state (w_transport w1))
                                 AMQP_CONNECTION_STATE_OPENED
                            then
                              let '(devices, flag, tr) :=
                                DoWork_devices env (w_transport w1)
                                  (registered_devices (w_transport w1)) in
                              (set_transport w1
                                 (if flag
                                  then set_is_connection_retry_required
                                         (set_registered_devices
                                            (w_transport w1) devices) true
                                  else set_registered_devices
                                         (w_transport w1) devices),
                               tr_conn ++ tr)
                            else (w1, tr_conn)
                        | FAILURE => (w1, tr_conn)
                        end in
                      match amqp_connection (w_transport w2) with
                      | Some c => (w2, tr ++ [call_amqp_connection_do_work c])
                      | None => (w2, tr)
                      end)
                     = match amqp_connection (w_transport w1) with
                       | Some c =>
                           (w1, tr_conn ++ [call_amqp_connection_do_work c])
                       | None => (w1, tr_conn)
                       end).
           { destruct r; [|reflexivity].
             destruct (AMQP_CONNECTION_STATE_eq_dec _ _) as [Hopen|_];
               [|reflexivity].
             rewrite (Hclosed eq_refl) in Hopen. discriminate Hopen. }
           rewrite Hskip in *. clear Hskip.
           assert (Hin' : In (call_amqp_connection_create io trace_on sasl
                                cbs ok) tr_conn).
           { destruct (amqp_connection (w_transport w1)); cbn [snd] in Hin;
               [|exact Hin].
             apply in_app_or in Hin. destruct Hin as [Hin|[Hin|[]]];
               [exact Hin|discriminate Hin]. }
           assert (Hfst : w_transport
                            (fst (match amqp_connection (w_transport w1) with
                                  | Some c =>
                                      (w1, tr_conn
                                           ++ [call_amqp_connection_do_work c])
                                  | None => (w1, tr_conn)
                                  end)) = w_transport w1)
             by (destruct (amqp_connection (w_transport w1)); reflexivity).
           rewrite Hfst. clear Hfst Hin.
           split; [reflexivity|]. split; [rewrite Hregs; discriminate|].
           split; [reflexivity|]. split; [exact Hset|].
           destruct (tls_io (w_transport w)) as [io0|].
           ++ destruct He as (Htr & Hio & Hconn). rewrite Htr in Hin'.
              destruct Hin' as [Heq|[]]. injection Heq as <- <- <- <- <-.
              repeat split; assumption.
           ++ destruct (env_underlying_io_transport_provider env).
              ** destruct He as (Htr & Hio & Hconn). rewrite Htr in Hin'.
                 destruct Hin' as [Heq|Hin']; [discriminate Heq|].
                 apply in_app_or in Hin'.
                 destruct Hin' as [Hin'|[Heq|[]]].
                 --- destruct (saved_tls_options (w_transport w));
                       [destruct Hin' as [Heq|[]]; discriminate Heq
                       |destruct Hin'].
                 --- injection Heq as <- <- <- <- <-.
                     repeat split; assumption.
              ** destruct He as (Htr & _). rewrite Htr in Hin'.
                 destruct Hin' as [Heq|[]]. discriminate Heq.
Qed.

(** X8.  A tick creates a connection only when no retry is pending, at
    least one device is registered, no connection exists and the preferred
    authentication mode is set.  The connection is created over the stream
    the transport then holds, with the transport's trace flag, and with
    [create_sasl_io] and [create_cbs_connection] both true when the mode is
    CBS and both false when it is X509; the transport holds a connection
    afterwards exactly when the creation succeeded. *)
Theorem connection_is_created_for_the_mode :
  forall env w io trace_on sasl cbs ok,
    In (call_amqp_connection_create io trace_on sasl cbs ok)
      (snd (IoTHubTransport_AMQP_Common_DoWork env w)) ->
    let t := w_transport w in
    let t' := w_transport (fst (IoTHubTransport_AMQP_Common_DoWork env w)) in
    is_connection_retry_required t = false /\
    registered_devices t <> [] /\
    amqp_connection t = None /\
    preferred_authentication_mode t <>
      AMQP_TRANSPORT_AUTHENTICATION_MODE_NOT_SET /\
    sasl = is_CBS (preferred_authentication_mode t) /\
    cbs = is_CBS (preferred_authentication_mode t) /\
    trace_on = is_trace_on t /\
    tls_io t' = Some io /\
    is_NULL (amqp_connection t') = negb ok.
Proof. exact DoWork_connection_create. Qed.

Lemma connection_is_created_for_the_mode_witness :
  let t := w_transport world_after_retry_tick in
  let t' :=
    w_transport
      (fst (IoTHubTransport_AMQP_Common_DoWork env_ok world_after_retry_tick))
  in
  is_connection_retry_required t = false /\
  registered_devices t <> [] /\
  amqp_connection t = None /\
  preferred_authentication_mode t <>
    AMQP_TRANSPORT_AUTHENTICATION_MODE_NOT_SET /\
  true = is_CBS (preferred_authentication_mode t) /\
  true = is_CBS (preferred_authentication_mode t) /\
  false = is_trace_on t /\
  tls_io t' = Some (heap_ptr 15) /\
  is_NULL (amqp_connection t') = negb true.
Proof.
  apply (connection_is_created_for_the_mode env_ok world_after_retry_tick
           (heap_ptr 15) false true true true).
  vm_compute. right. right. left. reflexivity.
Defined.





(** ** Registration (lines 1620-1770) *)

Lemma replicate_device_options_to_calls :
  forall env t d m,
    fst (replicate_device_options_to env t d m) = RESULT_OK ->
    snd (replicate_device_options_to env t d m) =
    map (fun o => call_device_set_option (device_handle d) o
                    (transport_option t o) true)
      (replicated_options m).
Proof.
  intros env t d m. unfold replicate_device_options_to. cbv zeta.
  destruct (env_device_set_option env (device_handle d)
              DEVICE_OPTION_EVENT_SEND_TIMEOUT_SECS); cbn;
    [|discriminate].
  destruct m; [|reflexivity].
  destruct (env_device_set_option env (device_handle d)
              DEVICE_OPTION_CBS_REQUEST_TIMEOUT_SECS); cbn; [|discriminate].
  destruct (env_device_set_option env (device_handle d)
              DEVICE_OPTION_SAS_TOKEN_LIFETIME_SECS); cbn; [|discriminate].
  destruct (env_device_set_option env (device_handle d)
              DEVICE_OPTION_SAS_TOKEN_REFRESH_TIME_SECS); cbn;
    [reflexivity|discriminate].
Qed.


(** What a registration that returns a handle has done. *)
Lemma Register_success :
  forall env w device client q h,
    fst (fst (IoTHubTransport_AMQP_Common_Register env w device client q))
      = Some h ->
    exists device' id client' q',
      device = Some device' /\ deviceId device' = Some id /\
      client = Some client' /\ q = Some q' /\
      is_device_registered_ex (registered_devices (w_transport w)) id = None
      /\
      is_device_credential_acceptable device'
        (preferred_authentication_mode (w_transport w)) = true /\
      h = heap_ptr (w_next w) /\
      let t := w_transport w in
      let instance := new_device_instance (w_next w) id client' q' in
      let mode := device_authentication_mode device' in
      IoTHubTransport_AMQP_Common_Register env w device client q =
      (Some h,
       mk_world (S (S (S (w_next w))))
         (save_preferred_authentication_mode
            (set_registered_devices t
               (registered_devices t ++ [(h, instance)]))
            (match registered_devices t with [] => true | _ :: _ => false end)
            mode),
       call_device_create
         (mk_DEVICE_CONFIG id (STRING_c_str (iothub_host_fqdn t))
            (deviceKey device') (deviceSasToken device') mode h) true
       :: map (fun o => call_device_set_option (device_handle instance) o
                          (transport_option t o) true)
            (replicated_options mode)).
Proof.
  intros env w device client q h.
  unfold IoTHubTransport_AMQP_Common_Register.
  destruct device as [device|]; [|discriminate].
  destruct q as [q|]; [|discriminate].
  destruct client as [client|]; [|discriminate].
  destruct (deviceId device) as [id|] eqn:Hid; [|discriminate].
  destruct (is_device_registered_ex _ id) eqn:Hreg; [discriminate|].
  cbn [not_NULL is_NULL negb].
  destruct (is_device_credential_acceptable _ _) eqn:Hacc; [|discriminate].
  cbn [negb].
  unfold create_and_add_device. cbv beta iota zeta delta [alloc].
  destruct (env_malloc env 0); [|discriminate]. cbn [negb].
  destruct (env_STRING_construct env); [|discriminate]. cbn [negb].
  destruct (env_device_create env); [|discriminate]. cbn [negb].
  cbn [w_transport w_next].
  match goal with
  | |- context [replicate_device_options_to ?e ?t ?d ?m] =>
      pose proof (replicate_device_options_to_calls e t d m) as Hopts;
      destruct (replicate_device_options_to e t d m) as [r tr_options]
  end.
  cbn [fst snd] in Hopts.
  destruct r; [|discriminate].
  destruct (env_singlylinkedlist_add env); [|discriminate]. cbn [negb].
  intros Hh. cbn [fst] in Hh. injection Hh as <-.
  exists device, id, client, q.
  repeat (split; [reflexivity || assumption|]).
  cbv zeta. rewrite (Hopts eq_refl). reflexivity.
Qed.



(** X11.  A registration that returns a handle has appended one device at
    the tail of the registry and touched nothing else but, possibly, the
    preferred mode.  The new device carries a copy of the characters of the
    caller's device id, the caller's client handle and waiting list, is
    STOPPED with both failure counters at 0 and a state-change timeout of 60
    seconds; its credentials were acceptable for the mode the transport had.
    The preferred mode becomes the mode of the device's credentials when it
    was unset and the registry was empty, and is kept otherwise. *)
Theorem successful_registration_adds_stopped_device :
  forall env w device client q h,
    fst (fst (IoTHubTransport_AMQP_Common_Register env w device client q))
      = Some h ->
    let t := w_transport w in
    let t' :=
      w_transport
        (snd (fst (IoTHubTransport_AMQP_Common_Register env w device client
                     q))) in
    exists device' id client' q' d,
      device = Some device' /\ deviceId device' = Some id /\
      client = Some client' /\ q = Some q' /\
      is_device_credential_acceptable device'
        (preferred_authentication_mode t) = true /\
      registered_devices t' = registered_devices t ++ [(h, d)] /\
      c_chars (device_id d) = c_chars id /\
      iothub_client_handle d = client' /\
      waiting_to_send d = q' /\
      device_state d = DEVICE_STATE_STOPPED /\
      number_of_previous_failures d = 0 /\
      number_of_send_event_complete_failures d = 0 /\
      max_state_change_timeout_secs d = 60 /\
      preferred_authentication_mode t' =
        match preferred_authentication_mode t, registered_devices t with
        | AMQP_TRANSPORT_AUTHENTICATION_MODE_NOT_SET, [] =>
            match device_authentication_mode device' with
            | DEVICE_AUTH_MODE_CBS => AMQP_TRANSPORT_AUTHENTICATION_MODE_CBS
            | DEVICE_AUTH_MODE_X509 => AMQP_TRANSPORT_AUTHENTICATION_MODE_X509
            end
        | m, _ => m
        end /\
      set_preferred_authentication_mode
        (set_registered_devices t' (registered_devices t))
        (preferred_authentication_mode t) = t.
Proof.
  intros env w device client q h Hh. cbv zeta.
  destruct (Register_success env w device client q h Hh)
    as (device' & id & client' & q' & -> & Hid & -> & -> & _ & Hacc & ->
        & Heq).
  cbv zeta in Heq. rewrite Heq. cbn [fst snd w_transport].
  exists device', id, client', q',
    (new_device_instance (w_next w) id client' q').
  repeat (split; [reflexivity || assumption|]).
  destruct (save_preferred_authentication_mode_frame
              (set_registered_devices (w_transport w)
                 (registered_devices (w_transport w)
                  ++ [(heap_ptr (w_next w),
                       new_device_instance (w_next w) id client' q')]))
              (match registered_devices (w_transport w) with
               | [] => true | _ :: _ => false end)
              (device_authentication_mode device')) as [Hr _].
  split; [exact Hr|].
  repeat (split; [reflexivity|]).
  unfold save_preferred_authentication_mode.
  cbn [preferred_authentication_mode set_registered_devices].
  destruct (w_transport w) as [fq io conn st mode regs tron saved retry
                                 o1 o2 o3 o4].
  cbn.
  destruct mode; destruct regs; destruct (device_authentication_mode device');
    cbn; split; reflexivity.
Qed.

Lemma successful_registration_adds_stopped_device_witness :
  exists device' id client' q' d,
    device_X_with_certificate = Some device' /\ deviceId device' = Some id /\
    a_client = Some client' /\ empty_queue = Some q' /\
    is_device_credential_acceptable device'
      (preferred_authentication_mode (w_transport fresh_world)) = true /\
    registered_devices
      (w_transport
         (snd (fst (IoTHubTransport_AMQP_Common_Register env_ok fresh_world
                      device_X_with_certificate a_client empty_queue))))
      = registered_devices (w_transport fresh_world) ++ [(heap_ptr 3, d)] /\
    c_chars (device_id d) = c_chars id /\
    iothub_client_handle d = client' /\
    waiting_to_send d = q' /\
    device_state d = DEVICE_STATE_STOPPED /\
    number_of_previous_failures d = 0 /\
    number_of_send_event_complete_failures d = 0 /\
    max_state_change_timeout_secs d = 60 /\
    preferred_authentication_mode
      (w_transport
         (snd (fst (IoTHubTransport_AMQP_Common_Register env_ok fresh_world
                      device_X_with_certificate a_client empty_queue))))
      = match device_authentication_mode device' with
        | DEVICE_AUTH_MODE_CBS => AMQP_TRANSPORT_AUTHENTICATION_MODE_CBS
        | DEVICE_AUTH_MODE_X509 => AMQP_TRANSPORT_AUTHENTICATION_MODE_X509
        end /\
    set_preferred_authentication_mode
      (set_registered_devices
         (w_transport
            (snd (fst (IoTHubTransport_AMQP_Common_Register env_ok
                         fresh_world device_X_with_certificate a_client
                         empty_queue))))
         (registered_devices (w_transport fresh_world)))
      (preferred_authentication_mode (w_transport fresh_world))
      = w_transport fresh_world.
Proof.
  apply (successful_registration_adds_stopped_device env_ok fresh_world
           device_X_with_certificate a_client empty_queue (heap_ptr 3)).
  reflexivity.
Defined.

(** X12.  A default stored through SetOption reaches the devices registered
    afterwards: when a device-scoped option was set to [v] (whatever the
    propagation to the devices then registered did) and a device is
    registered next, the session just created for it receives the option
    with the value [v], provided the option is one that is replicated for
    the device's credentials (all four for a key or a SAS token, the send
    timeout only for a certificate). *)
Theorem registered_device_receives_current_defaults :
  forall env0 env w name v o device client q h,
    get_device_option_name_from name = Some o ->
    let w1 :=
      snd (fst (IoTHubTransport_AMQP_Common_SetOption env0 w (Some name)
                  (Some v))) in
    fst (fst (IoTHubTransport_AMQP_Common_Register env w1 (Some device)
                client q)) = Some h ->
    In o (replicated_options (device_authentication_mode device)) ->
    In (call_device_set_option (heap_ptr (S (S (w_next w1)))) o (as_size_t v)
          true)
      (snd (IoTHubTransport_AMQP_Common_Register env w1 (Some device) client
              q)).
Proof.
  intros env0 env w name v o device client q h Hname w1 Hh Ho.
  pose proof (set_option_stores_default env0 w name v o Hname) as Hstored.
  fold w1 in Hstored.
  destruct (Register_success env w1 (Some device) client q h Hh)
    as (device' & id & client' & q' & Hd & _ & _ & _ & _ & _ & _ & Heq).
  injection Hd as <-. cbv zeta in Heq. rewrite Heq. cbn [snd].
  right. apply in_map_iff. exists o. split; [|exact Ho].
  rewrite Hstored. reflexivity.
Qed.

Lemma registered_device_receives_current_defaults_witness :
  In (call_device_set_option (heap_ptr 5)
        DEVICE_OPTION_SAS_TOKEN_REFRESH_TIME_SECS 900 true)
    (snd (IoTHubTransport_AMQP_Common_Register env_ok
            (snd (fst (IoTHubTransport_AMQP_Common_SetOption env_ok
                         fresh_world (Some OPTION_SAS_TOKEN_REFRESH_TIME)
                         (Some (mk_option_value 900 false)))))
            (Some (mk_device_config (Some (mk_cstr (user_ptr 4) "B")) None
                     (Some (mk_cstr (user_ptr 5) "T"))))
            a_client empty_queue)).
Proof.
  apply (registered_device_receives_current_defaults env_ok env_ok
           fresh_world OPTION_SAS_TOKEN_REFRESH_TIME
           (mk_option_value 900 false)
           DEVICE_OPTION_SAS_TOKEN_REFRESH_TIME_SECS
           (mk_device_config (Some (mk_cstr (user_ptr 4) "B")) None
              (Some (mk_cstr (user_ptr 5) "T")))
           a_client empty_queue (heap_ptr 3)).
  - reflexivity.
  - reflexivity.
  - vm_compute. auto.
Defined.

(** ** The registry of a live transport (lines 1096-1126, 1620-1831) *)

Lemma update_device_identities :
  forall l h f,
    (forall d, device_id (f d) = device_id d /\
               device_handle (f d) = device_handle d) ->
    map identity_of (update_device l h f) = map identity_of l.
Proof.
  intros l h f Hf. induction l as [|[h' d] l IH]; simpl; [reflexivity|].
  destruct (addr_eq_dec h' h); simpl; rewrite IH; [|reflexivity].
  unfold identity_of; simpl. destruct (Hf d) as [-> ->]. reflexivity.
Qed.

Lemma Device_DoWork_identity :
  forall env t d,
    let d' := snd (fst (IoTHubTransport_AMQP_Common_Device_DoWork env t d)) in
    device_id d' = device_id d /\ device_handle d' = device_handle d.
Proof.
  intros env t d. cbv zeta.
  unfold IoTHubTransport_AMQP_Common_Device_DoWork.
  assert (Herr : let d' := snd (fst (handle_device_failure env d)) in
                 device_id d' = device_id d /\
                 device_handle d' = device_handle d).
  { unfold handle_device_failure. cbv zeta.
    destruct (_ >=? _); [split; reflexivity|].
    destruct (negb _); split; reflexivity. }
  assert (Htime : let d' := snd (fst (check_state_change_timeout env d)) in
                  device_id d' = device_id d /\
                  device_handle d' = device_handle d).
  { unfold check_state_change_timeout. cbv zeta.
    destruct (is_timeout_reached _ _ _) as [[[|]|] tr]; split; reflexivity. }
  cbv zeta in Herr, Htime.
  destruct (device_state d).
  - destruct (start_stopped_device env t d) as [r tr]. split; reflexivity.
  - destruct (check_state_change_timeout env d) as [[r d'] tr]. exact Htime.
  - destruct (check_state_change_timeout env d) as [[r d'] tr]. exact Htime.
  - unfold drain_started_device, send_pending_events.
    pose proof (send_pending_events_loop_identity env (waiting_to_send d) d)
      as Hi.
    destruct (send_pending_events_loop env d (waiting_to_send d))
      as [[r d1] tr]. cbv zeta in Hi. cbn [fst snd] in Hi.
    destruct Hi as (H1 & H2 & _).
    destruct r; cbn; split; assumption.
  - destruct (handle_device_failure env d) as [[r d'] tr]. exact Herr.
  - destruct (handle_device_failure env d) as [[r d'] tr]. exact Herr.
  - destruct (handle_device_failure env d) as [[r d'] tr]. exact Herr.
Qed.

Lemma DoWork_devices_identities :
  forall env t l,
    map identity_of (fst (fst (DoWork_devices env t l))) = map identity_of l.
Proof.
  intros env t l. induction l as [|[h d] l IH]; simpl; [reflexivity|].
  destruct (DoWork_devices env t l) as [[rest flag'] tr']. simpl in IH.
  destruct (number_of_send_event_complete_failures d
            >=? MAX_NUMBER_OF_DEVICE_FAILURES);
    [simpl; rewrite IH; reflexivity|].
  pose proof (Device_DoWork_identity env t d) as Hd.
  destruct (IoTHubTransport_AMQP_Common_Device_DoWork env t d)
    as [[r d1] tr1].
  cbv zeta in Hd. simpl in Hd. destruct Hd as [Hid Hh].
  destruct r; simpl; rewrite IH; unfold identity_of; simpl;
    rewrite Hid, Hh; reflexivity.
Qed.

Lemma keeps_registry_refl : forall w, keeps_registry w w.
Proof. intros w. split; [reflexivity|lia]. Qed.

Lemma keeps_registry_trans :
  forall w1 w2 w3,
    keeps_registry w1 w2 -> keeps_registry w2 w3 -> keeps_registry w1 w3.
Proof.
  intros w1 w2 w3 [H1 H2] [H3 H4]. split; [congruence|lia].
Qed.

Lemma keeps_registry_frame :
  forall w w',
    registered_devices (w_transport w') = registered_devices (w_transport w) ->
    (w_next w <= w_next w')%nat ->
    keeps_registry w w'.
Proof.
  intros w w' Hreg Hnext. split; [|exact Hnext].
  unfold registry_identities. rewrite Hreg. reflexivity.
Qed.

Lemma save_underlying_io_transport_options_keeps_registry :
  forall env w,
    keeps_registry w (snd (fst (save_underlying_io_transport_options env w))).
Proof.
  intros env w. unfold save_underlying_io_transport_options.
  destruct (tls_io (w_transport w)); [|apply keeps_registry_refl].
  destruct (env_xio_retrieveoptions env); [|apply keeps_registry_refl].
  apply keeps_registry_frame; simpl; [reflexivity|lia].
Qed.

Lemma create_amqp_connection_keeps_registry :
  forall env w io,
    keeps_registry w (snd (fst (create_amqp_connection env w io))).
Proof.
  intros env w io. unfold create_amqp_connection. cbv zeta.
  destruct (env_amqp_connection_create env);
    apply keeps_registry_frame; simpl; try reflexivity; lia.
Qed.

Lemma get_new_underlying_io_transport_next :
  forall env w,
    let w1 := snd (fst (get_new_underlying_io_transport env w)) in
    w_transport w1 = w_transport w /\ (w_next w <= w_next w1)%nat.
Proof.
  intros env w. unfold get_new_underlying_io_transport.
  destruct (env_underlying_io_transport_provider env); simpl.
  - destruct (restore_underlying_io_transport_options env (w_transport w)
                (heap_ptr (w_next w))). simpl. split; [reflexivity|lia].
  - split; [reflexivity|lia].
Qed.

Lemma establish_amqp_connection_keeps_registry :
  forall env w,
    keeps_registry w (snd (fst (establish_amqp_connection env w))).
Proof.
  intros env w. unfold establish_amqp_connection. cbv zeta.
  destruct (AUTHENTICATION_MODE_eq_dec _ _); [apply keeps_registry_refl|].
  destruct (tls_io (w_transport w)); [apply create_amqp_connection_keeps_registry|].
  pose proof (get_new_underlying_io_transport_next env w) as Hn.
  destruct (get_new_underlying_io_transport env w) as [[[r io] w1] tr].
  cbv zeta in Hn. cbn [fst snd] in Hn. destruct Hn as [Ht Hn].
  assert (Hk : keeps_registry w
                 (set_transport w1 (set_tls_io (w_transport w1) io))).
  { apply keeps_registry_frame; simpl; [rewrite Ht; reflexivity|exact Hn]. }
  destruct r; [|exact Hk]. destruct io as [io|]; [|exact Hk].
  pose proof (create_amqp_connection_keeps_registry env
                (set_transport w1 (set_tls_io (w_transport w1) (Some io))) io)
    as Hc.
  destruct (create_amqp_connection env _ io) as [[r2 w3] tr2].
  cbn [fst snd] in *. eapply keeps_registry_trans; eassumption.
Qed.

Lemma map_identity_clear_failures :
  forall l, map identity_of (map clear_failures_of_item l) = map identity_of l.
Proof.
  intros l. rewrite map_map. apply map_ext. intros [h d]. reflexivity.
Qed.

Lemma prepare_for_connection_retry_keeps_registry :
  forall env w, keeps_registry w (fst (prepare_for_connection_retry env w)).
Proof.
  intros env w. split.
  - unfold registry_identities.
    rewrite prepare_for_connection_retry_registry.
    apply map_identity_clear_failures.
  - unfold prepare_for_connection_retry.
    pose proof (save_underlying_io_transport_options_keeps_registry env w) as [_ Hn].
    destruct (save_underlying_io_transport_options env w) as [[r w1] tr].
    cbn [fst snd] in Hn.
    destruct (prepare_devices_for_connection_retry env _) as [devices trd].
    cbv zeta.
    destruct (destroy_underlying_io_transport _) as [t4 tr_io].
    simpl. exact Hn.
Qed.

Lemma DoWork_connected_keeps_registry :
  forall env w, keeps_registry w (fst (DoWork_connected env w)).
Proof.
  intros env w. unfold DoWork_connected.
  destruct (registered_devices (w_transport w)) eqn:Hregs;
    [apply keeps_registry_refl|].
  clear Hregs.
  assert (Hloop : forall w1 tr_conn,
            keeps_registry w w1 ->
            keeps_registry w
              (fst (let '(devices, flag, tr) :=
                      DoWork_devices env (w_transport w1)
                        (registered_devices (w_transport w1)) in
                    (set_transport w1
                       (if flag
                        then set_is_connection_retry_required
                               (set_registered_devices (w_transport w1)
                                  devices) true
                        else set_registered_devices (w_transport w1) devices),
                     tr_conn ++ tr)))).
  { intros w1 tr_conn [Hids Hn].
    pose proof (DoWork_devices_identities env (w_transport w1)
                  (registered_devices (w_transport w1))) as H.
    destruct (DoWork_devices env (w_transport w1)
                (registered_devices (w_transport w1)))
      as [[devices flag] tr].
    simpl in H. split.
    - unfold registry_identities in *. rewrite <- Hids, <- H.
      destruct flag; reflexivity.
    - destruct flag; exact Hn. }
  destruct (amqp_connection (w_transport w)).
  - destruct (AMQP_CONNECTION_STATE_eq_dec _ _); [|apply keeps_registry_refl].
    apply Hloop. apply keeps_registry_refl.
  - pose proof (establish_amqp_connection_keeps_registry env w) as He.
    destruct (establish_amqp_connection env w) as [[r w1] tr_conn].
    cbn [fst snd] in He.
    destruct r; [|exact He].
    destruct (AMQP_CONNECTION_STATE_eq_dec _ _); [|exact He].
    apply Hloop. exact He.
Qed.

Lemma DoWork_keeps_registry :
  forall env w,
    keeps_registry w (fst (IoTHubTransport_AMQP_Common_DoWork env w)).
Proof.
  intros env w. unfold IoTHubTransport_AMQP_Common_DoWork.
  destruct (is_connection_retry_required (w_transport w)).
  - pose proof (prepare_for_connection_retry_keeps_registry env w) as H.
    destruct (prepare_for_connection_retry env w) as [w1 tr].
    cbn [fst] in H.
    assert (H' : keeps_registry w
                   (set_transport w1
                      (set_is_connection_retry_required (w_transport w1)
                         false))).
    { destruct H as [H1 H2]. split; [exact H1|exact H2]. }
    simpl. destruct (amqp_connection (w_transport w1)); exact H'.
  - pose proof (DoWork_connected_keeps_registry env w) as H.
    destruct (DoWork_connected env w) as [w1 tr]. simpl in H.
    destruct (amqp_connection (w_transport w1)); exact H.
Qed.

Lemma SetOption_xio_next :
  forall env w name,
    (w_next w <= w_next (snd (fst (SetOption_xio env w name))))%nat.
Proof.
  intros env w name.
  unfold SetOption_xio, get_new_underlying_io_transport,
    save_underlying_io_transport_options,
    restore_underlying_io_transport_options.
  cbv beta iota zeta delta [alloc].
  repeat (break_inner; cbn [fst snd w_next w_transport set_transport
                            set_tls_io tls_io saved_tls_options negb] in *;
          try lia).
Qed.

Lemma SetOption_keeps_registry :
  forall env w name v,
    keeps_registry w
      (snd (fst (IoTHubTransport_AMQP_Common_SetOption env w name v))).
Proof.
  intros env w name v. apply keeps_registry_frame.
  - pose proof (SetOption_frame env w name v) as H.
    destruct (IoTHubTransport_AMQP_Common_SetOption env w name v)
      as [[r w1] tr]. cbv zeta in H. apply H.
  - unfold IoTHubTransport_AMQP_Common_SetOption.
    destruct name as [name|]; [|simpl; lia].
    destruct v as [v|]; [|simpl; lia].
    destruct (save_device_specific_option (w_transport w) name v)
      as [specific t1].
    destruct specific.
    + destruct (IoTHubTransport_AMQP_Common_Device_SetOption env t1 name v)
        as [[|] tr]; simpl; lia.
    + destruct (String.eqb OPTION_LOG_TRACE name).
      * cbv zeta. destruct (amqp_connection _);
          [destruct (negb _)|]; simpl; lia.
      * match goal with
        | |- context [let '(result, t2) := ?e in _] =>
            destruct e as [result t2]
        end.
        destruct result; try (simpl; lia);
          exact (SetOption_xio_next env (set_transport w t2) name).
Qed.

Lemma NoDup_snoc_fresh :
  forall (ns : list nat) (next : nat),
    NoDup ns -> Forall (fun n => (S (S n) < next)%nat) ns ->
    NoDup (ns ++ [next]).
Proof.
  intros ns next Hnd Hb. induction Hnd as [|n ns Hn Hnd IH]; simpl.
  - constructor; [intros []|constructor].
  - inversion Hb as [|? ? Hlt Hb']; subst. constructor; [|apply IH; exact Hb'].
    intros Hin. apply in_app_or in Hin. destruct Hin as [Hin|[Hin|[]]].
    + contradiction.
    + lia.
Qed.

Lemma keeps_registry_layout :
  forall w w', keeps_registry w w' -> registry_layout w -> registry_layout w'.
Proof.
  intros w w' [Hids Hn] (ns & Hl & Hnd & Hb). exists ns.
  repeat split; [congruence|exact Hnd|].
  eapply Forall_impl; [|exact Hb]. cbv beta. intros n H. lia.
Qed.

Lemma Register_next :
  forall env w device client q,
    (w_next w
     <= w_next (snd (fst (IoTHubTransport_AMQP_Common_Register env w device
                            client q))))%nat.
Proof.
  intros env w device client q.
  unfold IoTHubTransport_AMQP_Common_Register.
  destruct device as [device|]; [|simpl; lia].
  destruct q as [q|]; [|simpl; lia].
  destruct client as [client|]; [|simpl; lia].
  destruct (deviceId device) as [id|]; [|simpl; lia].
  destruct (not_NULL _); [simpl; lia|].
  destruct (negb (is_device_credential_acceptable _ _)); [simpl; lia|].
  unfold create_and_add_device. cbv beta iota zeta delta [alloc].
  destruct (negb (env_malloc env 0)); [simpl; lia|].
  destruct (negb (env_STRING_construct env)); [simpl; lia|].
  destruct (negb (env_device_create env)); [simpl; lia|].
  destruct (replicate_device_options_to _ _ _ _) as [[|] tr_options];
    [|simpl; lia].
  destruct (negb (env_singlylinkedlist_add env)); simpl; lia.
Qed.

Lemma Register_layout :
  forall env w device client q,
    registry_layout w ->
    registry_layout
      (snd (fst (IoTHubTransport_AMQP_Common_Register env w device client
                   q))).
Proof.
  intros env w device client q Hl.
  destruct (fst (fst (IoTHubTransport_AMQP_Common_Register env w device
                        client q))) as [h|] eqn:Hres.
  - destruct (Register_success env w device client q h Hres)
      as (device' & id & client' & q' & _ & _ & _ & _ & _ & _ & -> & Heq).
    cbv zeta in Heq. rewrite Heq. cbn [fst snd].
    destruct Hl as (ns & Hids & Hnd & Hb).
    exists (ns ++ [w_next w]). unfold registry_identities in *.
    cbn [w_transport w_next].
    rewrite (proj1 (save_preferred_authentication_mode_frame _ _ _)).
    repeat split.
    + destruct (w_transport w); cbn [registered_devices set_registered_devices]
        in *. rewrite !map_app, Hids. reflexivity.
    + apply NoDup_snoc_fresh; [exact Hnd|exact Hb].
    + apply Forall_app. split.
      * eapply Forall_impl; [|exact Hb]. cbv beta. intros n H. lia.
      * constructor; [lia|constructor].
  - apply (keeps_registry_layout w); [|exact Hl].
    apply keeps_registry_frame; [|apply Register_next].
    pose proof (Register_registry env w device client q) as H.
    cbv zeta in H. destruct H as [_ [[_ Hreg]|(h & d & Hh & _)]];
      [exact Hreg|congruence].
Qed.

Lemma singlylinkedlist_remove_split :
  forall l ctx,
    singlylinkedlist_remove l ctx = l \/
    exists l1 x l2,
      l = l1 ++ x :: l2 /\ singlylinkedlist_remove l ctx = l1 ++ l2.
Proof.
  intros l ctx. induction l as [|x l IH]; simpl; [left; reflexivity|].
  destruct (find_device_by_id_callback x ctx).
  - right. exists [], x, l. split; reflexivity.
  - destruct IH as [->|(l1 & y & l2 & -> & ->)]; [left; reflexivity|].
    right. exists (x :: l1), y, l2. split; reflexivity.
Qed.

Lemma Unregister_layout :
  forall w h,
    registry_layout w ->
    registry_layout (fst (IoTHubTransport_AMQP_Common_Unregister w h)).
Proof.
  intros w h Hl. unfold IoTHubTransport_AMQP_Common_Unregister.
  destruct h as [h|]; [|exact Hl].
  destruct (device_of _ _) as [d|]; [|exact Hl].
  destruct (is_device_registered_ex _ _); [|exact Hl].
  cbn [fst].
  destruct (singlylinkedlist_remove_split
              (registered_devices (w_transport w))
              (Some (STRING_c_str (device_id d))))
    as [Hsame|(l1 & x & l2 & Hsplit & Hrem)].
  - apply (keeps_registry_layout w); [|exact Hl].
    apply keeps_registry_frame; simpl; [|lia].
    destruct (w_transport w); exact Hsame.
  - destruct Hl as (ns & Hids & Hnd & Hb).
    unfold registry_identities in *. rewrite Hsplit in Hids.
    rewrite map_app in Hids. symmetry in Hids.
    apply map_eq_app in Hids. destruct Hids as (ns1 & ns' & -> & H1 & H2).
    simpl in H2. apply map_eq_cons in H2.
    destruct H2 as (n & ns2 & -> & _ & H2).
    exists (ns1 ++ ns2). repeat split.
    + unfold registry_identities. cbn [w_transport set_transport].
      transitivity (map identity_of (l1 ++ l2)).
      * f_equal. rewrite <- Hrem. destruct (w_transport w); reflexivity.
      * rewrite !map_app. f_equal; symmetry; assumption.
    + eapply NoDup_remove_1. exact Hnd.
    + apply Forall_app in Hb. destruct Hb as [Hb1 Hb2].
      inversion Hb2; subst. apply Forall_app. split; assumption.
Qed.

Lemma create_device_message_disposition_info_from_next :
  forall env w ctx,
    (w_next w
     <= w_next (snd (create_device_message_disposition_info_from env w
                       ctx)))%nat.
Proof.
  intros env w ctx. unfold create_device_message_disposition_info_from.
  destruct (env_malloc env 0); simpl; [|lia].
  destruct (env_mallocAndStrcpy_s env); simpl; lia.
Qed.

Lemma MESSAGE_CALLBACK_INFO_Create_next :
  forall env w message info h,
    (w_next w
     <= w_next (snd (MESSAGE_CALLBACK_INFO_Create env w message info h)))%nat.
Proof.
  intros env w message info h. unfold MESSAGE_CALLBACK_INFO_Create.
  destruct (env_malloc env 0); simpl; [|lia].
  destruct (env_malloc env 1); simpl; [|lia].
  destruct (env_mallocAndStrcpy_s env); simpl; lia.
Qed.

Lemma SendMessageDisposition_keeps_registry :
  forall env w message_data disposition r w' tr,
    IoTHubTransport_AMQP_Common_SendMessageDisposition env w message_data
      disposition = Some (r, w', tr) ->
    keeps_registry w w'.
Proof.
  intros env w message_data disposition r w' tr H.
  apply keeps_registry_frame.
  - rewrite (SendMessageDisposition_frame _ _ _ _ _ _ _ H). reflexivity.
  - unfold IoTHubTransport_AMQP_Common_SendMessageDisposition in H.
    destruct message_data as [md|]; [|injection H as _ <- _; lia].
    destruct (cb_messageHandle md); [|injection H as _ <- _; lia].
    destruct (transportContext md) as [ctx|];
      [|injection H as _ <- _; lia].
    destruct (device_of _ _) as [device|]; [|discriminate].
    pose proof (create_device_message_disposition_info_from_next env w ctx)
      as Hc.
    destruct (create_device_message_disposition_info_from env w ctx)
      as [[info|] w1]; simpl in Hc.
    + destruct (env_device_send_message_disposition env _); simpl in H;
        injection H as _ <- _; exact Hc.
    + injection H as _ <- _. exact Hc.
Qed.

Lemma on_message_received_keeps_registry :
  forall env w message info context r md w' tr,
    on_message_received env w message info context = Some (r, md, w', tr) ->
    keeps_registry w w'.
Proof.
  intros env w message info context r md w' tr H.
  apply keeps_registry_frame.
  - rewrite (on_message_received_frame _ _ _ _ _ _ _ _ _ H). reflexivity.
  - unfold on_message_received in H.
    destruct (device_of _ _) as [device|]; [|discriminate].
    pose proof (MESSAGE_CALLBACK_INFO_Create_next env w message info context)
      as Hc.
    destruct (MESSAGE_CALLBACK_INFO_Create env w message info context)
      as [[message_data|] w1]; simpl in Hc.
    + destruct (env_IoTHubClient_LL_MessageCallback env); simpl in H;
        injection H as _ _ <- _; exact Hc.
    + injection H as _ _ <- _. exact Hc.
Qed.

Lemma update_device_same_identity :
  forall l ns h d d',
    map identity_of l = map allocated_at ns ->
    In (h, d) l ->
    device_id d' = device_id d ->
    device_handle d' = device_handle d ->
    map identity_of (update_device l h (fun _ => d')) = map identity_of l.
Proof.
  intros l ns h d d' Hids Hin Hid Hh.
  assert (Hd : exists n, identity_of (h, d) = allocated_at n).
  { assert (Hi : In (identity_of (h, d)) (map allocated_at ns)).
    { rewrite <- Hids. apply in_map. exact Hin. }
    apply in_map_iff in Hi. destruct Hi as (n & Hn & _). exists n.
    symmetry. exact Hn. }
  destruct Hd as (n & Hn). clear Hin.
  revert ns Hids. induction l as [|[h0 d0] l IH]; intros ns Hids;
    [reflexivity|].
  destruct ns as [|m ns]; [discriminate|].
  cbn [map] in Hids. unfold identity_of at 1, allocated_at at 1 in Hids.
  cbn [fst snd] in Hids. injection Hids as Hm1 Hm2 Hm3 Htail.
  cbn [update_device map]. destruct (addr_eq_dec h0 h) as [He|Hne].
  - cbn [map]. rewrite (IH ns Htail). f_equal.
    unfold identity_of, allocated_at in *. cbn [fst snd] in *.
    rewrite Hid, Hh. injection Hn as Hn1 Hn2 Hn3.
    rewrite Hn2, Hn3, Hm2, Hm3. subst h0. rewrite Hn1 in He.
    injection He as ->. reflexivity.
  - cbn [map]. rewrite (IH ns Htail). reflexivity.
Qed.

Lemma step_layout :
  forall op w w' tr,
    step op w = Some (w', tr) -> registry_layout w -> registry_layout w'.
Proof.
  intros op w w' tr Hstep Hl.
  destruct op as [env device client q | h | env name value | env |
                  | h m | env md disposition | env message info ctx
                  | now ctx prev new | ctx m result | prev new];
    cbn [step] in Hstep.
  - pose proof (Register_layout env w device client q Hl) as H.
    destruct (IoTHubTransport_AMQP_Common_Register env w device client q)
      as [[r w1] tr1].
    injection Hstep as <- _. exact H.
  - pose proof (Unregister_layout w h Hl) as H.
    destruct (IoTHubTransport_AMQP_Common_Unregister w h) as [w1 tr1].
    injection Hstep as <- _. exact H.
  - pose proof (SetOption_keeps_registry env w name value) as H.
    destruct (IoTHubTransport_AMQP_Common_SetOption env w name value)
      as [[r w1] tr1].
    injection Hstep as <- _. exact (keeps_registry_layout _ _ H Hl).
  - pose proof (DoWork_keeps_registry env w) as H.
    destruct (IoTHubTransport_AMQP_Common_DoWork env w).
    injection Hstep as <- _. exact (keeps_registry_layout _ _ H Hl).
  - discriminate.
  - injection Hstep as <- _.
    apply (keeps_registry_layout w); [|exact Hl].
    split; [|simpl; lia]. unfold registry_identities. simpl.
    destruct (w_transport w); simpl.
    apply update_device_identities. intros d. split; reflexivity.
  - destruct (IoTHubTransport_AMQP_Common_SendMessageDisposition env w
                md disposition) as [[[r w1] tr1]|] eqn:Hsend;
      [|discriminate].
    injection Hstep as <- _.
    exact (keeps_registry_layout _ _
             (SendMessageDisposition_keeps_registry _ _ _ _ _ _ _ Hsend) Hl).
  - destruct (on_message_received env w message info ctx)
      as [[[[r md] w1] tr1]|] eqn:Hrx; [|discriminate].
    injection Hstep as <- _.
    exact (keeps_registry_layout _ _
             (on_message_received_keeps_registry _ _ _ _ _ _ _ _ _ Hrx) Hl).
  - injection Hstep as <- _.
    apply (keeps_registry_layout w); [|exact Hl].
    split; [|simpl; lia]. unfold registry_identities. simpl.
    destruct (w_transport w); simpl.
    unfold on_device_state_changed_callback.
    destruct ctx as [h|]; [|reflexivity].
    destruct (DEVICE_STATE_eq_dec new prev); [reflexivity|].
    apply update_device_identities. intros d. split; reflexivity.
  - destruct (device_of _ _) as [d|] eqn:Hdev; [|discriminate].
    assert (Hd : device_id (fst (on_event_send_complete m result d))
                 = device_id d /\
                 device_handle (fst (on_event_send_complete m result d))
                 = device_handle d).
    { unfold on_event_send_complete. cbv zeta. cbn [fst].
      destruct (_ && _); split; reflexivity. }
    destruct (on_event_send_complete m result d) as [d' tr1].
    cbn [fst] in Hd. injection Hstep as <- _.
    apply (keeps_registry_layout w); [|exact Hl].
    split; [|simpl; lia]. unfold registry_identities.
    cbn [w_transport set_transport].
    transitivity
      (map identity_of
         (update_device (registered_devices (w_transport w)) ctx
            (fun _ => d'))); [destruct (w_transport w); reflexivity|].
    destruct Hl as (ns & Hids & _). unfold registry_identities in Hids.
    apply (update_device_same_identity _ ns ctx d d'); try assumption;
      try apply Hd.
    apply device_of_In. exact Hdev.
  - unfold on_amqp_connection_state_changed in Hstep.
    apply (keeps_registry_layout w); [|exact Hl].
    destruct (AMQP_CONNECTION_STATE_eq_dec new prev);
      [injection Hstep as <- _; split; [destruct w as [n t]; destruct t|];
       simpl; (reflexivity || lia)|].
    destruct (AMQP_CONNECTION_STATE_eq_dec new AMQP_CONNECTION_STATE_ERROR);
      injection Hstep as <- _; split; simpl; (reflexivity || lia).
Qed.

Lemma reachable_layout : forall w, reachable w -> registry_layout w.
Proof.
  intros w H. induction H as [env z config io w Hc|op w w' tr _ IH Hstep].
  - exists []. unfold registry_identities.
    rewrite (created_transport_is_empty _ _ _ _ _ Hc).
    repeat split; constructor.
  - eapply step_layout; eassumption.
Qed.

Lemma NoDup_map_injective :
  forall (A B : Type) (f : A -> B) (l : list A),
    (forall x y, f x = f y -> x = y) -> NoDup l -> NoDup (map f l).
Proof.
  intros A B f l Hf H. induction H as [|x l Hx _ IH]; simpl; constructor.
  - intros Hin. apply in_map_iff in Hin. destruct Hin as (y & Hy & Hin).
    apply Hf in Hy. subst y. contradiction.
  - exact IH.
Qed.

Lemma layout_handles :
  forall w,
    registry_layout w ->
    NoDup (registered_handles w) /\ NoDup (registered_id_addresses w) /\
    NoDup (registered_sessions w).
Proof.
  intros w (ns & Hids & Hnd & _).
  unfold registered_handles, registered_id_addresses, registered_sessions.
  unfold registry_identities in Hids.
  assert (H1 : map fst (registered_devices (w_transport w))
               = map (fun n => heap_ptr n) ns).
  { transitivity (map (fun i : addr * addr * addr => fst (fst i))
                    (map identity_of (registered_devices (w_transport w)))).
    - rewrite map_map. reflexivity.
    - rewrite Hids, map_map. reflexivity. }
  assert (H2 : map (fun item : LIST_ITEM =>
                      c_addr (STRING_c_str (device_id (snd item))))
                 (registered_devices (w_transport w))
               = map (fun n => heap_ptr (S n)) ns).
  { transitivity (map (fun i : addr * addr * addr => snd (fst i))
                    (map identity_of (registered_devices (w_transport w)))).
    - rewrite map_map. reflexivity.
    - rewrite Hids, map_map. reflexivity. }
  assert (H3 : map (fun item : LIST_ITEM => device_handle (snd item))
                 (registered_devices (w_transport w))
               = map (fun n => heap_ptr (S (S n))) ns).
  { transitivity (map (fun i : addr * addr * addr => snd i)
                    (map identity_of (registered_devices (w_transport w)))).
    - rewrite map_map. reflexivity.
    - rewrite Hids, map_map. reflexivity. }
  rewrite H1, H2, H3.
  repeat split; apply NoDup_map_injective; try exact Hnd;
    intros x y Hxy; injection Hxy as Hxy; lia.
Qed.

Lemma layout_id_address_tells_handle :
  forall w,
    registry_layout w ->
    id_address_tells_handle (registered_devices (w_transport w)).
Proof.
  intros w (ns & Hids & _) h1 d1 h2 d2 H1 H2 Heq.
  unfold registry_identities in Hids.
  assert (Hat : forall h d,
            In (h, d) (registered_devices (w_transport w)) ->
            exists n, identity_of (h, d) = allocated_at n).
  { intros h d Hin.
    assert (Hi : In (identity_of (h, d)) (map allocated_at ns)).
    { rewrite <- Hids. apply in_map. exact Hin. }
    apply in_map_iff in Hi. destruct Hi as (n & Hn & _). exists n.
    symmetry. exact Hn. }
  destruct (Hat h1 d1 H1) as (n1 & Hn1).
  destruct (Hat h2 d2 H2) as (n2 & Hn2).
  unfold identity_of, allocated_at in Hn1, Hn2. cbn [fst snd] in Hn1, Hn2.
  injection Hn1 as -> Hi1 _. injection Hn2 as -> Hi2 _.
  rewrite Hi1, Hi2 in Heq. injection Heq as ->. reflexivity.
Qed.

Lemma addr_eqb_refl : forall a, addr_eqb a a = true.
Proof.
  intros a. unfold addr_eqb. destruct (addr_eq_dec a a); [reflexivity|].
  contradiction.
Qed.

Lemma addr_eqb_neq : forall a b, a <> b -> addr_eqb a b = false.
Proof.
  intros a b H. unfold addr_eqb. destruct (addr_eq_dec a b); [|reflexivity].
  contradiction.
Qed.

Lemma without_handle_cons_same :
  forall h d l, without_handle h ((h, d) :: l) = without_handle h l.
Proof.
  intros h d l. unfold without_handle. cbn [filter fst].
  rewrite addr_eqb_refl. reflexivity.
Qed.

Lemma without_handle_cons_other :
  forall h h0 d l,
    h0 <> h -> without_handle h ((h0, d) :: l) = (h0, d) :: without_handle h l.
Proof.
  intros h h0 d l Hne. unfold without_handle. cbn [filter fst].
  rewrite (addr_eqb_neq h0 h Hne). reflexivity.
Qed.

Lemma without_handle_absent :
  forall l h, ~ In h (map fst l) -> without_handle h l = l.
Proof.
  intros l h. induction l as [|[h' d] l IH]; intros Hn; [reflexivity|].
  destruct (addr_eq_dec h' h) as [->|Hne].
  - exfalso. apply Hn. left. reflexivity.
  - rewrite without_handle_cons_other by exact Hne. rewrite IH;
      [reflexivity|].
    intros Hin. apply Hn. right. exact Hin.
Qed.

Lemma without_handle_device_of :
  forall l h,
    device_of (without_handle h l) h = None /\
    forall h', h' <> h -> device_of (without_handle h l) h' = device_of l h'.
Proof.
  intros l h.
  induction l as [|[h0 d0] l [IH1 IH2]]; [split; reflexivity|].
  destruct (addr_eq_dec h0 h) as [->|Hne].
  - rewrite without_handle_cons_same.
    split; [exact IH1|]. intros h' Hh'. cbn [device_of].
    destruct (addr_eq_dec h h') as [->|_]; [contradiction|].
    apply IH2. exact Hh'.
  - rewrite without_handle_cons_other by exact Hne. split.
    + cbn [device_of]. destruct (addr_eq_dec h0 h); [contradiction|].
      exact IH1.
    + intros h' Hh'. cbn [device_of].
      destruct (addr_eq_dec h0 h'); [reflexivity|]. apply IH2. exact Hh'.
Qed.

(** The lookup of Unregister goes through the address of the stored device
    id; in a list where that address tells the handle, it finds and removes
    the device of the handle. *)
Lemma remove_by_own_id :
  forall l h d,
    NoDup (map fst l) -> id_address_tells_handle l ->
    device_of l h = Some d ->
    singlylinkedlist_find l (Some (STRING_c_str (device_id d))) <> None /\
    singlylinkedlist_remove l (Some (STRING_c_str (device_id d)))
      = without_handle h l.
Proof.
  induction l as [|[h0 d0] l IH]; intros h d Hnd Hid Hdev; [discriminate|].
  cbn [device_of] in Hdev. inversion Hnd as [|? ? Hh0 Hnd']; subst.
  unfold singlylinkedlist_find in *.
  cbn [find singlylinkedlist_remove].
  destruct (addr_eq_dec h0 h) as [->|Hne].
  - injection Hdev as ->. unfold find_device_by_id_callback. cbn [snd].
    destruct (addr_eq_dec _ _) as [_|Hc]; [|exfalso; apply Hc; reflexivity].
    split; [discriminate|]. rewrite without_handle_cons_same. symmetry.
    apply (without_handle_absent l h). exact Hh0.
  - assert (Hin : In (h, d) l) by (apply device_of_In; exact Hdev).
    assert (Hcb : find_device_by_id_callback (h0, d0)
                    (Some (STRING_c_str (device_id d))) = false).
    { unfold find_device_by_id_callback. cbn [snd].
      destruct (addr_eq_dec _ _) as [Hc|_]; [|reflexivity].
      exfalso. apply Hne.
      apply (Hid h0 d0 h d); [left; reflexivity|right; exact Hin|exact Hc]. }
    rewrite Hcb. rewrite without_handle_cons_other by exact Hne.
    destruct (IH h d Hnd') as [Hf Hr]; [|exact Hdev|].
    + intros h1 d1 h2 d2 H1 H2. apply Hid; right; assumption.
    + split; [exact Hf|]. f_equal. exact Hr.
Qed.

Lemma world_with_A_and_B_is_reachable : reachable world_with_A_and_B.
Proof.
  eapply (run_reachable registrations_of_A_and_B fresh_world).
  - eapply reachable_create. apply fresh_world_is_created.
  - vm_compute. reflexivity.
Qed.

(** X13.  In every world a live transport can reach (created, then driven by
    any operations and callbacks), no two registered devices share their
    handle, the address of their stored device id, or their device
    session. *)
Theorem reachable_registry_has_distinct_devices :
  forall w,
    reachable w ->
    NoDup (registered_handles w) /\ NoDup (registered_id_addresses w) /\
    NoDup (registered_sessions w).
Proof.
  intros w H. apply layout_handles. apply reachable_layout. exact H.
Qed.

Lemma reachable_registry_has_distinct_devices_witness :
  NoDup (registered_handles world_with_A_and_B) /\
  NoDup (registered_id_addresses world_with_A_and_B) /\
  NoDup (registered_sessions world_with_A_and_B).
Proof.
  apply (reachable_registry_has_distinct_devices world_with_A_and_B).
  apply world_with_A_and_B_is_reachable.
Defined.

(** X14.  In every world a live transport can reach, unregistering the
    handle of a registered device removes that device and no other from the
    registry, and destroys its device session and nothing else: afterwards
    the handle is no longer registered, and every other handle still leads to
    the device it led to. *)
Theorem unregister_removes_exactly_the_device :
  forall w h d,
    reachable w ->
    device_of (registered_devices (w_transport w)) h = Some d ->
    let l := registered_devices (w_transport w) in
    IoTHubTransport_AMQP_Common_Unregister w (Some h)
      = (set_transport w
           (set_registered_devices (w_transport w) (without_handle h l)),
         [call_device_destroy (device_handle d)]) /\
    device_of (without_handle h l) h = None /\
    (forall h', h' <> h ->
                device_of (without_handle h l) h' = device_of l h').
Proof.
  intros w h d Hw Hdev. cbv zeta.
  pose proof (reachable_layout w Hw) as Hl.
  destruct (layout_handles w Hl) as (Hnd & _).
  pose proof (layout_id_address_tells_handle w Hl) as Hid.
  destruct (remove_by_own_id _ h d Hnd Hid Hdev) as [Hfind Hrem].
  split; [|apply without_handle_device_of].
  unfold IoTHubTransport_AMQP_Common_Unregister. rewrite Hdev.
  unfold is_device_registered_ex.
  destruct (singlylinkedlist_find _ _); [|contradiction].
  rewrite Hrem. reflexivity.
Qed.

Lemma unregister_removes_exactly_the_device_witness :
  IoTHubTransport_AMQP_Common_Unregister world_with_A_and_B
    (Some (heap_ptr 6))
    = (set_transport world_with_A_and_B
         (set_registered_devices (w_transport world_with_A_and_B)
            (without_handle (heap_ptr 6)
               (registered_devices (w_transport world_with_A_and_B)))),
       [call_device_destroy (device_handle device_B)]) /\
  device_of
    (without_handle (heap_ptr 6)
       (registered_devices (w_transport world_with_A_and_B)))
    (heap_ptr 6) = None /\
  (forall h', h' <> heap_ptr 6 ->
              device_of
                (without_handle (heap_ptr 6)
                   (registered_devices (w_transport world_with_A_and_B))) h'
              = device_of
                  (registered_devices (w_transport world_with_A_and_B)) h').
Proof.
  apply (unregister_removes_exactly_the_device world_with_A_and_B
           (heap_ptr 6) device_B).
  - apply world_with_A_and_B_is_reachable.
  - reflexivity.
Defined.

Lemma unregister_each_head :
  forall l w,
    registered_devices (w_transport w) = l ->
    unregister_each w (map fst l)
    = (set_transport w (set_registered_devices (w_transport w) []),
       map device_destroy_of l).
Proof.
  induction l as [|[h d] l IH]; intros w Hregs.
  - simpl. destruct w as [n t]. destruct t. simpl in *. subst. reflexivity.
  - cbn [map fst unregister_each].
    unfold IoTHubTransport_AMQP_Common_Unregister. rewrite Hregs.
    cbn [device_of]. destruct (addr_eq_dec h h) as [_|Hc];
      [|exfalso; apply Hc; reflexivity].
    unfold is_device_registered_ex, singlylinkedlist_find.
    cbn [find singlylinkedlist_remove].
    assert (Hcb : find_device_by_id_callback (h, d)
                    (Some (STRING_c_str (device_id d))) = true).
    { unfold find_device_by_id_callback. cbn [snd].
      destruct (addr_eq_dec _ _) as [_|Hc]; [reflexivity|].
      exfalso. apply Hc. reflexivity. }
    rewrite Hcb.
    rewrite (IH (set_transport w (set_registered_devices (w_transport w) l)));
      [|destruct (w_transport w); reflexivity].
    unfold internal_destroy_amqp_device_instance.
    destruct w as [n t]. destruct t. reflexivity.
Qed.

(** X15.  Destroying a transport destroys the device session of every
    registered device exactly once, in the order of registration, then the
    connection if there is one, then the byte-stream if there is one, then
    the cached byte-stream options if there are any. *)
Theorem destroy_tears_down_devices_then_instance :
  forall w,
    IoTHubTransport_AMQP_Common_Destroy w
    = map device_destroy_of (registered_devices (w_transport w))
      ++ instance_teardown_calls (w_transport w).
Proof.
  intros w. unfold IoTHubTransport_AMQP_Common_Destroy.
  rewrite (unregister_each_head (registered_devices (w_transport w)) w
             eq_refl).
  unfold instance_teardown_calls, destroy_underlying_io_transport,
    destroy_underlying_io_transport_options.
  destruct w as [n t].
  destruct t as [fq io conn st mode regs tron saved retry o1 o2 o3 o4].
  cbn. destruct conn, io, saved; reflexivity.
Qed.

(** ** Options (lines 1054-1094, 1496-1618) *)

Lemma x509_option_is_for_the_stream :
  forall t name v,
    is_x509_option name ->
    save_device_specific_option t name v = (false, t) /\
    String.eqb OPTION_LOG_TRACE name = false /\
    String.eqb OPTION_X509_CERT name || String.eqb OPTION_X509_PRIVATE_KEY name
      = true.
Proof.
  intros t name v [-> | ->]; repeat split; reflexivity.
Qed.

Lemma set_transport_same : forall w, set_transport w (w_transport w) = w.
Proof. intros [n t]. reflexivity. Qed.

Lemma SetOption_xio_result :
  forall env w name,
    fst (fst (SetOption_xio env w name)) <> IOTHUB_CLIENT_INVALID_ARG.
Proof.
  intros env w name. unfold SetOption_xio.
  repeat (break_inner; cbn [fst snd] in *; try discriminate).
Qed.

Lemma x509_option_mode :
  forall env w name v,
    is_x509_option name ->
    let res :=
      IoTHubTransport_AMQP_Common_SetOption env w (Some name) (Some v) in
    match preferred_authentication_mode (w_transport w) with
    | AMQP_TRANSPORT_AUTHENTICATION_MODE_CBS =>
        res = (IOTHUB_CLIENT_INVALID_ARG, w, [])
    | _ =>
        preferred_authentication_mode (w_transport (snd (fst res)))
          = AMQP_TRANSPORT_AUTHENTICATION_MODE_X509 /\
        fst (fst res) <> IOTHUB_CLIENT_INVALID_ARG
    end.
Proof.
  intros env w name v Hname. cbv zeta.
  unfold IoTHubTransport_AMQP_Common_SetOption.
  destruct (x509_option_is_for_the_stream (w_transport w) name v Hname)
    as (-> & -> & ->).
  destruct (preferred_authentication_mode (w_transport w)) eqn:Hmode.
  - destruct (AUTHENTICATION_MODE_eq_dec _ _) as [_|Hc];
      [|exfalso; apply Hc; reflexivity].
    pose proof (SetOption_xio_frame env
                  (set_transport w
                     (set_preferred_authentication_mode (w_transport w)
                        AMQP_TRANSPORT_AUTHENTICATION_MODE_X509)) name) as Hx.
    pose proof (SetOption_xio_result env
                  (set_transport w
                     (set_preferred_authentication_mode (w_transport w)
                        AMQP_TRANSPORT_AUTHENTICATION_MODE_X509)) name) as Hr.
    destruct (SetOption_xio env _ name) as [[r w1] tr].
    cbv zeta in Hx. destruct Hx as (Hm & _). cbn [fst snd] in *.
    split; [rewrite Hm; reflexivity|exact Hr].
  - destruct (AUTHENTICATION_MODE_eq_dec _ _) as [Hc|_]; [discriminate Hc|].
    destruct (AUTHENTICATION_MODE_eq_dec _ _) as [Hc|_]; [discriminate Hc|].
    rewrite set_transport_same. reflexivity.
  - destruct (AUTHENTICATION_MODE_eq_dec _ _) as [Hc|_]; [discriminate Hc|].
    destruct (AUTHENTICATION_MODE_eq_dec _ _) as [_|Hc];
      [|exfalso; apply Hc; reflexivity].
    pose proof (SetOption_xio_frame env (set_transport w (w_transport w))
                  name) as Hx.
    pose proof (SetOption_xio_result env (set_transport w (w_transport w))
                  name) as Hr.
    destruct (SetOption_xio env _ name) as [[r w1] tr].
    cbv zeta in Hx. destruct Hx as (Hm & _). cbn [fst snd] in *.
    split; [rewrite Hm; cbn; exact Hmode|].
    destruct r; try discriminate. exfalso. apply Hr. reflexivity.
Qed.

(** X16.  Setting the option x509certificate or x509privatekey follows the
    preferred authentication mode.  On a CBS transport the call returns
    InvalidArg, changes nothing and calls no collaborator: the option does
    not reach the byte-stream.  On a transport whose mode is unset or X509
    the mode is X509 when the call returns, whether or not the byte-stream
    took the option, and the call does not return InvalidArg. *)
Theorem x509_option_follows_the_mode :
  forall env w name v,
    is_x509_option name ->
    let res :=
      IoTHubTransport_AMQP_Common_SetOption env w (Some name) (Some v) in
    match preferred_authentication_mode (w_transport w) with
    | AMQP_TRANSPORT_AUTHENTICATION_MODE_CBS =>
        res = (IOTHUB_CLIENT_INVALID_ARG, w, [])
    | _ =>
        preferred_authentication_mode (w_transport (snd (fst res)))
          = AMQP_TRANSPORT_AUTHENTICATION_MODE_X509 /\
        fst (fst res) <> IOTHUB_CLIENT_INVALID_ARG
    end.
Proof. exact x509_option_mode. Qed.

Lemma x509_option_follows_the_mode_witness :
  IoTHubTransport_AMQP_Common_SetOption env_ok world_with_A_and_B
    (Some OPTION_X509_CERT) a_certificate
  = (IOTHUB_CLIENT_INVALID_ARG, world_with_A_and_B, []).
Proof.
  apply (x509_option_follows_the_mode env_ok world_with_A_and_B
           OPTION_X509_CERT (mk_option_value 0 false)).
  left. reflexivity.
Defined.

(** X17.  Once a certificate option was set on a transport that was not in
    CBS mode, no device that carries a key or a SAS token can be registered:
    Register returns NULL, leaves the transport as SetOption left it, and
    creates no device session. *)
Theorem x509_option_locks_out_key_devices :
  forall env env' w name v device client q,
    is_x509_option name ->
    preferred_authentication_mode (w_transport w) <>
      AMQP_TRANSPORT_AUTHENTICATION_MODE_CBS ->
    not_NULL (deviceKey device) || not_NULL (deviceSasToken device) = true ->
    let w1 :=
      snd (fst (IoTHubTransport_AMQP_Common_SetOption env w (Some name)
                  (Some v))) in
    IoTHubTransport_AMQP_Common_Register env' w1 (Some device) client q
    = (None, w1, []).
Proof.
  intros env env' w name v device client q Hname Hmode Hcred. cbv zeta.
  pose proof (x509_option_mode env w name v Hname) as Hx. cbv zeta in Hx.
  assert (Hm : preferred_authentication_mode
                 (w_transport
                    (snd (fst (IoTHubTransport_AMQP_Common_SetOption env w
                                 (Some name) (Some v)))))
               = AMQP_TRANSPORT_AUTHENTICATION_MODE_X509).
  { destruct (preferred_authentication_mode (w_transport w));
      [apply Hx|contradiction|apply Hx]. }
  unfold IoTHubTransport_AMQP_Common_Register.
  destruct q as [q|]; [|reflexivity].
  destruct client as [client|]; [|reflexivity].
  destruct (deviceId device) as [id|]; [|reflexivity].
  destruct (not_NULL (is_device_registered_ex _ _)); [reflexivity|].
  rewrite Hm. unfold is_device_credential_acceptable.
  destruct (not_NULL (deviceSasToken device) && not_NULL (deviceKey device));
    [reflexivity|].
  destruct (AUTHENTICATION_MODE_eq_dec _ _) as [Hc|_]; [discriminate Hc|].
  destruct (AUTHENTICATION_MODE_eq_dec _ _) as [_|Hc];
    [|exfalso; apply Hc; reflexivity].
  rewrite Hcred. reflexivity.
Qed.

Lemma x509_option_locks_out_key_devices_witness :
  IoTHubTransport_AMQP_Common_Register env_ok
    (snd (fst (IoTHubTransport_AMQP_Common_SetOption env_ok fresh_world
                 (Some OPTION_X509_PRIVATE_KEY) a_certificate)))
    device_A_with_key a_client empty_queue
  = (None,
     snd (fst (IoTHubTransport_AMQP_Common_SetOption env_ok fresh_world
                 (Some OPTION_X509_PRIVATE_KEY) a_certificate)),
     []).
Proof.
  apply (x509_option_locks_out_key_devices env_ok env_ok fresh_world
           OPTION_X509_PRIVATE_KEY (mk_option_value 0 false)
           (mk_device_config (Some (mk_cstr (user_ptr 0) "A"))
              (Some (mk_cstr (user_ptr 1) "K")) None)
           a_client empty_queue).
  - right. reflexivity.
  - vm_compute. discriminate.
  - reflexivity.
Defined.

Lemma Device_SetOption_loop_result :
  forall env o v l,
    (fst (Device_SetOption_loop env o v l) = RESULT_OK <->
     every_device_accepts env o l = true) /\
    (fst (Device_SetOption_loop env o v l) = RESULT_OK ->
     snd (Device_SetOption_loop env o v l) = set_option_calls o v true l).
Proof.
  intros env o v l. induction l as [|[h d] l [IH1 IH2]].
  - split; [split; reflexivity|reflexivity].
  - cbn [Device_SetOption_loop every_device_accepts forallb snd].
    destruct (env_device_set_option env (device_handle d) o);
      cbn [negb andb].
    + destruct (Device_SetOption_loop env o v l) as [r tr]. cbn [fst snd] in *.
      split; [exact IH1|]. intros Hr.
      unfold set_option_calls in *. cbn [map snd]. rewrite (IH2 Hr).
      reflexivity.
    + split; [split; discriminate|discriminate].
Qed.

(** X18.  Setting one of the four device-scoped options returns Ok exactly
    when every registered device session accepts the option; then the calls
    made are one [device_set_option] per registered device, in the order of
    registration, each with the new value. *)
Theorem device_option_reaches_every_device :
  forall env w name v o,
    get_device_option_name_from name = Some o ->
    let res :=
      IoTHubTransport_AMQP_Common_SetOption env w (Some name) (Some v) in
    let l := registered_devices (w_transport w) in
    (fst (fst res) = IOTHUB_CLIENT_OK <-> every_device_accepts env o l = true)
    /\
    (fst (fst res) = IOTHUB_CLIENT_OK ->
     snd res = set_option_calls o (as_size_t v) true l).
Proof.
  intros env w name v o Hname. cbv zeta.
  unfold IoTHubTransport_AMQP_Common_SetOption.
  rewrite (save_device_specific_option_stores _ _ v _ Hname).
  unfold IoTHubTransport_AMQP_Common_Device_SetOption. rewrite Hname.
  assert (Hregs : registered_devices
                    (set_transport_option (w_transport w) o (as_size_t v))
                  = registered_devices (w_transport w))
    by (destruct o; reflexivity).
  rewrite Hregs.
  destruct (Device_SetOption_loop_result env o (as_size_t v)
              (registered_devices (w_transport w))) as [H1 H2].
  destruct (Device_SetOption_loop env o (as_size_t v)
              (registered_devices (w_transport w))) as [[|] tr];
    cbn [fst snd] in *.
  - split; [|intros _; apply H2; reflexivity].
    split; [intros _; apply H1; reflexivity|reflexivity].
  - split; [|discriminate].
    split; [discriminate|]. intros Hall. apply H1 in Hall. discriminate Hall.
Qed.

Lemma device_option_reaches_every_device_witness :
  (fst (fst (IoTHubTransport_AMQP_Common_SetOption env_ok world_with_A_and_B
               (Some OPTION_EVENT_SEND_TIMEOUT_SECS)
               (Some (mk_option_value 120 false))))
   = IOTHUB_CLIENT_OK <->
   every_device_accepts env_ok DEVICE_OPTION_EVENT_SEND_TIMEOUT_SECS
     (registered_devices (w_transport world_with_A_and_B)) = true) /\
  (fst (fst (IoTHubTransport_AMQP_Common_SetOption env_ok world_with_A_and_B
               (Some OPTION_EVENT_SEND_TIMEOUT_SECS)
               (Some (mk_option_value 120 false))))
   = IOTHUB_CLIENT_OK ->
   snd (IoTHubTransport_AMQP_Common_SetOption env_ok world_with_A_and_B
          (Some OPTION_EVENT_SEND_TIMEOUT_SECS)
          (Some (mk_option_value 120 false)))
   = set_option_calls DEVICE_OPTION_EVENT_SEND_TIMEOUT_SECS 120 true
       (registered_devices (w_transport world_with_A_and_B))).
Proof.
  apply (device_option_reaches_every_device env_ok world_with_A_and_B
           OPTION_EVENT_SEND_TIMEOUT_SECS (mk_option_value 120 false)
           DEVICE_OPTION_EVENT_SEND_TIMEOUT_SECS).
  reflexivity.
Defined.

(** X19.  The option logtrace stores the flag, and applies it to the
    connection when there is one: the call returns Ok unless a connection
    exists and refuses the flag, and the flag is stored either way.  A
    connection created by the next tick is created with the stored flag. *)
Theorem trace_flag_is_stored_and_applied :
  forall env w v,
    let res :=
      IoTHubTransport_AMQP_Common_SetOption env w (Some OPTION_LOG_TRACE)
        (Some v) in
    let w' := snd (fst res) in
    is_trace_on (w_transport w') = as_bool v /\
    snd res
      = match amqp_connection (w_transport w) with
        | Some c =>
            [call_amqp_connection_set_logging c (as_bool v)
               (env_amqp_connection_set_logging env)]
        | None => []
        end /\
    (fst (fst res) = IOTHUB_CLIENT_OK <->
     amqp_connection (w_transport w) = None \/
     env_amqp_connection_set_logging env = true) /\
    forall env' io trace_on sasl cbs ok,
      In (call_amqp_connection_create io trace_on sasl cbs ok)
        (snd (IoTHubTransport_AMQP_Common_DoWork env' w')) ->
      trace_on = as_bool v.
Proof.
  intros env w v. cbv zeta.
  assert (Hcreate : forall w',
            is_trace_on (w_transport w') = as_bool v ->
            forall env' io trace_on sasl cbs ok,
              In (call_amqp_connection_create io trace_on sasl cbs ok)
                (snd (IoTHubTransport_AMQP_Common_DoWork env' w')) ->
              trace_on = as_bool v).
  { intros w' Hflag env' io trace_on sasl cbs ok Hin.
    pose proof (DoWork_connection_create env' w' io trace_on sasl cbs ok Hin)
      as H. cbv zeta in H.
    destruct H as (_ & _ & _ & _ & _ & _ & Ht & _). congruence. }
  unfold IoTHubTransport_AMQP_Common_SetOption.
  change (save_device_specific_option (w_transport w) OPTION_LOG_TRACE v)
    with (false, w_transport w).
  change (String.eqb OPTION_LOG_TRACE OPTION_LOG_TRACE) with true.
  cbv beta iota zeta.
  assert (Hconn : amqp_connection (set_is_trace_on (w_transport w) (as_bool v))
                  = amqp_connection (w_transport w))
    by (destruct (w_transport w); reflexivity).
  assert (Hflag : is_trace_on (set_is_trace_on (w_transport w) (as_bool v))
                  = as_bool v)
    by (destruct (w_transport w); reflexivity).
  rewrite Hconn, Hflag.
  destruct (amqp_connection (w_transport w)) as [c|].
  - destruct (env_amqp_connection_set_logging env); cbn [negb fst snd].
    + repeat split; try (apply Hcreate; exact Hflag); try exact Hflag.
      intros _. right. reflexivity.
    + repeat split; try (apply Hcreate; exact Hflag); try exact Hflag.
      * discriminate.
      * intros [H|H]; discriminate H.
  - cbn [fst snd].
    repeat split; try (apply Hcreate; exact Hflag); try exact Hflag.
    intros _. left. reflexivity.
Qed.

(** ** What every operation keeps (lines 1131-1201, 1846-1864) *)

Lemma keeps_endpoint_refl : forall w, keeps_endpoint w w.
Proof. intros w. split; [reflexivity|auto]. Qed.

Lemma keeps_endpoint_trans :
  forall w1 w2 w3,
    keeps_endpoint w1 w2 -> keeps_endpoint w2 w3 -> keeps_endpoint w1 w3.
Proof.
  intros w1 w2 w3 [H1 H2] [H3 H4]. split; [congruence|auto].
Qed.

Lemma keeps_endpoint_frame :
  forall w w',
    iothub_host_fqdn (w_transport w') = iothub_host_fqdn (w_transport w) ->
    tls_io (w_transport w') = tls_io (w_transport w) ->
    amqp_connection (w_transport w') = amqp_connection (w_transport w) ->
    keeps_endpoint w w'.
Proof.
  intros w w' H1 H2 H3. split; [exact H1|].
  unfold connection_has_stream. rewrite H2, H3. auto.
Qed.

Lemma save_underlying_io_transport_options_keeps_endpoint :
  forall env w,
    keeps_endpoint w (snd (fst (save_underlying_io_transport_options env w))).
Proof.
  intros env w. unfold save_underlying_io_transport_options.
  cbv beta iota zeta delta [alloc].
  repeat break_inner; apply keeps_endpoint_frame; reflexivity.
Qed.

Lemma create_amqp_connection_keeps_endpoint :
  forall env w io,
    tls_io (w_transport w) = Some io ->
    keeps_endpoint w (snd (fst (create_amqp_connection env w io))).
Proof.
  intros env w io Hio. unfold create_amqp_connection.
  cbv beta iota zeta delta [alloc].
  destruct (env_amqp_connection_create env); endpoint_done.
Qed.

Lemma establish_amqp_connection_keeps_endpoint :
  forall env w,
    amqp_connection (w_transport w) = None ->
    keeps_endpoint w (snd (fst (establish_amqp_connection env w))).
Proof.
  intros env w Hnone. unfold establish_amqp_connection. cbv zeta.
  destruct (AUTHENTICATION_MODE_eq_dec _ _); [apply keeps_endpoint_refl|].
  destruct (tls_io (w_transport w)) as [io|] eqn:Hio;
    [apply create_amqp_connection_keeps_endpoint; exact Hio|].
  pose proof (get_new_underlying_io_transport_next env w) as Hn.
  destruct (get_new_underlying_io_transport env w) as [[[r io] w1] tr].
  cbv zeta in Hn. cbn [fst snd] in Hn. destruct Hn as [Ht _].
  assert (Hk : keeps_endpoint w
                 (set_transport w1 (set_tls_io (w_transport w1) io))).
  { unfold keeps_endpoint, connection_has_stream. cbn. rewrite Ht.
    split; [reflexivity|]. intros _ Hc. congruence. }
  destruct r; [|exact Hk]. destruct io as [io|]; [|exact Hk].
  pose proof (create_amqp_connection_keeps_endpoint env
                (set_transport w1 (set_tls_io (w_transport w1) (Some io))) io
                eq_refl) as Hc.
  destruct (create_amqp_connection env _ io) as [[r2 w3] tr2].
  cbn [fst snd] in *. eapply keeps_endpoint_trans; eassumption.
Qed.

Lemma prepare_for_connection_retry_keeps_endpoint :
  forall env w, keeps_endpoint w (fst (prepare_for_connection_retry env w)).
Proof.
  intros env w. unfold prepare_for_connection_retry.
  pose proof (save_underlying_io_transport_options_keeps_endpoint env w)
    as [Hf _].
  destruct (save_underlying_io_transport_options env w) as [[r w1] tr].
  cbn [fst snd] in Hf.
  destruct (prepare_devices_for_connection_retry env _) as [devices trd].
  cbv zeta. unfold destroy_underlying_io_transport.
  cbn [tls_io set_amqp_connection_state set_amqp_connection
       set_registered_devices].
  destruct (tls_io (w_transport w1)); cbn [fst]; split; cbn;
    try exact Hf; intros _ Hc; exfalso; apply Hc; reflexivity.
Qed.

Lemma DoWork_connected_keeps_endpoint :
  forall env w, keeps_endpoint w (fst (DoWork_connected env w)).
Proof.
  intros env w. unfold DoWork_connected.
  destruct (registered_devices (w_transport w)) eqn:Hregs;
    [apply keeps_endpoint_refl|]. clear Hregs.
  assert (Hloop : forall w1 tr_conn,
            keeps_endpoint w w1 ->
            keeps_endpoint w
              (fst (let '(devices, flag, tr) :=
                      DoWork_devices env (w_transport w1)
                        (registered_devices (w_transport w1)) in
                    (set_transport w1
                       (if flag
                        then set_is_connection_retry_required
                               (set_registered_devices (w_transport w1)
                                  devices) true
                        else set_registered_devices (w_transport w1) devices),
                     tr_conn ++ tr)))).
  { intros w1 tr_conn Hk.
    destruct (DoWork_devices env (w_transport w1)
                (registered_devices (w_transport w1)))
      as [[devices flag] tr].
    apply (keeps_endpoint_trans w w1); [exact Hk|].
    destruct flag; apply keeps_endpoint_frame; reflexivity. }
  destruct (amqp_connection (w_transport w)) eqn:Hc.
  - destruct (AMQP_CONNECTION_STATE_eq_dec _ _); [|apply keeps_endpoint_refl].
    apply Hloop. apply keeps_endpoint_refl.
  - pose proof (establish_amqp_connection_keeps_endpoint env w Hc) as He.
    destruct (establish_amqp_connection env w) as [[r w1] tr_conn].
    cbn [fst snd] in He.
    destruct r; [|exact He].
    destruct (AMQP_CONNECTION_STATE_eq_dec _ _); [|exact He].
    apply Hloop. exact He.
Qed.

Lemma DoWork_keeps_endpoint :
  forall env w,
    keeps_endpoint w (fst (IoTHubTransport_AMQP_Common_DoWork env w)).
Proof.
  intros env w. unfold IoTHubTransport_AMQP_Common_DoWork.
  destruct (is_connection_retry_required (w_transport w)).
  - pose proof (prepare_for_connection_retry_keeps_endpoint env w) as H.
    destruct (prepare_for_connection_retry env w) as [w1 tr].
    cbn [fst] in H.
    assert (H' : keeps_endpoint w
                   (set_transport w1
                      (set_is_connection_retry_required (w_transport w1)
                         false)))
      by (eapply keeps_endpoint_trans; [exact H|];
          apply keeps_endpoint_frame; reflexivity).
    simpl. destruct (amqp_connection (w_transport w1)); exact H'.
  - pose proof (DoWork_connected_keeps_endpoint env w) as H.
    destruct (DoWork_connected env w) as [w1 tr]. simpl in H.
    destruct (amqp_connection (w_transport w1)); exact H.
Qed.

Lemma SetOption_xio_keeps_endpoint :
  forall env w name,
    keeps_endpoint w (snd (fst (SetOption_xio env w name))).
Proof.
  intros env w name. unfold SetOption_xio.
  destruct (tls_io (w_transport w)) as [io|] eqn:Hio.
  - rewrite Hio. destruct (negb (env_xio_setoption env));
      [apply keeps_endpoint_refl|].
    pose proof (save_underlying_io_transport_options_keeps_endpoint env w)
      as Hs.
    destruct (save_underlying_io_transport_options env w) as [[r w2] tr].
    exact Hs.
  - pose proof (get_new_underlying_io_transport_next env w) as Hn.
    destruct (get_new_underlying_io_transport env w) as [[[r io] w1] tr].
    cbv zeta in Hn. cbn [fst snd] in Hn. destruct Hn as [Ht _].
    assert (Hk : keeps_endpoint w
                   (set_transport w1 (set_tls_io (w_transport w1) io))).
    { unfold keeps_endpoint, connection_has_stream. cbn. rewrite Ht.
      split; [reflexivity|]. intros H Hc. specialize (H Hc). congruence. }
    destruct r; [|exact Hk].
    cbn [w_transport set_transport tls_io set_tls_io].
    destruct io as [io|]; [|exact Hk].
    destruct (negb (env_xio_setoption env)); [exact Hk|].
    pose proof (save_underlying_io_transport_options_keeps_endpoint env
                  (set_transport w1 (set_tls_io (w_transport w1) (Some io))))
      as Hs.
    destruct (save_underlying_io_transport_options env _) as [[r2 w2] tr2].
    cbn [fst snd] in *. eapply keeps_endpoint_trans; eassumption.
Qed.

Lemma SetOption_keeps_endpoint :
  forall env w name v,
    keeps_endpoint w
      (snd (fst (IoTHubTransport_AMQP_Common_SetOption env w name v))).
Proof.
  intros env w name v. unfold IoTHubTransport_AMQP_Common_SetOption.
  destruct name as [name|]; [|apply keeps_endpoint_refl].
  destruct v as [v|]; [|apply keeps_endpoint_refl].
  assert (Hs : let t1 := snd (save_device_specific_option (w_transport w)
                                name v) in
               iothub_host_fqdn t1 = iothub_host_fqdn (w_transport w) /\
               tls_io t1 = tls_io (w_transport w) /\
               amqp_connection t1 = amqp_connection (w_transport w)).
  { unfold save_device_specific_option.
    repeat break_inner; repeat split; reflexivity. }
  destruct (save_device_specific_option (w_transport w) name v)
    as [specific t1].
  cbv zeta in Hs. cbn [snd] in Hs. destruct Hs as (Hf & Hio & Hc).
  destruct specific.
  - destruct (IoTHubTransport_AMQP_Common_Device_SetOption env t1 name v)
      as [[|] tr]; apply keeps_endpoint_frame; assumption.
  - destruct (String.eqb OPTION_LOG_TRACE name).
    + cbv zeta.
      destruct (amqp_connection (set_is_trace_on t1 (as_bool v)));
        [destruct (negb _)|]; apply keeps_endpoint_frame; assumption.
    + match goal with
      | |- context [let '(result, t2) := ?e in _] =>
          assert (Ht2 : iothub_host_fqdn (snd e) = iothub_host_fqdn t1 /\
                        tls_io (snd e) = tls_io t1 /\
                        amqp_connection (snd e) = amqp_connection t1)
            by (repeat break_inner; repeat split; reflexivity);
          destruct e as [result t2]
      end.
      cbn [snd] in Ht2. destruct Ht2 as (Hf2 & Hio2 & Hc2).
      assert (Hk : keeps_endpoint w (set_transport w t2))
        by (apply keeps_endpoint_frame; cbn; congruence).
      destruct result; try exact Hk;
        (eapply keeps_endpoint_trans; [exact Hk|];
         apply SetOption_xio_keeps_endpoint).
Qed.

Lemma Register_keeps_endpoint :
  forall env w device client q,
    keeps_endpoint w
      (snd (fst (IoTHubTransport_AMQP_Common_Register env w device client
                   q))).
Proof.
  intros env w device client q.
  unfold IoTHubTransport_AMQP_Common_Register.
  destruct device as [device|]; [|apply keeps_endpoint_refl].
  destruct q as [q|]; [|apply keeps_endpoint_refl].
  destruct client as [client|]; [|apply keeps_endpoint_refl].
  destruct (deviceId device) as [id|]; [|apply keeps_endpoint_refl].
  destruct (not_NULL _); [apply keeps_endpoint_refl|].
  destruct (negb (is_device_credential_acceptable _ _));
    [apply keeps_endpoint_refl|].
  unfold create_and_add_device. cbv beta iota zeta delta [alloc].
  destruct (negb (env_malloc env 0)); [apply keeps_endpoint_refl|].
  destruct (negb (env_STRING_construct env));
    [apply keeps_endpoint_frame; reflexivity|].
  destruct (negb (env_device_create env));
    [apply keeps_endpoint_frame; reflexivity|].
  destruct (replicate_device_options_to _ _ _ _) as [[|] tr_options];
    [|apply keeps_endpoint_frame; reflexivity].
  destruct (negb (env_singlylinkedlist_add env));
    [apply keeps_endpoint_frame; reflexivity|].
  apply keeps_endpoint_frame; cbn [fst snd w_transport set_transport];
    unfold save_preferred_authentication_mode;
    repeat break_inner; reflexivity.
Qed.

Lemma Unregister_keeps_endpoint :
  forall w h,
    keeps_endpoint w (fst (IoTHubTransport_AMQP_Common_Unregister w h)).
Proof.
  intros w h. unfold IoTHubTransport_AMQP_Common_Unregister.
  repeat break_inner; try apply keeps_endpoint_refl.
  apply keeps_endpoint_frame; reflexivity.
Qed.

Lemma step_keeps_endpoint :
  forall op w w' tr, step op w = Some (w', tr) -> keeps_endpoint w w'.
Proof.
  intros op w w' tr Hstep.
  destruct op as [env device client q | h | env name value | env |
                  | h m | env md disposition | env message info ctx
                  | now ctx prev new | ctx m result | prev new];
    cbn [step] in Hstep.
  - pose proof (Register_keeps_endpoint env w device client q) as H.
    destruct (IoTHubTransport_AMQP_Common_Register env w device client q)
      as [[r w1] tr1].
    injection Hstep as <- _. exact H.
  - pose proof (Unregister_keeps_endpoint w h) as H.
    destruct (IoTHubTransport_AMQP_Common_Unregister w h) as [w1 tr1].
    injection Hstep as <- _. exact H.
  - pose proof (SetOption_keeps_endpoint env w name value) as H.
    destruct (IoTHubTransport_AMQP_Common_SetOption env w name value)
      as [[r w1] tr1].
    injection Hstep as <- _. exact H.
  - pose proof (DoWork_keeps_endpoint env w) as H.
    destruct (IoTHubTransport_AMQP_Common_DoWork env w).
    injection Hstep as <- _. exact H.
  - discriminate.
  - injection Hstep as <- _. apply keeps_endpoint_frame; reflexivity.
  - destruct (IoTHubTransport_AMQP_Common_SendMessageDisposition env w
                md disposition) as [[[r w1] tr1]|] eqn:Hsend;
      [|discriminate].
    injection Hstep as <- _.
    apply keeps_endpoint_frame;
      rewrite (SendMessageDisposition_frame _ _ _ _ _ _ _ Hsend); reflexivity.
  - destruct (on_message_received env w message info ctx)
      as [[[[r md] w1] tr1]|] eqn:Hrx; [|discriminate].
    injection Hstep as <- _.
    apply keeps_endpoint_frame;
      rewrite (on_message_received_frame _ _ _ _ _ _ _ _ _ Hrx); reflexivity.
  - injection Hstep as <- _. apply keeps_endpoint_frame; reflexivity.
  - destruct (device_of _ _) as [d|]; [|discriminate].
    destruct (on_event_send_complete m result d) as [d' tr1].
    injection Hstep as <- _. apply keeps_endpoint_frame; reflexivity.
  - unfold on_amqp_connection_state_changed in Hstep.
    destruct (AMQP_CONNECTION_STATE_eq_dec new prev);
      [injection Hstep as <- _; apply keeps_endpoint_frame; reflexivity|].
    destruct (AMQP_CONNECTION_STATE_eq_dec new AMQP_CONNECTION_STATE_ERROR);
      injection Hstep as <- _; apply keeps_endpoint_frame; reflexivity.
Qed.

Lemma run_keeps_endpoint :
  forall ops w w' tr, run ops w = Some (w', tr) -> keeps_endpoint w w'.
Proof.
  induction ops as [|op ops IH]; intros w w' tr Hrun; simpl in Hrun.
  - injection Hrun as <- _. apply keeps_endpoint_refl.
  - destruct (step op w) as [[w1 tr1]|] eqn:Hstep; [|discriminate].
    destruct (run ops w1) as [[w2 tr2]|] eqn:Hrest; [|discriminate].
    injection Hrun as <- _.
    eapply keeps_endpoint_trans;
      [eapply step_keeps_endpoint; exact Hstep|eapply IH; exact Hrest].
Qed.

Lemma step_registry_has_mode :
  forall op w w' tr,
    step op w = Some (w', tr) ->
    registry_has_mode (w_transport w) -> registry_has_mode (w_transport w').
Proof.
  intros op w w' tr Hstep Hinv.
  assert (Hshrink : registry_size w' <= registry_size w ->
                    registry_has_mode (w_transport w')).
  { intros Hle Hne.
    assert (Hregs : registered_devices (w_transport w) <> []).
    { intros Hnil. unfold registry_size in Hle. rewrite Hnil in Hle.
      destruct (registered_devices (w_transport w')); [congruence|].
      simpl in Hle. lia. }
    specialize (Hinv Hregs).
    pose proof (step_mode op w w' tr Hstep Hinv) as Hm.
    unfold mode_of in Hm. rewrite Hm. exact Hinv. }
  pose proof (step_size op w w' tr Hstep) as Hsize.
  destruct op as [env device client q | h | env name value | env |
                  | h m | env md disposition | env message info ctx
                  | now ctx prev new | ctx m result | prev new];
    try (apply Hshrink; cbn [registry_change] in Hsize;
         try destruct (existsb _ _); lia).
  cbn [step] in Hstep. cbn [registry_change] in Hsize.
  destruct (fst (fst (IoTHubTransport_AMQP_Common_Register env w device
                        client q))) as [h|] eqn:Hres;
    [|apply Hshrink; cbn [not_NULL is_NULL negb] in Hsize; lia].
  destruct (Register_success env w device client q h Hres)
    as (device' & id & client' & q' & _ & _ & _ & _ & _ & _ & _ & Heq).
  cbv zeta in Heq. rewrite Heq in Hstep. injection Hstep as <- _.
  intros _. cbn [w_transport]. unfold save_preferred_authentication_mode.
  destruct (AUTHENTICATION_MODE_eq_dec _ _) as [Hns|Hset];
    [|cbn [andb]; exact Hset].
  cbn [preferred_authentication_mode set_registered_devices] in Hns.
  destruct (registered_devices (w_transport w)) eqn:Hregs.
  - cbn [andb]. destruct (device_authentication_mode device'); cbn;
      discriminate.
  - exfalso. apply Hinv; [rewrite Hregs; discriminate|exact Hns].
Qed.

Lemma created_transport :
  forall env z config io w,
    IoTHubTransport_AMQP_Common_Create env z config io = Some w ->
    exists cfg upper,
      config = Some cfg /\ upperConfig cfg = Some upper /\
      c_chars (iothub_host_fqdn (w_transport w))
        = get_target_iothub_fqdn upper /\
      registered_devices (w_transport w) = [] /\
      amqp_connection (w_transport w) = None /\
      tls_io (w_transport w) = None.
Proof.
  intros env z config io w H. unfold IoTHubTransport_AMQP_Common_Create in H.
  destruct config as [cfg|]; [|discriminate].
  destruct io; [|discriminate].
  destruct (upperConfig cfg) as [upper|] eqn:Hupper; [|discriminate].
  repeat (break_match_in H; try discriminate H).
  injection H as <-. exists cfg, upper. repeat split; assumption.
Qed.

Lemma reachable_invariants :
  forall w,
    reachable w ->
    registry_has_mode (w_transport w) /\ connection_has_stream (w_transport w).
Proof.
  intros w H. induction H as [env z config io w Hc|op w w' tr _ IH Hstep].
  - destruct (created_transport _ _ _ _ _ Hc)
      as (cfg & upper & _ & _ & _ & Hregs & Hconn & _).
    split; intros Hne; contradiction.
  - destruct IH as [IH1 IH2]. split.
    + eapply step_registry_has_mode; eassumption.
    + apply (step_keeps_endpoint op w w' tr Hstep). exact IH2.
Qed.

(** X20.  In every world a live transport can reach, devices are registered
    only while the preferred authentication mode is fixed: a transport whose
    mode is still unset has an empty registry. *)
Theorem registered_devices_fix_the_mode :
  forall w,
    reachable w ->
    registered_devices (w_transport w) <> [] ->
    preferred_authentication_mode (w_transport w) <>
      AMQP_TRANSPORT_AUTHENTICATION_MODE_NOT_SET.
Proof.
  intros w H. apply (reachable_invariants w H).
Qed.

Lemma registered_devices_fix_the_mode_witness :
  preferred_authentication_mode (w_transport world_with_A_and_B) <>
    AMQP_TRANSPORT_AUTHENTICATION_MODE_NOT_SET.
Proof.
  apply (registered_devices_fix_the_mode world_with_A_and_B).
  - apply world_with_A_and_B_is_reachable.
  - vm_compute. discriminate.
Defined.

(** X21.  In every world a live transport can reach, a connection is held
    only together with the byte-stream it runs on: whenever
    [amqp_connection] is set, [tls_io] is set. *)
Theorem connection_runs_on_a_stream :
  forall w,
    reachable w ->
    amqp_connection (w_transport w) <> None ->
    tls_io (w_transport w) <> None.
Proof.
  intros w H. apply (reachable_invariants w H).
Qed.

(** X22.  The host name of a transport is fixed at creation: after any run
    of operations and callbacks on a transport created from a configuration,
    GetHostname returns a fresh string whose characters are the protocol
    gateway host name of that configuration when it has one, and otherwise
    its hub name, a dot, and its hub suffix. *)
Theorem hostname_is_fixed_at_creation :
  forall env z cfg upper io ops w w' tr,
    upperConfig cfg = Some upper ->
    IoTHubTransport_AMQP_Common_Create env z (Some cfg) io = Some w ->
    run ops w = Some (w', tr) ->
    exists copy,
      fst (IoTHubTransport_AMQP_Common_GetHostname true w') = Some copy /\
      c_addr copy = heap_ptr (w_next w') /\
      c_chars copy
        = match protocolGatewayHostName upper with
          | Some gateway => gateway
          | None => (iotHubName upper ++ "." ++ iotHubSuffix upper)%string
          end.
Proof.
  intros env z cfg upper io ops w w' tr Hupper Hc Hrun.
  destruct (created_transport _ _ _ _ _ Hc)
    as (cfg' & upper' & Hcfg & Hupper' & Hchars & _).
  injection Hcfg as <-. rewrite Hupper in Hupper'. injection Hupper' as <-.
  destruct (run_keeps_endpoint ops w w' tr Hrun) as [Hf _].
  unfold IoTHubTransport_AMQP_Common_GetHostname.
  cbv beta iota zeta delta [alloc]. cbn [fst].
  eexists. split; [reflexivity|]. split; [reflexivity|].
  cbn [c_chars]. rewrite Hf, Hchars. unfold get_target_iothub_fqdn.
  destruct (protocolGatewayHostName upper); reflexivity.
Qed.

Lemma hostname_is_fixed_at_creation_witness :
  exists copy,
    fst (IoTHubTransport_AMQP_Common_GetHostname true
           gateway_world_with_A_and_B) = Some copy /\
    c_addr copy = heap_ptr (w_next gateway_world_with_A_and_B) /\
    c_chars copy
      = match protocolGatewayHostName a_gateway_client_config with
        | Some gateway => gateway
        | None => (iotHubName a_gateway_client_config ++ "."
                   ++ iotHubSuffix a_gateway_client_config)%string
        end.
Proof.
  eapply (hostname_is_fixed_at_creation env_ok AMQP_CONNECTION_STATE_CLOSED
            a_gateway_config a_gateway_client_config (Some (user_ptr 7))
            registrations_of_A_and_B gateway_world
            gateway_world_with_A_and_B).
  - reflexivity.
  - reflexivity.
  - vm_compute. reflexivity.
Defined.

Lemma world_after_connecting_is_reachable : reachable world_after_connecting.
Proof.
  eapply (run_reachable operations_connecting fresh_world).
  - eapply reachable_create. apply fresh_world_is_created.
  - vm_compute. reflexivity.
Qed.

Lemma connection_runs_on_a_stream_witness :
  tls_io (w_transport world_after_connecting) <> None.
Proof.
  apply (connection_runs_on_a_stream world_after_connecting).
  - apply world_after_connecting_is_reachable.
  - vm_compute. discriminate.
Defined.

(** ** Receiving messages and subscriptions (lines 255-357, 1287-1346) *)

(** X23.  A message received for a registered device is either taken by the
    upper client or released.  The verdict returned to the device session is
    NONE, with the callback info kept for the later disposition, exactly
    when the callback info could be assembled and the upper client accepted
    the message; otherwise the verdict is RELEASED and nobody holds a
    callback info for a later disposition.  The transport destroys the
    message payload only when the upper client was called and refused it,
    and it never destroys the callback info here, not even the one the upper
    client refused; the transport instance is left as it was. *)
Theorem received_message_is_taken_or_released :
  forall env w message info context device,
    device_of (registered_devices (w_transport w)) context = Some device ->
    let taken :=
      callback_info_can_be_created env
      && env_IoTHubClient_LL_MessageCallback env in
    exists md w' tr,
      on_message_received env w message info context
        = Some (if taken then DEVICE_MESSAGE_DISPOSITION_RESULT_NONE
                else DEVICE_MESSAGE_DISPOSITION_RESULT_RELEASED,
                md, w', tr) /\
      is_NULL md = negb taken /\
      (forall message_data,
         md = Some message_data ->
         exists ctx,
           message_data = mk_callback_info (Some message) (Some ctx) /\
           ctx_device_state ctx = context /\
           c_chars (link_name ctx) = c_chars (info_source info) /\
           message_id ctx = info_message_id info) /\
      destroys_payload tr
        = callback_info_can_be_created env
          && negb (env_IoTHubClient_LL_MessageCallback env) /\
      destroys_context tr = false /\
      w_transport w' = w_transport w.
Proof.
  intros env w message info context device Hdev. cbv zeta.
  unfold on_message_received, MESSAGE_CALLBACK_INFO_Create,
    callback_info_can_be_created.
  rewrite Hdev. cbv beta iota zeta delta [alloc].
  destruct (env_malloc env 0); cbn [negb andb].
  2: { do 3 eexists. split; [reflexivity|].
       repeat split; try reflexivity. intros md H. discriminate H. }
  destruct (env_malloc env 1); cbn [negb andb].
  2: { do 3 eexists. split; [reflexivity|].
       repeat split; try reflexivity. intros md H. discriminate H. }
  destruct (env_mallocAndStrcpy_s env); cbn [negb andb].
  2: { do 3 eexists. split; [reflexivity|].
       repeat split; try reflexivity. intros md H. discriminate H. }
  destruct (env_IoTHubClient_LL_MessageCallback env); cbn [negb andb].
  - do 3 eexists. split; [reflexivity|].
    repeat split; try reflexivity.
    intros md H. injection H as <-. eexists. repeat split; reflexivity.
  - do 3 eexists. split; [reflexivity|].
    repeat split; try reflexivity. intros md H. discriminate H.
Qed.

Lemma received_message_is_taken_or_released_witness :
  exists md w' tr,
    on_message_received env_client_refuses_messages world_with_A_and_B
      (user_ptr 30) a_disposition_info (heap_ptr 3)
      = Some (DEVICE_MESSAGE_DISPOSITION_RESULT_RELEASED, md, w', tr) /\
    is_NULL md = true /\
    (forall message_data,
       md = Some message_data ->
       exists ctx,
         message_data = mk_callback_info (Some (user_ptr 30)) (Some ctx) /\
         ctx_device_state ctx = heap_ptr 3 /\
         c_chars (link_name ctx) = c_chars (info_source a_disposition_info) /\
         message_id ctx = info_message_id a_disposition_info) /\
    destroys_payload tr = true /\
    destroys_context tr = false /\
    w_transport w' = w_transport world_with_A_and_B.
Proof.
  apply (received_message_is_taken_or_released env_client_refuses_messages
           world_with_A_and_B (user_ptr 30) a_disposition_info (heap_ptr 3)
           device_A).
  reflexivity.
Defined.

Lemma registered_device_is_found :
  forall l h d, device_of l h = Some d -> is_device_registered l d = true.
Proof.
  intros l h d H. apply device_of_In in H.
  unfold is_device_registered, is_device_registered_ex, singlylinkedlist_find.
  destruct (find _ l) as [item|] eqn:Hfind; [reflexivity|].
  exfalso.
  pose proof (find_none _ _ Hfind (h, d) H) as Hcb.
  unfold find_device_by_id_callback in Hcb. cbn [snd] in Hcb.
  destruct (addr_eq_dec _ _) as [_|Hc]; [discriminate Hcb|].
  apply Hc. reflexivity.
Qed.

(** X24.  Subscribing or unsubscribing through the handle of a registered
    device always reaches the device session of that device: the
    registration check of the two functions finds every registered device,
    whatever else the registry holds.  Subscribe passes the handle as the
    context of the message callback and returns what
    [device_subscribe_message] returns; Unsubscribe makes the one call to
    [device_unsubscribe_message]. *)
Theorem subscription_reaches_the_registered_session :
  forall subscribed unsubscribed w h d,
    device_of (registered_devices (w_transport w)) h = Some d ->
    IoTHubTransport_AMQP_Common_Subscribe subscribed w (Some h)
      = (if subscribed then RESULT_OK else FAILURE,
         [call_device_subscribe_message (device_handle d) h subscribed]) /\
    IoTHubTransport_AMQP_Common_Unsubscribe unsubscribed w (Some h)
      = [call_device_unsubscribe_message (device_handle d) unsubscribed].
Proof.
  intros subscribed unsubscribed w h d Hdev.
  unfold IoTHubTransport_AMQP_Common_Subscribe,
    IoTHubTransport_AMQP_Common_Unsubscribe.
  cbv zeta. rewrite Hdev, (registered_device_is_found _ h d Hdev).
  cbn [negb]. destruct subscribed; split; reflexivity.
Qed.

Lemma subscription_reaches_the_registered_session_witness :
  IoTHubTransport_AMQP_Common_Subscribe true world_with_A_and_B
    (Some (heap_ptr 6))
    = (RESULT_OK,
       [call_device_subscribe_message (device_handle device_B) (heap_ptr 6)
          true]) /\
  IoTHubTransport_AMQP_Common_Unsubscribe false world_with_A_and_B
    (Some (heap_ptr 6))
    = [call_device_unsubscribe_message (device_handle device_B) false].
Proof.
  apply (subscription_reaches_the_registered_session true false
           world_with_A_and_B (heap_ptr 6) device_B).
  reflexivity.
Defined.

Lemma created_transport_defaults :
  forall env z config io w,
    IoTHubTransport_AMQP_Common_Create env z config io = Some w ->
    w_next w = 3%nat /\
    preferred_authentication_mode (w_transport w)
      = AMQP_TRANSPORT_AUTHENTICATION_MODE_NOT_SET /\
    forall o, transport_option (w_transport w) o = default_option o.
Proof.
  intros env z config io w H. unfold IoTHubTransport_AMQP_Common_Create in H.
  repeat (break_match_in H; try discriminate H).
  injection H as <-. repeat split.
Qed.

(** X25.  The first device registered on a freshly created transport gets
    the default options: when Register returns a handle, the calls made are
    the creation of the device session, for the host name the transport was
    created with, followed by one [device_set_option] per replicated option
    with the default value of that option (300 for the event send timeout
    and, for a device with a key or a SAS token, 30 for the CBS request
    timeout, 3600 for the SAS token lifetime and 1800 for the SAS token
    refresh time); the preferred mode of the transport becomes the mode of
    the device's credentials. *)
Theorem first_device_gets_the_default_options :
  forall env env' z cfg upper io w device client q h,
    upperConfig cfg = Some upper ->
    IoTHubTransport_AMQP_Common_Create env z (Some cfg) io = Some w ->
    fst (fst (IoTHubTransport_AMQP_Common_Register env' w (Some device)
                client q)) = Some h ->
    let res :=
      IoTHubTransport_AMQP_Common_Register env' w (Some device) client q in
    let mode := device_authentication_mode device in
    exists config,
      snd res
        = call_device_create config true
          :: map (fun o => call_device_set_option (heap_ptr 5) o
                             (default_option o) true)
               (replicated_options mode) /\
      c_chars (cfg_iothub_host_fqdn config) = get_target_iothub_fqdn upper /\
      Some (cfg_device_id config) = deviceId device /\
      cfg_authentication_mode config = mode /\
      h = heap_ptr 3 /\
      preferred_authentication_mode (w_transport (snd (fst res)))
        = match mode with
          | DEVICE_AUTH_MODE_CBS => AMQP_TRANSPORT_AUTHENTICATION_MODE_CBS
          | DEVICE_AUTH_MODE_X509 => AMQP_TRANSPORT_AUTHENTICATION_MODE_X509
          end.
Proof.
  intros env env' z cfg upper io w device client q h Hupper Hc Hh. cbv zeta.
  destruct (created_transport _ _ _ _ _ Hc)
    as (cfg' & upper' & Hcfg & Hupper' & Hchars & Hregs & _).
  injection Hcfg as <-. rewrite Hupper in Hupper'. injection Hupper' as <-.
  destruct (created_transport_defaults _ _ _ _ _ Hc) as (Hnext & Hmode & Hopt).
  destruct (Register_success env' w (Some device) client q h Hh)
    as (device' & id & client' & q' & Hd & Hid & _ & _ & _ & _ & -> & Heq).
  injection Hd as <-. cbv zeta in Heq. rewrite Heq. cbn [fst snd].
  rewrite Hnext, Hregs. eexists.
  split; [|split; [|split; [|split; [|split]]]].
  - f_equal. apply map_ext. intros o. rewrite Hopt. reflexivity.
  - exact Hchars.
  - cbn. symmetry. exact Hid.
  - reflexivity.
  - reflexivity.
  - unfold save_preferred_authentication_mode. cbn [w_transport].
    cbn [preferred_authentication_mode set_registered_devices].
    rewrite Hmode.
    destruct (AUTHENTICATION_MODE_eq_dec _ _) as [_|Hn];
      [|exfalso; apply Hn; reflexivity].
    cbn [andb]. destruct (device_authentication_mode device); reflexivity.
Qed.

Lemma first_device_gets_the_default_options_witness :
  exists config,
    snd (IoTHubTransport_AMQP_Common_Register env_ok gateway_world
           (Some config_of_A_with_key) a_client empty_queue)
      = call_device_create config true
        :: map (fun o => call_device_set_option (heap_ptr 5) o
                           (default_option o) true)
             (replicated_options
                (device_authentication_mode config_of_A_with_key)) /\
    c_chars (cfg_iothub_host_fqdn config)
      = get_target_iothub_fqdn a_gateway_client_config /\
    Some (cfg_device_id config) = deviceId config_of_A_with_key /\
    cfg_authentication_mode config
      = device_authentication_mode config_of_A_with_key /\
    heap_ptr 3 = heap_ptr 3 /\
    preferred_authentication_mode
      (w_transport
         (snd (fst (IoTHubTransport_AMQP_Common_Register env_ok gateway_world
                      (Some config_of_A_with_key) a_client empty_queue))))
      = match device_authentication_mode config_of_A_with_key with
        | DEVICE_AUTH_MODE_CBS => AMQP_TRANSPORT_AUTHENTICATION_MODE_CBS
        | DEVICE_AUTH_MODE_X509 => AMQP_TRANSPORT_AUTHENTICATION_MODE_X509
        end.
Proof.
  apply (first_device_gets_the_default_options env_ok env_ok
           AMQP_CONNECTION_STATE_CLOSED a_gateway_config
           a_gateway_client_config (Some (user_ptr 7)) gateway_world
           config_of_A_with_key a_client empty_queue (heap_ptr 3)).
  - reflexivity.
  - reflexivity.
  - reflexivity.
Defined.

(** ** State changes reported by the device session (lines 193-204) *)

Lemma update_device_device_of :
  forall l h f d,
    device_of l h = Some d ->
    device_of (update_device l h f) h = Some (f d) /\
    forall h', h' <> h -> device_of (update_device l h f) h' = device_of l h'.
Proof.
  induction l as [|[h0 d0] l IH]; intros h f d Hdev; [discriminate|].
  cbn [device_of update_device] in *.
  destruct (addr_eq_dec h0 h) as [->|Hne].
  - injection Hdev as ->. cbn [device_of].
    destruct (addr_eq_dec h h) as [_|Hc]; [|exfalso; apply Hc; reflexivity].
    split; [reflexivity|]. intros h' Hh'.
    destruct (addr_eq_dec h h') as [->|_]; [contradiction|].
    destruct (device_of l h) as [d1|] eqn:Hl.
    + apply (IH h f d1 Hl). exact Hh'.
    + clear IH. induction l as [|[h1 d1] l IHl]; [reflexivity|].
      cbn [device_of update_device] in *.
      destruct (addr_eq_dec h1 h) as [->|Hne1]; [discriminate|].
      cbn [device_of]. destruct (addr_eq_dec h1 h'); [reflexivity|].
      apply IHl. exact Hl.
  - destruct (IH h f d Hdev) as [IH1 IH2]. cbn [device_of].
    destruct (addr_eq_dec h0 h) as [Hc|_]; [contradiction|].
    split; [exact IH1|]. intros h' Hh'.
    destruct (addr_eq_dec h0 h'); [reflexivity|]. apply IH2. exact Hh'.
Qed.

(** X26.  A state change reported by a device session restarts the timeout
    clock of that device and of no other: the device takes the new state and
    the time of the report, every other handle leads to the device it led
    to.  When the new state is STARTING or STOPPING, the next tick of the
    device succeeds exactly when the time of the report and the clock could
    both be read and less than the state-change timeout has elapsed between
    them. *)
Theorem state_change_restarts_the_timeout_clock :
  forall env t now l h d prev new,
    device_of l h = Some d ->
    new <> prev ->
    let l' := on_device_state_changed_callback now l (Some h) prev new in
    exists d',
      device_of l' h = Some d' /\
      device_state d' = new /\
      time_of_last_state_change d' = now /\
      device_handle d' = device_handle d /\
      waiting_to_send d' = waiting_to_send d /\
      (forall h', h' <> h -> device_of l' h' = device_of l h') /\
      (new = DEVICE_STATE_STARTING \/ new = DEVICE_STATE_STOPPING ->
       (fst (fst (IoTHubTransport_AMQP_Common_Device_DoWork env t d'))
          = RESULT_OK <->
        now <> INDEFINITE_TIME /\
        env_get_time env (device_handle d) <> INDEFINITE_TIME /\
        get_difftime (env_get_time env (device_handle d)) now
          < max_state_change_timeout_secs d)).
Proof.
  intros env t now l h d prev new Hdev Hne. cbv zeta.
  unfold on_device_state_changed_callback.
  destruct (DEVICE_STATE_eq_dec new prev) as [Heq|_]; [contradiction|].
  destruct (update_device_device_of l h
              (fun d0 => set_time_of_last_state_change
                           (set_device_state d0 new) now) d Hdev)
    as [H1 H2].
  eexists. split; [exact H1|].
  repeat (split; [reflexivity|]). split; [exact H2|].
  intros Hstate. unfold IoTHubTransport_AMQP_Common_Device_DoWork.
  cbn [device_state set_time_of_last_state_change set_device_state].
  assert (Hc : fst (fst (check_state_change_timeout env
                           (set_time_of_last_state_change
                              (set_device_state d new) now))) = RESULT_OK <->
               now <> INDEFINITE_TIME /\
               env_get_time env (device_handle d) <> INDEFINITE_TIME /\
               get_difftime (env_get_time env (device_handle d)) now
                 < max_state_change_timeout_secs d).
  { unfold check_state_change_timeout, is_timeout_reached.
    cbn [time_of_last_state_change device_handle
         max_state_change_timeout_secs set_time_of_last_state_change
         set_device_state].
    destruct (now =? INDEFINITE_TIME) eqn:Hn.
    - apply Z.eqb_eq in Hn. cbn [fst].
      split; [discriminate|]. intros (H & _). contradiction.
    - apply Z.eqb_neq in Hn.
      destruct (env_get_time env (device_handle d) =? INDEFINITE_TIME)
        eqn:Hk.
      + apply Z.eqb_eq in Hk. cbn [fst].
        split; [discriminate|]. intros (_ & H & _). contradiction.
      + apply Z.eqb_neq in Hk.
        destruct (get_difftime (env_get_time env (device_handle d)) now
                  >=? max_state_change_timeout_secs d) eqn:Hge;
          rewrite Z.geb_leb in Hge; cbn [fst].
        * apply Z.leb_le in Hge. split; [discriminate|]. intros (_ & _ & H).
          lia.
        * apply Z.leb_gt in Hge. split; [|reflexivity]. intros _.
          repeat split; assumption. }
  destruct Hstate as [-> | ->];
    destruct (check_state_change_timeout env _) as [[r d1] tr];
    cbn [fst] in *; exact Hc.
Qed.

Lemma state_change_restarts_the_timeout_clock_witness :
  exists d',
    device_of
      (on_device_state_changed_callback 100
         (registered_devices (w_transport world_with_A_and_B))
         (Some (heap_ptr 3)) DEVICE_STATE_STOPPED DEVICE_STATE_STARTING)
      (heap_ptr 3) = Some d' /\
    device_state d' = DEVICE_STATE_STARTING /\
    time_of_last_state_change d' = 100 /\
    device_handle d' = device_handle device_A /\
    waiting_to_send d' = waiting_to_send device_A /\
    (forall h', h' <> heap_ptr 3 ->
       device_of
         (on_device_state_changed_callback 100
            (registered_devices (w_transport world_with_A_and_B))
            (Some (heap_ptr 3)) DEVICE_STATE_STOPPED DEVICE_STATE_STARTING)
         h'
       = device_of (registered_devices (w_transport world_with_A_and_B)) h')
    /\
    (DEVICE_STATE_STARTING = DEVICE_STATE_STARTING \/
     DEVICE_STATE_STARTING = DEVICE_STATE_STOPPING ->
     (fst (fst (IoTHubTransport_AMQP_Common_Device_DoWork env_ok
                  (w_transport world_with_A_and_B) d'))
        = RESULT_OK <->
      100 <> INDEFINITE_TIME /\
      env_get_time env_ok (device_handle device_A) <> INDEFINITE_TIME /\
      get_difftime (env_get_time env_ok (device_handle device_A)) 100
        < max_state_change_timeout_secs device_A)).
Proof.
  apply (state_change_restarts_the_timeout_clock env_ok
           (w_transport world_with_A_and_B) 100
           (registered_devices (w_transport world_with_A_and_B))
           (heap_ptr 3) device_A DEVICE_STATE_STOPPED DEVICE_STATE_STARTING).
  - reflexivity.
  - discriminate.
Defined.
